(** * Vertex colouring fallback of Hunyuan3D-2: [hy3dgen/texgen/vertex_coloring.py]

    A shallow embedding of [apply_vertex_colors] and of the NumPy operations
    it is written with, followed by the properties of the routine.

    - Coordinates are IEEE binary64 values ([spec_float] with precision 53 and
      maximal exponent 1024), so that division by a zero bounding-box size
      yields NaN or an infinity exactly as [numpy.float64] does.
    - Arrays are lists of rows; the in-place writes of the sampling loop are
      list updates by index.
    - Python objects live in a store indexed by locations, so that sharing
      and copying (the metadata mapping, the arrays handed to the new mesh)
      are visible.
    - The constructor of the mesh library is modelled with the processing it
      applies by default (unreferenced and duplicate vertices are dropped,
      the metadata entry [processed] is set).
    - A raised exception is the left summand of the result.

    The model loader, the logger and the timer of
    [hy3dgen/shapegen/utils.py] and the script [download_models.py] follow in
    modules of their own, with the file system, the model hub and the CUDA
    device as parameters. *)

From Stdlib Require Import ZArith Bool List Lia Ascii.
From Stdlib Require Import Floats.SpecFloat.
From stdpp Require Import gmap strings list fin_maps.

Local Open Scope Z_scope.

(** ** Exceptions *)

Inductive exn :=
| ValueError      (* reduction of an empty array, shapes that do not broadcast *)
| IndexError      (* index outside an axis *)
| AttributeError. (* the object is not of the expected class *)

Definition result (A : Type) : Type := exn + A.

Definition ok {A} (a : A) : result A := inr a.
Definition raise {A} (e : exn) : result A := inl e.

Definition rbind {A B} (r : result A) (k : A -> result B) : result B :=
  match r with
  | inl e => inl e
  | inr a => k a
  end.

Definition raises {A} (r : result A) : Prop := exists e, r = inl e.

(** ** binary64 *)

Module F64.

Definition prec : Z := 53.
Definition emax : Z := 1024.

Abbreviation float64 := spec_float.

Definition sub : float64 -> float64 -> float64 := SFsub prec emax.
Definition mul : float64 -> float64 -> float64 := SFmul prec emax.
Definition div : float64 -> float64 -> float64 := SFdiv prec emax.

Definition leb : float64 -> float64 -> bool := SFleb.
Definition geb (a b : float64) : bool := SFleb b a.
Definition eqb : float64 -> float64 -> bool := SFeqb.

Definition isnan (x : float64) : bool :=
  match x with
  | S754_nan => true
  | _ => false
  end.

Definition is_finite (x : float64) : bool :=
  match x with
  | S754_zero _ | S754_finite _ _ _ => true
  | _ => false
  end.


(** Conversion of a Python integer to binary64 (round to nearest even). *)
Definition of_int (z : Z) : float64 := binary_normalize prec emax z 0 false.

Definition zero : float64 := S754_zero false.
Definition one : float64 := of_int 1.

(** The integer part of a finite value, rounded toward zero. *)
Definition trunc (s : bool) (m : positive) (e : Z) : Z :=
  cond_Zopp s (Z.shiftl (Zpos m) e).


End F64.

Import F64.

(** ** Arrays *)

(** A row of an (n, 3) float64 array. *)
Record vec3 := V3 { vx : float64; vy : float64; vz : float64 }.

(** Element-wise binary operation on rows; this is also what broadcasting
    a row against every row of an (n, 3) array applies to each of them. *)
Definition vzip (f : float64 -> float64 -> float64) (a b : vec3) : vec3 :=
  V3 (f (vx a) (vx b)) (f (vy a) (vy b)) (f (vz a) (vz b)).

(** A three-dimensional integer array with its shape.  The shape is kept
    next to the data because an array with an empty axis still has the
    other two dimensions. *)
Record ndarray3 := Ndarray3 {
  shape0 : nat;
  shape1 : nat;
  shape2 : nat;
  data : list (list (list Z))
}.

(** The data has the extent the shape announces. *)
Definition wf_ndarray3 (a : ndarray3) : Prop :=
  length (data a) = shape0 a /\
  Forall (fun row => length row = shape1 a /\
                     Forall (fun px => length px = shape2 a) row) (data a).

(** Every element fits the 8-bit unsigned depth of a reference image. *)
Definition uint8_ndarray3 (a : ndarray3) : Prop :=
  Forall (Forall (Forall (fun c => 0 <= c <= 255))) (data a).

(** ** NumPy operations used by the routine *)

Section Numpy.

(** Converting NaN, an infinity or a value outside the 64-bit range to an
    integer is undefined in C; NumPy returns what the hardware conversion
    returns (-2^63 on x86-64, 0 or a saturated value on AArch64, 2^63-1 for
    NaN on RISC-V).  The development is parametric in that value. *)
Variable invalid_cast : Z.

(** [np.minimum] and [np.maximum] as the reduction applies them: the
    accumulator is kept when the comparison holds or when it is NaN. *)
Definition np_minimum (io1 in2 : float64) : float64 :=
  if leb io1 in2 || isnan io1 then io1 else in2.

Definition np_maximum (io1 in2 : float64) : float64 :=
  if geb io1 in2 || isnan io1 then io1 else in2.

(** [a.min(axis=0)] / [a.max(axis=0)] on an (n, 3) array: a reduction
    without identity, which raises on an empty array. *)
Definition reduce_axis0 (f : float64 -> float64 -> float64)
    (a : list vec3) : result vec3 :=
  match a with
  | [] => raise ValueError
  | r :: rs => ok (fold_left (vzip f) rs r)
  end.

(** [x.astype(int)] on one element. *)
Definition astype_int (x : float64) : Z :=
  match x with
  | S754_zero _ => 0
  | S754_finite s m e =>
      let t := trunc s m e in
      if (- 2 ^ 63 <=? t) && (t <? 2 ^ 63) then t else invalid_cast
  | S754_infinity _ | S754_nan => invalid_cast
  end.

(** [np.clip(x, lo, hi)] on one element: [minimum(maximum(x, lo), hi)]. *)
Definition clip (x lo hi : Z) : Z := Z.min (Z.max x lo) hi.

(** An integer index into an axis of extent [n]; negative indices count
    from the end. *)
Definition axis_index (n : nat) (i : Z) : result nat :=
  if (0 <=? i) && (i <? Z.of_nat n) then ok (Z.to_nat i)
  else if (- Z.of_nat n <=? i) && (i <? 0) then ok (Z.to_nat (i + Z.of_nat n))
  else raise IndexError.

(** The channel vector stored at row [r], column [c]. *)
Definition pixel (a : ndarray3) (r c : nat) : list Z :=
  default [] (row ← data a !! r; row !! c).

(** [a[y, x, :]]: the channel vector of one pixel, after the bounds
    checks of both axes. *)
Definition getitem_yx (a : ndarray3) (y x : Z) : result (list Z) :=
  rbind (axis_index (shape0 a) y) (fun r =>
  rbind (axis_index (shape1 a) x) (fun c =>
  ok (pixel a r c))).

(** Storing into a [uint8] array wraps modulo 256. *)
Definition to_uint8 (c : Z) : Z := c mod 256.

(** [row[:k] = src]: the source must have [k] elements or a single one,
    which is then repeated; anything else does not broadcast. *)
Definition setitem_prefix (k : nat) (src : list Z) (row : list Z)
    : result (list Z) :=
  if decide (length src = k) then
    ok ((to_uint8 <$> src) ++ drop k row)
  else
    match src with
    | [c] => ok (replicate k (to_uint8 c) ++ drop k row)
    | _ => raise ValueError
    end.

End Numpy.

Global Instance result_ret : MRet result := @ok.
Global Instance result_bind : MBind result := fun A B k r => rbind r k.

(** ** The colour computation (lines 29-60 of the source) *)

Section Colors.

Variable invalid_cast : Z.

(** [l[i]] on a one-dimensional array, for [i] produced by [range]. *)
Definition item {A} (l : list A) (i : nat) : result A :=
  match l !! i with
  | Some a => ok a
  | None => raise IndexError
  end.

(** [(vertices - min_bounds) / size]. *)
Definition normalize (min_bounds size : vec3) (vertices : list vec3)
    : list vec3 :=
  (fun v => vzip div (vzip sub v min_bounds) size) <$> vertices.

(** [np.ones((n, 4), dtype=np.uint8) * 255]. *)
Definition ones_255 (n : nat) : list (list Z) :=
  replicate n [255; 255; 255; 255].

(** [(column * extent).astype(int)] followed by
    [np.clip(_, 0, extent - 1)]. *)
Definition project (extent : Z) (column : list float64) : list Z :=
  (fun i => clip i 0 (extent - 1))
    <$> ((fun c => astype_int invalid_cast (mul c (of_int extent)))
           <$> column).

(** One iteration of the sampling loop: the channel test, the pixel read
    and the write into row [i] of [vertex_colors]. *)
Definition sample_step (image_array : ndarray3) (img_y img_x : list Z)
    (i : nat) (vertex_colors : list (list Z)) : result (list (list Z)) :=
  y ← item img_y i;
  x ← item img_x i;
  px ← getitem_yx image_array y x;
  row ← item vertex_colors i;
  row' ← (if decide (shape2 image_array = 4%nat)
          then setitem_prefix 4 px row
          else setitem_prefix 3 px row);
  ok (<[i := row']> vertex_colors).

(** [for i in range(len(vertices)): ...] *)
Fixpoint sample_loop (image_array : ndarray3) (img_y img_x : list Z)
    (range : list nat) (vertex_colors : list (list Z))
    : result (list (list Z)) :=
  match range with
  | [] => ok vertex_colors
  | i :: rest =>
      vertex_colors' ←
        sample_step image_array img_y img_x i vertex_colors;
      sample_loop image_array img_y img_x rest vertex_colors'
  end.

(** Lines 33-60: from the vertex array and the image array to the
    colour array. *)
Definition compute_vertex_colors (vertices : list vec3)
    (image_array : ndarray3) : result (list (list Z)) :=
  min_bounds ← reduce_axis0 np_minimum vertices;
  max_bounds ← reduce_axis0 np_maximum vertices;
  let size := vzip sub max_bounds min_bounds in
  let normalized_verts := normalize min_bounds size vertices in
  let vertex_colors := ones_255 (length vertices) in
  let img_height := Z.of_nat (shape0 image_array) in
  let img_width := Z.of_nat (shape1 image_array) in
  let img_x := project img_width (vx <$> normalized_verts) in
  let img_y := project img_height (vy <$> normalized_verts) in
  sample_loop image_array img_y img_x
    (seq 0 (length vertices)) vertex_colors.

End Colors.

(** ** The object store *)

Definition loc := nat.

(** Values of a metadata mapping: immediate data or a reference to another
    object, which a shallow copy shares. *)
Inductive value :=
| VInt (z : Z)
| VStr (s : string)
| VBool (b : bool)
| VRef (l : loc).

Definition face : Type := nat * nat * nat.

(** Modelled from the spec: the mesh class [trimesh.Trimesh] and the image
    class [PIL.Image.Image] are third-party classes whose declarations are
    not part of the sources.  Following the data model of the specification,
    a mesh object refers to a vertex array and a face array and has an
    optional colour attribute and optional metadata.  A PIL image converts
    to the array of its pixels; the arrays here have the three axes of an
    image with bands (an image of one band converts to an array of two
    axes, which [ndarray3] does not hold). *)
Inductive obj :=
| OVertices (a : list vec3)
| OFaces (a : list face)
| OColors (a : list (list Z))
| ONdarray (a : ndarray3)
| OPilImage (a : ndarray3)
| ODict (d : gmap string value)
| OTrimesh (vertices faces : loc) (vertex_colors metadata : option loc).

Abbreviation heap := (gmap loc obj).

(** Computations that read and update the store and may raise; the store
    is also returned when an exception ends the computation. *)
Definition M (A : Type) : Type := heap -> result A * heap.

Global Instance M_ret : MRet M := fun A a σ => (ok a, σ).
Global Instance M_bind : MBind M := fun A B k m σ =>
  match m σ with
  | (inl e, σ') => (inl e, σ')
  | (inr a, σ') => k a σ'
  end.

Definition lift {A} (r : result A) : M A := fun σ => (r, σ).

(** A new object is placed at a location the store does not use. *)
Definition alloc (o : obj) : M loc := fun σ =>
  let l := fresh (dom σ) in (ok l, <[l := o]> σ).

(** Attribute assignment on the object at [l]. *)
Definition store (l : loc) (o : obj) : M unit := fun σ =>
  (ok tt, <[l := o]> σ).

Definition load (l : loc) : M obj := fun σ =>
  match σ !! l with
  | Some o => (ok o, σ)
  | None => (raise AttributeError, σ)
  end.

(** ** The routine *)

Section Routine.

Variable invalid_cast : Z.

(** Lines 24-27: a PIL image is converted with [np.array]; anything else
    is used as the array it is. *)
Definition as_image_array (image : loc) : M ndarray3 :=
  o ← load image;
  match o with
  | OPilImage a => mret a
  | ONdarray a => mret a
  | _ => lift (raise AttributeError)
  end.

(** The attributes of a mesh object. *)
Definition load_mesh (mesh : loc)
    : M (loc * loc * option loc * option loc) :=
  o ← load mesh;
  match o with
  | OTrimesh v f c md => mret (v, f, c, md)
  | _ => lift (raise AttributeError)
  end.

(** [mesh.vertices.copy()]: the rows of the vertex array, detached from
    the mesh. *)
Definition copy_vertices (l : loc) : M (list vec3) :=
  o ← load l;
  match o with
  | OVertices a => mret a
  | _ => lift (raise AttributeError)
  end.

(** [d.copy()] on a mapping: a new mapping object with the same keys and
    the same values. *)
Definition dict_copy (l : loc) : M loc :=
  o ← load l;
  match o with
  | ODict d => alloc (ODict d)
  | _ => lift (raise AttributeError)
  end.

(** Lines 24-74 with the constructor taken as storing what it is given:
    the new mesh refers to the arrays of the input mesh and to the array
    [vertex_colors] of lines 41-60 as computed.  The properties of the
    colour computation are stated on this routine;
    [apply_vertex_colors_processed] below is the routine with the
    constructor as the library runs it, which decides what the returned
    mesh keeps of the arrays. *)
Definition apply_vertex_colors (mesh image : loc) : M loc :=
  image_array ← as_image_array image;
  '(mesh_vertices, mesh_faces, _, mesh_metadata) ← load_mesh mesh;
  vertices ← copy_vertices mesh_vertices;
  vertex_colors ← lift (compute_vertex_colors invalid_cast vertices image_array);
  colors ← alloc (OColors vertex_colors);
  new_mesh ← alloc (OTrimesh mesh_vertices mesh_faces (Some colors) None);
  match mesh_metadata with
  | Some md =>
      md' ← dict_copy md;
      _ ← store new_mesh (OTrimesh mesh_vertices mesh_faces (Some colors) (Some md'));
      mret new_mesh
  | None => mret new_mesh
  end.

End Routine.

(** ** The constructor of the library

    The library [trimesh] is not part of the sources.  Its constructor is
    called at lines 63-67 without [process], which the library takes as
    [process=True]: the new mesh goes through [Trimesh.process()], whose
    default steps are [remove_infinite_values()] and [merge_vertices()], and
    is marked with the metadata entry [processed].  [merge_vertices]
    compares the vertices by their coordinates multiplied by [10**8] and
    rounded to integers, keeps of the vertices some face refers to the first
    one of every row in the order of the array, and re-indexes the faces;
    the colours follow their vertices. *)

Definition merge_key : Type := Z * Z * Z.

Section Trimesh.

Variable invalid_cast : Z.

(** The nearest integer of a finite value, ties going to the even one
    ([np.round]). *)
Definition rint (s : bool) (m : positive) (e : Z) : Z :=
  if 0 <=? e then cond_Zopp s (Z.shiftl (Zpos m) e)
  else
    let d := 2 ^ (- e) in
    let q := Zpos m / d in
    let r := Zpos m mod d in
    cond_Zopp s
      (if 2 * r <? d then q
       else if d <? 2 * r then q + 1
       else if Z.even q then q else q + 1).

(** [(x * 10**8).round().astype(np.int64)] on one element. *)
Definition merge_digits (x : float64) : Z :=
  match mul x (of_int 100000000) with
  | S754_zero _ => 0
  | S754_finite s m e =>
      let n := rint s m e in
      if (- 2 ^ 63 <=? n) && (n <? 2 ^ 63) then n else invalid_cast
  | S754_infinity _ | S754_nan => invalid_cast
  end.

(** The row under which [merge_vertices] compares a vertex: vertices that
    agree to 8 decimals have the same row. *)
Definition key_of (v : vec3) : merge_key :=
  (merge_digits (vx v), merge_digits (vy v), merge_digits (vz v)).

Definition finite3 (v : vec3) : bool :=
  is_finite (vx v) && is_finite (vy v) && is_finite (vz v).

Definition face_in_range (n : nat) (f : face) : bool :=
  let '(a, b, c) := f in
  (a <? n)%nat && (b <? n)%nat && (c <? n)%nat.

(** A mesh whose vertices are finite and whose faces index into the vertex
    array. *)
Definition regular (vertices : list vec3) (faces : list face) : bool :=
  forallb finite3 vertices && forallb (face_in_range (length vertices)) faces.

Definition refers (i : nat) (f : face) : bool :=
  let '(a, b, c) := f in
  (a =? i)%nat || (b =? i)%nat || (c =? i)%nat.

(** The mask of the vertices some face refers to; without faces every
    vertex counts. *)
Definition referenced (faces : list face) (n : nat) : list bool :=
  match faces with
  | [] => replicate n true
  | _ => (fun i => existsb (refers i) faces) <$> seq 0 n
  end.

(** The vertices that are kept: those referenced whose row has not
    occurred at an earlier referenced vertex. *)
Fixpoint first_occurrences (seen : list merge_key) (l : list (bool * merge_key))
    : list bool :=
  match l with
  | [] => []
  | (r, k) :: l' =>
      if r && negb (bool_decide (k ∈ seen))
      then true :: first_occurrences (k :: seen) l'
      else false :: first_occurrences seen l'
  end.

(** [a[mask]] for a boolean mask. *)
Fixpoint select {A} (mask : list bool) (l : list A) : list A :=
  match mask, l with
  | true :: mask', x :: l' => x :: select mask' l'
  | false :: mask', _ :: l' => select mask' l'
  | _, _ => []
  end.

(** The index, among the rows of the kept vertices, of the row [k]. *)
Definition position (rows : list merge_key) (k : merge_key) : nat :=
  default 0%nat (fst <$> list_find (fun k' => k' = k) rows).

(** The mask of the vertices [merge_vertices] keeps. *)
Definition kept (vertices : list vec3) (faces : list face) : list bool :=
  first_occurrences []
    (zip (referenced faces (length vertices)) (key_of <$> vertices)).

(** [merge_vertices]: the kept vertices with their colours, and the faces
    re-indexed. *)
Definition merge_vertices (vertices : list vec3) (faces : list face)
    (colors : list (list Z)) : list vec3 * list face * list (list Z) :=
  let keys := key_of <$> vertices in
  let mask := kept vertices faces in
  let kept_keys := select mask keys in
  let inverse (i : nat) := position kept_keys (default (0, 0, 0) (keys !! i)) in
  (select mask vertices,
   (fun '(a, b, c) => (inverse a, inverse b, inverse c)) <$> faces,
   select mask colors).

(** What the library does with a vertex that is not finite or with a face
    index outside the vertex array is not modelled; [irregular] stands for
    it. *)
Variable irregular :
  list vec3 -> list face -> list (list Z) ->
  result (list vec3 * list face * list (list Z)).

(** [Trimesh.process()] as the constructor runs it by default. *)
Definition process (vertices : list vec3) (faces : list face)
    (colors : list (list Z)) : result (list vec3 * list face * list (list Z)) :=
  if regular vertices faces then ok (merge_vertices vertices faces colors)
  else irregular vertices faces colors.

End Trimesh.

(** A mesh the processing leaves as it is: regular, every vertex referenced
    by a face (or no face at all), no two vertices with the same row. *)
Definition clean (invalid_cast : Z) (vertices : list vec3) (faces : list face) : Prop :=
  regular vertices faces = true /\
  forallb id (referenced faces (length vertices)) = true /\
  NoDup (key_of invalid_cast <$> vertices).


(** The metadata a processed mesh starts with. *)
Definition processed_metadata : gmap string value := {[ "processed" := VBool true ]}.

Section Constructor.

Variable invalid_cast : Z.
Variable irregular :
  list vec3 -> list face -> list (list Z) ->
  result (list vec3 * list face * list (list Z)).

Definition load_faces (l : loc) : M (list face) :=
  o ← load l;
  match o with
  | OFaces a => mret a
  | _ => lift (raise AttributeError)
  end.

Definition load_colors (l : loc) : M (list (list Z)) :=
  o ← load l;
  match o with
  | OColors a => mret a
  | _ => lift (raise AttributeError)
  end.

(** [trimesh.Trimesh(vertices=..., faces=..., vertex_colors=...)] with the
    default [process=True]: the new mesh starts with empty metadata; a mesh
    with vertices is processed, which gives it new arrays and the entry
    [processed]. *)
Definition Trimesh (vertices faces vertex_colors : loc) : M loc :=
  vs ← copy_vertices vertices;
  fs ← load_faces faces;
  cs ← load_colors vertex_colors;
  if bool_decide (vs = []) then
    metadata ← alloc (ODict ∅);
    alloc (OTrimesh vertices faces (Some vertex_colors) (Some metadata))
  else
    '(vs', fs', cs') ← lift (process invalid_cast irregular vs fs cs);
    vertices' ← alloc (OVertices vs');
    faces' ← alloc (OFaces fs');
    vertex_colors' ← alloc (OColors cs');
    metadata ← alloc (ODict processed_metadata);
    alloc (OTrimesh vertices' faces' (Some vertex_colors') (Some metadata)).

(** [new_mesh.metadata = value]. *)
Definition set_metadata (mesh : loc) (metadata : loc) : M unit :=
  o ← load mesh;
  match o with
  | OTrimesh v f c _ => store mesh (OTrimesh v f c (Some metadata))
  | _ => lift (raise AttributeError)
  end.

(** The routine with the constructor of the library (lines 24-74). *)
Definition apply_vertex_colors_processed (mesh image : loc) : M loc :=
  image_array ← as_image_array image;
  '(mesh_vertices, mesh_faces, _, mesh_metadata) ← load_mesh mesh;
  vertices ← copy_vertices mesh_vertices;
  vertex_colors ← lift (compute_vertex_colors invalid_cast vertices image_array);
  colors ← alloc (OColors vertex_colors);
  new_mesh ← Trimesh mesh_vertices mesh_faces colors;
  match mesh_metadata with
  | Some md =>
      md' ← dict_copy md;
      _ ← set_metadata new_mesh md';
      mret new_mesh
  | None => mret new_mesh
  end.

End Constructor.

(** ** Reading a mesh and an image out of the store *)

Record mesh_view := MeshView {
  mv_vertices : list vec3;
  mv_faces : list face;
  mv_vertex_colors : option (list (list Z));
  mv_metadata : option (gmap string value)
}.

Definition view_vertices (σ : heap) (l : loc) : option (list vec3) :=
  match σ !! l with
  | Some (OVertices a) => Some a
  | _ => None
  end.

Definition view_faces (σ : heap) (l : loc) : option (list face) :=
  match σ !! l with
  | Some (OFaces a) => Some a
  | _ => None
  end.

Definition view_colors (σ : heap) (l : loc) : option (list (list Z)) :=
  match σ !! l with
  | Some (OColors a) => Some a
  | _ => None
  end.

Definition view_dict (σ : heap) (l : loc) : option (gmap string value) :=
  match σ !! l with
  | Some (ODict d) => Some d
  | _ => None
  end.

(** An optional attribute: absent, or present and of the expected class. *)
Definition view_optional {A} (view : heap -> loc -> option A) (σ : heap)
    (l : option loc) : option (option A) :=
  match l with
  | None => Some None
  | Some l => Some <$> view σ l
  end.

Definition view_mesh (σ : heap) (l : loc) : option mesh_view :=
  match σ !! l with
  | Some (OTrimesh v f c md) =>
      vs ← view_vertices σ v;
      fs ← view_faces σ f;
      cs ← view_optional view_colors σ c;
      d ← view_optional view_dict σ md;
      Some (MeshView vs fs cs d)
  | _ => None
  end.

Definition view_image (σ : heap) (l : loc) : option ndarray3 :=
  match σ !! l with
  | Some (OPilImage a) | Some (ONdarray a) => Some a
  | _ => None
  end.

(** The location of the metadata mapping of a mesh object, if it has one. *)
Definition metadata_loc (σ : heap) (l : loc) : option loc :=
  match σ !! l with
  | Some (OTrimesh _ _ _ md) => md
  | _ => None
  end.

(** The inputs the routine is specified for: a mesh with at least one
    vertex and an 8-bit image with at least one pixel and 3 or 4 channels. *)
Record valid_mesh (σ : heap) (mesh : loc) (m : mesh_view) : Prop := {
  vm_view : view_mesh σ mesh = Some m;
  vm_nonempty : mv_vertices m <> []
}.

(** A reference image of the data model: a PIL image or an array, of 8-bit
    depth, with 3 or 4 channels. *)
Record reference_image (σ : heap) (image : loc) (a : ndarray3) : Prop := {
  ri_view : view_image σ image = Some a;
  ri_wf : wf_ndarray3 a;
  ri_uint8 : uint8_ndarray3 a;
  ri_channels : shape2 a = 3%nat \/ shape2 a = 4%nat
}.

Record valid_image (σ : heap) (image : loc) (a : ndarray3) : Prop := {
  vi_image : reference_image σ image a;
  vi_height : (1 <= shape0 a)%nat;
  vi_width : (1 <= shape1 a)%nat
}.

(** ** Vocabulary of the properties *)

(** The failure the specification calls [InvalidInput]: the exceptions
    NumPy raises for an empty reduction and for an index outside an axis. *)
Definition invalid_input (e : exn) : Prop := e = ValueError \/ e = IndexError.

(** The row written for a pixel with [channels] channels into a row that
    still holds its initial value [255, 255, 255, 255]. *)
Definition color_of_pixel (channels : nat) (px : list Z) : list Z :=
  if decide (channels = 4%nat) then to_uint8 <$> px
  else (to_uint8 <$> px) ++ [255].

Section Vocabulary.

Variable invalid_cast : Z.

(** [min_bounds] and [max_bounds] of lines 33-34. *)
Definition bounding_box (vertices : list vec3) : result (vec3 * vec3) :=
  min_bounds ← reduce_axis0 np_minimum vertices;
  max_bounds ← reduce_axis0 np_maximum vertices;
  ok (min_bounds, max_bounds).

(** The clamped integer index of one normalized coordinate. *)
Definition img_index (extent : Z) (c : float64) : Z :=
  clip (astype_int invalid_cast (mul c (of_int extent))) 0 (extent - 1).

(** The normalized position of a vertex. *)
Definition normalized (min_bounds size v : vec3) : vec3 :=
  vzip div (vzip sub v min_bounds) size.

(** The pair [(img_y[i], img_x[i])] of a vertex. *)
Definition vertex_pixel (a : ndarray3) (min_bounds size v : vec3) : Z * Z :=
  let n := normalized min_bounds size v in
  (img_index (Z.of_nat (shape0 a)) (vy n),
   img_index (Z.of_nat (shape1 a)) (vx n)).

(** The colour a vertex receives. *)
Definition vertex_color (a : ndarray3) (min_bounds size v : vec3) : list Z :=
  let '(y, x) := vertex_pixel a min_bounds size v in
  color_of_pixel (shape2 a) (pixel a (Z.to_nat y) (Z.to_nat x)).




End Vocabulary.



(** What a successful call leaves behind: the result is a new object, no
    object of the initial store has changed, the new mesh refers to the
    arrays of the input mesh and to a new colour array, and its metadata is
    a new mapping with the contents of the input's, or absent. *)
Record colored (σ σ' : heap) (mesh out : loc) (cs : list (list Z)) : Prop := {
  out_fresh : σ !! out = None;
  heap_extends : σ ⊆ σ';
  out_object : exists v f c md c' md',
    σ !! mesh = Some (OTrimesh v f c md) /\
    σ' !! out = Some (OTrimesh v f (Some c') md') /\
    σ !! c' = None /\ σ' !! c' = Some (OColors cs) /\
    match md with
    | None => md' = None
    | Some l => exists l' d, md' = Some l' /\ σ !! l' = None /\
                             σ !! l = Some (ODict d) /\ σ' !! l' = Some (ODict d)
    end
}.

(** [m], run on any store above [σ0], leaves every object of [σ0] as it
    is, and a value it returns satisfies [Φ]. *)
Definition extends (σ0 : heap) {A} (m : M A) (Φ : A -> Prop) : Prop :=
  forall σ, σ0 ⊆ σ ->
    σ0 ⊆ snd (m σ) /\ forall a, fst (m σ) = ok a -> Φ a.

(** [m] run on [σ] returns, with a value and a store that satisfy [Q]. *)
Definition returns {A} (m : M A) (σ : heap) (Q : A -> heap -> Prop) : Prop :=
  exists a σ', m σ = (ok a, σ') /\ Q a σ'.

(** What a successful call of the routine with the library's constructor
    leaves behind: a new mesh object over a store that extends the initial
    one, with the given arrays, and with a metadata mapping that is a new
    object. *)
Record processed (σ σ' : heap) (out : loc) (r : mesh_view) : Prop := {
  processed_fresh : σ !! out = None;
  processed_extends : σ ⊆ σ';
  processed_view : view_mesh σ' out = Some r;
  processed_metadata_new : exists l d,
    metadata_loc σ' out = Some l /\ σ !! l = None /\
    view_dict σ' l = Some d /\ mv_metadata r = Some d
}.



(** ** The scenario of section 8.6 and its variations *)

Definition two : float64 := of_int 2.

(** The corners of the unit cube. *)
Definition unit_cube : list vec3 :=
  [ V3 zero zero zero; V3 one zero zero; V3 zero one zero; V3 one one zero;
    V3 zero zero one;  V3 one zero one;  V3 zero one one;  V3 one one one ].

(** The same corners after doubling every Z coordinate. *)
Definition tall_box : list vec3 :=
  [ V3 zero zero zero; V3 one zero zero; V3 zero one zero; V3 one one zero;
    V3 zero zero two;  V3 one zero two;  V3 zero one two;  V3 one one two ].

(** A quad in the plane X = 0: the bounding box has zero width. *)
Definition flat_quad : list vec3 :=
  [ V3 zero zero zero; V3 zero one zero; V3 zero zero one; V3 zero one one ].

Definition box_faces : list face :=
  [ (0, 1, 3); (0, 3, 2); (4, 5, 7); (4, 7, 6); (0, 1, 5); (0, 5, 4);
    (2, 3, 7); (2, 7, 6); (0, 2, 6); (0, 6, 4); (1, 3, 7); (1, 7, 5) ]%nat.

Definition quad_faces : list face := [ (0, 1, 3); (0, 3, 2) ]%nat.

(** A 2 x 2 image with a distinct colour per quadrant, without and with an
    alpha channel. *)
Definition quadrants_rgb : ndarray3 :=
  Ndarray3 2 2 3 [ [ [10; 11; 12]; [20; 21; 22] ];
                   [ [30; 31; 32]; [40; 41; 42] ] ].

Definition quadrants_rgba : ndarray3 :=
  Ndarray3 2 2 4 [ [ [10; 11; 12; 13]; [20; 21; 22; 23] ];
                   [ [30; 31; 32; 33]; [40; 41; 42; 43] ] ].

Definition example_metadata : gmap string value :=
  {[ "name" := VStr "cube"; "source" := VRef 4%nat ]}.

(** A store holding the cube (with metadata), the two images, the tall box
    and the flat quad (both without metadata). *)
Definition example_store : heap :=
  list_to_map
    [ (0, OVertices unit_cube); (1, OFaces box_faces);
      (2, ODict example_metadata); (3, OTrimesh 0 1 None (Some 2));
      (4, OPilImage quadrants_rgb); (5, ONdarray quadrants_rgba);
      (6, OVertices tall_box); (7, OTrimesh 6 1 None None);
      (8, OVertices flat_quad); (9, OFaces quad_faces);
      (10, OTrimesh 8 9 None None) ]%nat.

Definition cube_view : mesh_view :=
  MeshView unit_cube box_faces None (Some example_metadata).

Definition tall_box_view : mesh_view :=
  MeshView tall_box box_faces None None.


(** The conversion of NaN on x86-64 and on RISC-V. *)
Definition x86_64_invalid : Z := - 2 ^ 63.

(** ** Images outside the reference data model *)


(** A 2 x 2 image with one channel, one with two channels (luminance and
    alpha) and an image of a single pixel. *)
Definition quadrants_gray : ndarray3 :=
  Ndarray3 2 2 1 [ [ [10]; [20] ]; [ [30]; [40] ] ].

Definition quadrants_la : ndarray3 :=
  Ndarray3 2 2 2 [ [ [10; 255]; [20; 255] ]; [ [30; 255]; [40; 255] ] ].

Definition single_pixel : ndarray3 := Ndarray3 1 1 3 [ [ [10; 11; 12] ] ].

(** A store holding the cube without metadata and the three images. *)
Definition variation_store : heap :=
  list_to_map
    [ (0, OVertices unit_cube); (1, OFaces box_faces);
      (2, OTrimesh 0 1 None None);
      (3, ONdarray quadrants_gray); (4, OPilImage quadrants_la);
      (5, OPilImage single_pixel) ]%nat.

Definition plain_cube_view : mesh_view := MeshView unit_cube box_faces None None.

(** Stand-in for what the library does with an irregular mesh, for the
    examples (none of which is irregular). *)
Definition no_irregular (vs : list vec3) (fs : list face) (cs : list (list Z))
    : result (list vec3 * list face * list (list Z)) := raise ValueError.


(** ** Meshes the constructor changes *)

(** Four corners of which a single triangle uses three. *)
Definition loose_quad : list vec3 :=
  [ V3 zero zero zero; V3 one zero zero; V3 zero one zero; V3 one one zero ].

Definition one_triangle : list face := [ (0, 1, 2) ]%nat.

(** A square of two triangles that do not share their vertices: two
    corners occur twice. *)
Definition split_quad : list vec3 :=
  [ V3 zero zero zero; V3 one zero zero; V3 zero one zero;
    V3 one zero zero;  V3 one one zero;  V3 zero one zero ].

Definition two_triangles : list face := [ (0, 1, 2); (3, 4, 5) ]%nat.

Definition processing_store : heap :=
  list_to_map
    [ (0, OVertices loose_quad); (1, OFaces one_triangle);
      (2, OTrimesh 0 1 None None);
      (3, OVertices split_quad); (4, OFaces two_triangles);
      (5, OTrimesh 3 4 None None);
      (6, ONdarray quadrants_rgb) ]%nat.


Definition split_quad_view : mesh_view := MeshView split_quad two_triangles None None.

(** * Model loading, logging and timing: [hy3dgen/shapegen/utils.py]

    The functions of the module act on the file system, the process
    environment, the [logging] registry, the model hub and the CUDA device.
    What they read and change is a record that is threaded through the
    calls; the calls into the hub, the user database and the device are
    parameters of the sections that use them.  A raised exception is the
    left summand of the outcome, as before. *)

Module Utils.

(** Exceptions (instances of [Exception]) with their class and message.
    [ImportError] stands for that class and its subclasses, which
    [except ImportError] catches; every other class is kept under its
    name. *)
Inductive exc_class :=
| ImportError
| RuntimeError
| FileNotFoundError
| AttributeError
| OtherError (name : string).

Record exc := Exc { exc_cls : exc_class; exc_msg : string }.

Inductive level := INFO | WARNING.

(** A handler with its level and the format of its formatter, and a logger
    of the [logging] registry: its level ([None] while it is not set) and
    its handlers, in the order they were added. *)
Record handler := Handler { h_level : option level; h_format : option string }.

Record logger_state := Logger {
  lg_level : option level;
  lg_handlers : list handler
}.

(** What the functions of the module see and change: which paths exist, the
    process environment, the records handed to the module logger and the
    requests made to the model hub. *)
Record world := World {
  files : string -> bool;
  environ : gmap string string;
  records : list (level * string);
  downloads : list (string * list string);
  loggers : gmap string logger_state
}.

Definition W (A : Type) : Type := world -> (exc + A) * world.

Global Instance W_ret : MRet W := fun A a w => (inr a, w).
Global Instance W_bind : MBind W := fun A B k m w =>
  match m w with
  | (inl e, w') => (inl e, w')
  | (inr a, w') => k a w'
  end.

Definition throw {A} (e : exc) : W A := fun w => (inl e, w).

(** [logger.info(msg)] and [logger.warning(msg)]. *)
Definition logger_info (msg : string) : W unit := fun w =>
  (inr tt, World (files w) (environ w) (records w ++ [(INFO, msg)]) (downloads w)
             (loggers w)).

Definition logger_warning (msg : string) : W unit := fun w =>
  (inr tt, World (files w) (environ w) (records w ++ [(WARNING, msg)]) (downloads w)
             (loggers w)).

(** [os.path.exists(path)]. *)
Definition path_exists (path : string) : W bool := fun w => (inr (files w path), w).

(** [os.environ.get(key, default)]. *)
Definition environ_get (key fallback : string) : W string := fun w =>
  (inr (default fallback (environ w !! key)), w).

(** Lines 22-32.  [logging.getLogger(name)] returns the logger registered
    under [name], creating it (level not set, no handler) when there is
    none; [addHandler] appends the handler, which is a new object at every
    call. *)
Definition get_logger (name : string) : W string := fun w =>
  let logger := default (Logger None []) (loggers w !! name) in
  let logger := Logger (Some INFO) (lg_handlers logger) in
  let console_handler := Handler None None in
  let console_handler := Handler (Some INFO) (h_format console_handler) in
  let formatter := "%(asctime)s - %(name)s - %(levelname)s - %(message)s" in
  let console_handler := Handler (h_level console_handler) (Some formatter) in
  let logger := Logger (lg_level logger) (lg_handlers logger ++ [console_handler]) in
  (inr name, World (files w) (environ w) (records w) (downloads w)
               (<[name := logger]> (loggers w))).

(** [s.endswith('/')]. *)
Fixpoint ends_with_sep (s : string) : bool :=
  match s with
  | EmptyString => false
  | String c EmptyString => String.eqb (String c EmptyString) "/"
  | String _ s' => ends_with_sep s'
  end.

(** One step of [os.path.join] (posixpath): an absolute component replaces
    what came before; otherwise it is appended, after a separator unless the
    path so far is empty or ends with one. *)
Definition path_join (path b : string) : string :=
  if String.prefix "/" b then b
  else if String.eqb path "" || ends_with_sep path then path +:+ b
  else path +:+ "/" +:+ b.

(** [str(b)] for a boolean inside an f-string. *)
Definition str_bool (b : bool) : string := if b then "True" else "False".

(** Lines 106-108 (again at 127-129 and 160-162): the checkpoint file name. *)
Definition ckpt_name (use_safetensors : bool) (variant : option string) : string :=
  let extension := if negb use_safetensors then "ckpt" else "safetensors" in
  let variant_str := match variant with None => "" | Some v => "." +:+ v end in
  "model" +:+ variant_str +:+ "." +:+ extension.

Section SmartLoadModel.

(** [os.path.expanduser], which consults the user database. *)
Variable expanduser : string -> string.

(** [from huggingface_hub import snapshot_download] (line 142): [Some e]
    when the import raises [e], [None] when it binds the function. *)
Variable import_huggingface_hub : option exc.

(** [snapshot_download(repo_id=..., allow_patterns=...)], once it is
    imported: given what exists, it returns the snapshot directory or
    raises, and tells what exists afterwards. *)
Variable snapshot_download :
  string -> list string -> (string -> bool) -> (exc + string) * (string -> bool).

Definition call_snapshot_download (repo_id : string)
    (allow_patterns : list string) : W string := fun w =>
  let '(r, files') := snapshot_download repo_id allow_patterns (files w) in
  (r, World files' (environ w) (records w)
        (downloads w ++ [(repo_id, allow_patterns)]) (loggers w)).

(** Lines 100-116: the hard-coded directory.  The message of line 116
    evaluates both existence tests again; they read the same file system and
    give the values of the tests of line 112. *)
Definition try_hardcoded (model_path subfolder : string)
    (use_safetensors : bool) (variant : option string)
    : W (option (string * string)) :=
  if String.prefix "tencent/" model_path then
    let local_model_path :=
      "/home/gero/GitHub/Hunyuan3D-2/models/" +:+ model_path +:+ "/" +:+ subfolder in
    _ ← logger_info ("Checking for models at: " +:+ local_model_path);
    present ← path_exists local_model_path;
    if (present : bool) then
      let config_path := path_join local_model_path "config.yaml" in
      let ckpt_path := path_join local_model_path (ckpt_name use_safetensors variant) in
      has_config ← path_exists config_path;
      has_ckpt ← path_exists ckpt_path;
      if has_config && has_ckpt then
        _ ← logger_info ("Using local model from " +:+ local_model_path);
        mret (Some (config_path, ckpt_path))
      else
        _ ← logger_info ("Files missing in " +:+ local_model_path +:+ ". Config: "
                         +:+ str_bool has_config +:+ ", Model: " +:+ str_bool has_ckpt);
        mret None
    else mret None
  else mret None.

(** Lines 121-135: the directory named by [HY3DGEN_MODELS], or the default
    cache. *)
Definition try_environment (model_path subfolder : string)
    (use_safetensors : bool) (variant : option string)
    : W (option (string * string)) :=
  base_dir ← environ_get "HY3DGEN_MODELS" "~/.cache/hy3dgen";
  let base_dir := expanduser base_dir in
  let env_model_path := path_join (path_join base_dir model_path) subfolder in
  _ ← logger_info ("Checking environment path: " +:+ env_model_path);
  present ← path_exists env_model_path;
  if (present : bool) then
    let config_path := path_join env_model_path "config.yaml" in
    let ckpt_path := path_join env_model_path (ckpt_name use_safetensors variant) in
    has_config ← path_exists config_path;
    has_ckpt ← path_exists ckpt_path;
    if has_config && has_ckpt then
      _ ← logger_info ("Using model from environment path: " +:+ env_model_path);
      mret (Some (config_path, ckpt_path))
    else mret None
  else mret None.

(** Lines 150-155: the [except] clauses of the download. *)
Definition download_failed {A} (e : exc) : W A :=
  match exc_cls e with
  | ImportError =>
      _ ← logger_warning
            "HuggingFace Hub not available - install with 'pip install huggingface-hub'";
      throw (Exc RuntimeError
                 "Model not found locally and HuggingFace Hub not available")
  | _ =>
      _ ← logger_warning ("Error downloading model: " +:+ exc_msg e);
      throw e
  end.

(** Lines 140-172: the download, and the checks on what it delivered.  A
    request is made only once the import has succeeded. *)
Definition download_and_check (original_model_path subfolder : string)
    (use_safetensors : bool) (variant : option string) : W (string * string) :=
  _ ← logger_info "No local models found - downloading from HuggingFace";
  model_path ← (fun w =>
    match import_huggingface_hub with
    | Some e => download_failed e w
    | None =>
        match call_snapshot_download original_model_path [subfolder +:+ "/*"] w with
        | (inr path, w') =>
            let model_path := path_join path subfolder in
            (_ ← logger_info ("Downloaded model to: " +:+ model_path);
             mret model_path) w'
        | (inl e, w') => download_failed e w'
        end
    end);
  present ← path_exists model_path;
  if negb present then
    throw (Exc FileNotFoundError ("Model path " +:+ original_model_path +:+ " not found"))
  else
    let config_path := path_join model_path "config.yaml" in
    let ckpt_path := path_join model_path (ckpt_name use_safetensors variant) in
    has_config ← path_exists config_path;
    if negb has_config then
      throw (Exc FileNotFoundError ("Config file not found at " +:+ config_path))
    else
      has_ckpt ← path_exists ckpt_path;
      if negb has_ckpt then
        throw (Exc FileNotFoundError ("Model file not found at " +:+ ckpt_path))
      else mret (config_path, ckpt_path).

Definition smart_load_model (model_path subfolder : string)
    (use_safetensors : bool) (variant : option string) : W (string * string) :=
  local ← try_hardcoded model_path subfolder use_safetensors variant;
  match local with
  | Some found => mret found
  | None =>
      cached ← try_environment model_path subfolder use_safetensors variant;
      match cached with
      | Some found => mret found
      | None => download_and_check model_path subfolder use_safetensors variant
      end
  end.

End SmartLoadModel.

(** ** The timer (lines 38-86) *)

Section SynchronizeTimer.

(** The CUDA device with its events, and the elapsed times it reports.
    [torch.cuda.Event(enable_timing=True)], [event.record()],
    [torch.cuda.synchronize()] and [start.elapsed_time(end)] are calls into
    the device; each may raise. *)
Context {D T : Type}.
Variable cuda_event : D -> (exc + nat) * D.
Variable event_record : nat -> D -> (exc + unit) * D.
Variable cuda_synchronize : D -> (exc + unit) * D.
Variable elapsed_time : nat -> nat -> D -> (exc + T) * D.
(** [str(t)] for an elapsed time inside an f-string. *)
Variable str_time : T -> string.

(** A [synchronize_timer] object: [name] is set by [__init__]; [start],
    [end] and [time] exist only once they have been assigned. *)
Record timer := Timer {
  tm_name : option string;
  tm_start : option nat;
  tm_end : option nat;
  tm_time : option T
}.

(** The world together with the device and the timer objects. *)
Record session := Session {
  s_world : world;
  s_device : D;
  s_timers : gmap nat timer
}.

Definition SM (A : Type) : Type := session -> (exc + A) * session.

Global Instance S_ret : MRet SM := fun A a s => (inr a, s).
Global Instance S_bind : MBind SM := fun A B k m s =>
  match m s with
  | (inl e, s') => (inl e, s')
  | (inr a, s') => k a s'
  end.

Definition s_throw {A} (e : exc) : SM A := fun s => (inl e, s).

(** A computation on the world, run inside a session. *)
Definition in_world {A} (m : W A) : SM A := fun s =>
  let '(r, w') := m (s_world s) in (r, Session w' (s_device s) (s_timers s)).

(** A call into the device. *)
Definition on_device {A} (f : D -> (exc + A) * D) : SM A := fun s =>
  let '(r, d') := f (s_device s) in (r, Session (s_world s) d' (s_timers s)).

(** Reading and assigning the attributes of the timer object [self]. *)
Definition get_self (self : nat) : SM timer := fun s =>
  match s_timers s !! self with
  | Some t => (inr t, s)
  | None => (inl (Exc AttributeError "self"), s)
  end.

Definition set_self (self : nat) (t : timer) : SM unit := fun s =>
  (inr tt, Session (s_world s) (s_device s) (<[self := t]> (s_timers s))).

Definition attribute {A} (name : string) (a : option A) : SM A :=
  match a with
  | Some x => mret x
  | None =>
      s_throw (Exc AttributeError
                 ("'synchronize_timer' object has no attribute '" +:+ name +:+ "'"))
  end.

(** Lines 57-58: a new timer object. *)
Definition synchronize_timer (name : option string) : SM nat := fun s =>
  let self := fresh (dom (s_timers s)) in
  (inr self, Session (s_world s) (s_device s)
               (<[self := Timer name None None None]> (s_timers s))).

Definition debug_enabled : SM bool :=
  v ← in_world (environ_get "HY3DGEN_DEBUG" "0");
  mret (String.eqb v "1").

(** Lines 60-66.  The value is [true] when the closure reading [self.time]
    is returned and [false] when nothing ([None]) is. *)
Definition timer_enter (self : nat) : SM bool :=
  debug ← debug_enabled;
  if (debug : bool) then
    start ← on_device cuda_event;
    t ← get_self self;
    _ ← set_self self (Timer (tm_name t) (Some start) (tm_end t) (tm_time t));
    end_ ← on_device cuda_event;
    t ← get_self self;
    _ ← set_self self (Timer (tm_name t) (tm_start t) (Some end_) (tm_time t));
    t ← get_self self;
    start ← attribute "start" (tm_start t);
    _ ← on_device (event_record start);
    mret true
  else mret false.

(** The closure [lambda: self.time], called. *)
Definition read_time (self : nat) : SM T :=
  t ← get_self self;
  attribute "time" (tm_time t).

(** Lines 68-75.  Nothing is returned, so an exception of the body is never
    suppressed. *)
Definition timer_exit (self : nat) : SM unit :=
  debug ← debug_enabled;
  if (debug : bool) then
    t ← get_self self;
    end_ ← attribute "end" (tm_end t);
    _ ← on_device (event_record end_);
    _ ← on_device cuda_synchronize;
    t ← get_self self;
    start ← attribute "start" (tm_start t);
    end_ ← attribute "end" (tm_end t);
    time ← on_device (elapsed_time start end_);
    t ← get_self self;
    _ ← set_self self (Timer (tm_name t) (tm_start t) (tm_end t) (Some time));
    t ← get_self self;
    match tm_name t with
    | Some name =>
        time ← attribute "time" (tm_time t);
        in_world (logger_info (name +:+ " takes " +:+ str_time time +:+ " ms"))
    | None => mret tt
    end
  else mret tt.

(** [with self: body]: enter, run the body, and leave whether the body
    returned or raised; an exception raised on leaving replaces the outcome
    of the body. *)
Definition with_timer {A} (self : nat) (body : SM A) : SM A := fun s =>
  match timer_enter self s with
  | (inl e, s1) => (inl e, s1)
  | (inr _, s1) =>
      match body s1 with
      | (outcome, s2) =>
          match timer_exit self s2 with
          | (inl e, s3) => (inl e, s3)
          | (inr _, s3) => (outcome, s3)
          end
      end
  end.

(** Lines 77-86: the decorated function. *)
Definition timer_call {A B} (self : nat) (func : A -> SM B) : A -> SM B :=
  fun args => with_timer self (func args).

End SynchronizeTimer.

(** ** Vocabulary of the properties *)

(** The directory of line 102. *)
Definition hardcoded_dir (model_path subfolder : string) : string :=
  "/home/gero/GitHub/Hunyuan3D-2/models/" +:+ model_path +:+ "/" +:+ subfolder.

(** The directory of lines 121-123. *)
Definition environment_dir (expanduser : string -> string)
    (env : gmap string string) (model_path subfolder : string) : string :=
  path_join
    (path_join (expanduser (default "~/.cache/hy3dgen" (env !! "HY3DGEN_MODELS")))
       model_path)
    subfolder.

(** A directory that exists and holds the configuration and the checkpoint. *)
Definition complete (exists_ : string -> bool) (dir : string)
    (use_safetensors : bool) (variant : option string) : bool :=
  exists_ dir && (exists_ (path_join dir "config.yaml") &&
                  exists_ (path_join dir (ckpt_name use_safetensors variant))).

(** Whether the hard-coded directory is looked at and is complete. *)
Definition hardcoded_usable (exists_ : string -> bool) (model_path subfolder : string)
    (use_safetensors : bool) (variant : option string) : bool :=
  String.prefix "tencent/" model_path &&
  complete exists_ (hardcoded_dir model_path subfolder) use_safetensors variant.

(** The exception the [except] clauses of lines 150-155 raise for an
    exception of the [try] block. *)
Definition reraised (e : exc) : exc :=
  match exc_cls e with
  | ImportError =>
      Exc RuntimeError "Model not found locally and HuggingFace Hub not available"
  | _ => e
  end.

(** The outcome of the download branch once the call was made, from what
    the call returned and from what exists after it. *)
Definition download_outcome (r : exc + string) (exists_ : string -> bool)
    (model_path subfolder : string) (use_safetensors : bool)
    (variant : option string) : exc + string * string :=
  match r with
  | inl e => inl (reraised e)
  | inr path =>
      let dir := path_join path subfolder in
      let config_path := path_join dir "config.yaml" in
      let ckpt_path := path_join dir (ckpt_name use_safetensors variant) in
      if negb (exists_ dir) then
        inl (Exc FileNotFoundError ("Model path " +:+ model_path +:+ " not found"))
      else if negb (exists_ config_path) then
        inl (Exc FileNotFoundError ("Config file not found at " +:+ config_path))
      else if negb (exists_ ckpt_path) then
        inl (Exc FileNotFoundError ("Model file not found at " +:+ ckpt_path))
      else inr (config_path, ckpt_path)
  end.

(** The outcome of the third branch: without the hub package nothing is
    requested; with it one request is made and what exists afterwards
    decides. *)
Definition hub_run (import_huggingface_hub : option exc)
    (snapshot_download :
       string -> list string -> (string -> bool) -> (exc + string) * (string -> bool))
    (model_path subfolder : string) (use_safetensors : bool)
    (variant : option string) (w : world) (logged : list (level * string))
    : (exc + string * string) * world :=
  match import_huggingface_hub with
  | Some e =>
      (inl (reraised e),
       World (files w) (environ w) (records w ++ logged) (downloads w) (loggers w))
  | None =>
      (download_outcome
         (fst (snapshot_download model_path [subfolder +:+ "/*"] (files w)))
         (snd (snapshot_download model_path [subfolder +:+ "/*"] (files w)))
         model_path subfolder use_safetensors variant,
       World (snd (snapshot_download model_path [subfolder +:+ "/*"] (files w)))
         (environ w) (records w ++ logged)
         (downloads w ++ [(model_path, [subfolder +:+ "/*"])]) (loggers w))
  end.

(** The handler [get_logger] attaches. *)
Definition console_handler : handler :=
  Handler (Some INFO)
    (Some "%(asctime)s - %(name)s - %(levelname)s - %(message)s").

(** [n] calls of [get_logger name], one after the other. *)
Definition get_logger_times (n : nat) (name : string) (w : world) : world :=
  Nat.iter n (fun w => snd (get_logger name w)) w.

(** Whether [HY3DGEN_DEBUG] is ['1'] in a session. *)
Definition debugging {D T} (s : @session D T) : bool :=
  String.eqb (default "0" (environ (s_world s) !! "HY3DGEN_DEBUG")) "1".

(** ** Example worlds *)

(** A file system given by the list of the paths that exist. *)
Definition files_of (paths : list string) : string -> bool :=
  fun p => existsb (String.eqb p) paths.

(** A user database in which the home directory is [/home/user]. *)
Definition example_expanduser (s : string) : string :=
  match s with
  | String _ rest => if String.prefix "~/" s then "/home/user" +:+ rest else s
  | EmptyString => s
  end.

(** A hub that delivers the dit model into a snapshot directory, and a
    machine on which the hub package is not installed: the import raises. *)
Definition example_hub (repo_id : string) (allow_patterns : list string)
    (exists_ : string -> bool) : (exc + string) * (string -> bool) :=
  (inr "/hub/snapshots/main",
   fun p => exists_ p ||
            files_of [ "/hub/snapshots/main/hunyuan3d-dit-v2-0";
                       "/hub/snapshots/main/hunyuan3d-dit-v2-0/config.yaml";
                       "/hub/snapshots/main/hunyuan3d-dit-v2-0/model.fp16.safetensors" ] p).

Definition missing_hub : option exc :=
  Some (Exc ImportError "No module named 'huggingface_hub'").

(** The model in the hard-coded directory, in the default cache, and
    nowhere. *)
Definition local_world : world :=
  World
    (files_of
       [ "/home/gero/GitHub/Hunyuan3D-2/models/tencent/Hunyuan3D-2/hunyuan3d-dit-v2-0";
         "/home/gero/GitHub/Hunyuan3D-2/models/tencent/Hunyuan3D-2/hunyuan3d-dit-v2-0/config.yaml";
         "/home/gero/GitHub/Hunyuan3D-2/models/tencent/Hunyuan3D-2/hunyuan3d-dit-v2-0/model.fp16.safetensors" ])
    ∅ [] [] ∅.

Definition cached_world : world :=
  World
    (files_of
       [ "/home/user/.cache/hy3dgen/tencent/Hunyuan3D-2/hunyuan3d-dit-v2-0";
         "/home/user/.cache/hy3dgen/tencent/Hunyuan3D-2/hunyuan3d-dit-v2-0/config.yaml";
         "/home/user/.cache/hy3dgen/tencent/Hunyuan3D-2/hunyuan3d-dit-v2-0/model.fp16.safetensors" ])
    ∅ [] [] ∅.

Definition empty_world : world := World (fun _ => false) ∅ [] [] ∅.

(** A device that numbers its events and reports 12.5 ms; times are kept
    as their decimal text. *)
Definition example_cuda_event (d : nat) : (exc + nat) * nat := (inr d, S d).
Definition example_event_record (event : nat) (d : nat) : (exc + unit) * nat :=
  (inr tt, d).
Definition example_synchronize (d : nat) : (exc + unit) * nat := (inr tt, d).
Definition example_elapsed_time (start end_ : nat) (d : nat) : (exc + string) * nat :=
  (inr "12.5", d).

(** A session with one timer named [forward], with debugging off and on. *)
Definition quiet_session : @session nat string :=
  Session empty_world 0%nat {[ 0%nat := Timer (Some "forward") None None None ]}.

Definition debug_session : @session nat string :=
  Session (World (fun _ => false) {[ "HY3DGEN_DEBUG" := "1" ]} [] [] ∅)
    0%nat {[ 0%nat := Timer (Some "forward") None None None ]}.

(** A function that returns its argument doubled, and one that switches
    debugging on. *)
Definition example_func (x : Z) : @SM nat string Z := fun s => (inr (2 * x), s).

Definition switch_debug_on (_ : unit) : @SM nat string unit := fun s =>
  (inr tt,
   Session (World (files (s_world s)) (<["HY3DGEN_DEBUG" := "1"]> (environ (s_world s)))
              (records (s_world s)) (downloads (s_world s)) (loggers (s_world s)))
     (s_device s) (s_timers s)).

End Utils.

(** * The download script: [download_models.py]

    Paths are [pathlib] paths: a root and a list of components.  The file
    system is a parameter, with the three operations the script performs on
    it; what the script prints, the requests it makes to the hub and the
    process environment are recorded next to it.  [sys.exit] ends a call as
    an exception does, and is told apart from one. *)

Module DownloadModels.

Import Utils.

(** ** Paths ([pathlib.PurePosixPath]) *)

(** A path is its root (empty, one slash or two slashes) and its
    components. *)
Record path := Path { root : string; parts : list string }.

(** The components of a string between slashes, the current one being
    accumulated in [cur]. *)
Fixpoint split_sep (cur : string) (s : string) : list string :=
  match s with
  | EmptyString => [cur]
  | String c s' =>
      if String.eqb (String c EmptyString) "/" then cur :: split_sep "" s'
      else split_sep (cur +:+ String c EmptyString) s'
  end.

(** The root of a string: exactly two leading slashes are kept, any other
    number of them is one. *)
Definition split_root (s : string) : string :=
  if negb (String.prefix "/" s) then ""
  else if String.prefix "//" s && negb (String.prefix "///" s) then "//"
  else "/".

(** [Path(s)]: empty components and [.] are dropped. *)
Definition parse_path (s : string) : path :=
  Path (split_root s)
       (filter (fun x => x <> "" /\ x <> ".") (split_sep "" s)).

(** [p / s]: a rooted right operand replaces the left one. *)
Definition path_div (p : path) (s : string) : path :=
  let q := parse_path s in
  if String.eqb (root q) "" then Path (root p) (parts p ++ parts q) else q.

(** [p.parent]. *)
Definition path_parent (p : path) : path := Path (root p) (removelast (parts p)).

Fixpoint join_sep (l : list string) : string :=
  match l with
  | [] => ""
  | [x] => x
  | x :: l' => x +:+ "/" +:+ join_sep l'
  end.

(** [str(p)]. *)
Definition path_str (p : path) : string :=
  match root p, parts p with
  | EmptyString, [] => "."
  | r, l => r +:+ join_sep l
  end.

(** ** The script *)

(** What ends a call: an exception, or [sys.exit(code)]. *)
Inductive raised :=
| Error (e : exc)
| SystemExit (code : Z).

(** A request to [snapshot_download]. *)
Record request := Request {
  rq_repo_id : string;
  rq_local_dir : path;
  rq_allow_patterns : option (list string)
}.

Section Script.

(** The file system, with the operations the script performs on it:
    [p.mkdir(exist_ok=True, parents=True)], [p.iterdir()] (the names of the
    entries) and [snapshot_download(...)] with [local_dir_use_symlinks=False],
    which returns the path it reports.  Each may raise an exception. *)
Context {F : Type}.
Variable mkdir : path -> F -> (exc + unit) * F.
Variable iterdir : path -> F -> exc + list string.
Variable snapshot_download : request -> F -> (exc + string) * F.

Record host := Host {
  h_fs : F;
  h_stdout : list string;
  h_requests : list request;
  h_environ : gmap string string
}.

Definition H (A : Type) : Type := host -> (raised + A) * host.

Global Instance H_ret : MRet H := fun A a h => (inr a, h).
Global Instance H_bind : MBind H := fun A B k m h =>
  match m h with
  | (inl e, h') => (inl e, h')
  | (inr a, h') => k a h'
  end.

Definition print (line : string) : H unit := fun h =>
  (inr tt, Host (h_fs h) (h_stdout h ++ [line]) (h_requests h) (h_environ h)).

Definition sys_exit {A} (code : Z) : H A := fun h => (inl (SystemExit code), h).

Definition do_mkdir (p : path) : H unit := fun h =>
  match mkdir p (h_fs h) with
  | (inl e, fs') => (inl (Error e), Host fs' (h_stdout h) (h_requests h) (h_environ h))
  | (inr _, fs') => (inr tt, Host fs' (h_stdout h) (h_requests h) (h_environ h))
  end.

(** [any(p.iterdir())]: whether the directory has an entry. *)
Definition any_iterdir (p : path) : H bool := fun h =>
  match iterdir p (h_fs h) with
  | inl e => (inl (Error e), h)
  | inr entries => (inr (negb (bool_decide (entries = []))), h)
  end.

(** The call of [snapshot_download], with the outcome handed back so that
    the caller can handle an exception. *)
Definition request_download (rq : request) : host -> (exc + string) * host :=
  fun h =>
    let '(r, fs') := snapshot_download rq (h_fs h) in
    (r, Host fs' (h_stdout h) (h_requests h ++ [rq]) (h_environ h)).

(** [x if x else ''] on an optional string: [None] and the empty string
    are both false. *)
Definition given (subfolder : option string) : option string :=
  match subfolder with
  | Some s => if String.eqb s "" then None else Some s
  | None => None
  end.

Definition newline : string := String (Ascii.ascii_of_nat 10) EmptyString.

(** Lines 15-59.  [script_file] is [__file__]. *)
Definition download_model (script_file : path) (model_name : string)
    (subfolder : option string) (local_dir : option path) (force : bool)
    : H unit :=
  let local_dir :=
    match local_dir with
    | None =>
        let script_dir := path_parent script_file in
        path_div (path_parent script_dir) "models"
    | Some d => d
    end in
  _ ← do_mkdir local_dir;
  let target_dir :=
    if String.prefix "tencent/" model_name then path_div local_dir model_name
    else path_div local_dir ("tencent/" +:+ model_name) in
  let target_dir :=
    match given subfolder with
    | Some s => path_div target_dir s
    | None => target_dir
    end in
  _ ← do_mkdir target_dir;
  _ ← print (newline +:+ "Downloading " +:+ model_name +:+ " "
             +:+ match given subfolder with Some s => "/" +:+ s | None => "" end
             +:+ " to " +:+ path_str target_dir);
  skip ← (if negb force then any_iterdir target_dir else mret false);
  if (skip : bool) then
    print ("Files already exist in " +:+ path_str target_dir
           +:+ ". Use --force to overwrite.")
  else
    let allow_patterns :=
      match given subfolder with
      | Some s => Some [s +:+ "/*"]
      | None => None
      end in
    fun h =>
      match request_download
              (Request model_name (path_parent target_dir) allow_patterns) h with
      | (inr result, h') =>
          print ("Successfully downloaded " +:+ model_name +:+ " to " +:+ result) h'
      | (inl e, h') =>
          (_ ← print ("Error downloading " +:+ model_name +:+ ": " +:+ exc_msg e);
           sys_exit 1) h'
      end.

(** The parsed command line. *)
Record arguments := Arguments {
  a_t2i : bool;
  a_main : bool;
  a_turbo : bool;
  a_paint : bool;
  a_all : bool;
  a_force : bool
}.

Definition setenv (key value : string) : H unit := fun h =>
  (inr tt, Host (h_fs h) (h_stdout h) (h_requests h) (<[key := value]> (h_environ h))).

Definition when (b : bool) (m : H unit) : H unit := if b then m else mret tt.

(** [parser.parse_args()] (lines 62-70) on the command line of the process:
    the lines it writes to the standard output, and the flags it returns or
    the status it exits with (argparse exits with 0 after [--help] and with
    2 on a command line it rejects; what it writes to the standard error is
    not recorded). *)
Variable parse_args : list string * (Z + arguments).

Definition do_parse_args : H arguments := fun h =>
  let h' := Host (h_fs h) (h_stdout h ++ fst parse_args) (h_requests h) (h_environ h) in
  match snd parse_args with
  | inl code => (inl (SystemExit code), h')
  | inr args => (inr args, h')
  end.

(** Lines 61-111.  [home] is [Path.home()]. *)
Definition main (script_file home : path) : H unit :=
  args ← do_parse_args;
  _ ← setenv "HUGGINGFACE_HUB_CACHE"
        (path_str (path_div (path_div home ".cache") "huggingface_temp"));
  let all :=
    if negb (a_t2i args || a_main args || a_turbo args || a_paint args)
       && negb (a_all args)
    then true else a_all args in
  _ ← when (a_t2i args || all)
        (download_model script_file
           "Tencent-Hunyuan/HunyuanDiT-v1.1-Diffusers-Distilled" None
           (Some (path_div (path_div (path_div home "GitHub") "Hunyuan3D-2") "models"))
           (a_force args));
  _ ← when (a_main args || all)
        (download_model script_file "tencent/Hunyuan3D-2"
           (Some "hunyuan3d-dit-v2-0") None (a_force args));
  _ ← when (a_turbo args || all)
        (download_model script_file "tencent/Hunyuan3D-2"
           (Some "hunyuan3d-dit-v2-0-turbo") None (a_force args));
  _ ← when (a_paint args || all)
        (download_model script_file "tencent/Hunyuan3D-2"
           (Some "hunyuan3d-paint-v2-0") None (a_force args));
  print (newline +:+ "Model downloads complete!").

End Script.

(** ** Vocabulary of the properties *)

(** The directory [download_model] creates and checks (lines 18-34). *)
Definition target_directory (script_file : path) (model_name : string)
    (subfolder : option string) (local_dir : option path) : path :=
  let local_dir :=
    match local_dir with
    | None => path_div (path_parent (path_parent script_file)) "models"
    | Some d => d
    end in
  let target_dir :=
    if String.prefix "tencent/" model_name then path_div local_dir model_name
    else path_div local_dir ("tencent/" +:+ model_name) in
  match given subfolder with
  | Some s => path_div target_dir s
  | None => target_dir
  end.

(** The request [download_model] makes when it downloads (lines 47-54). *)
Definition download_request (script_file : path) (model_name : string)
    (subfolder : option string) (local_dir : option path) : request :=
  Request model_name
    (path_parent (target_directory script_file model_name subfolder local_dir))
    (match given subfolder with
     | Some s => Some [s +:+ "/*"]
     | None => None
     end).

(** A name that is one component of a path. *)
Fixpoint plain_name (s : string) : bool :=
  match s with
  | EmptyString => true
  | String c s' => negb (String.eqb (String c EmptyString) "/") && plain_name s'
  end.

(** The directory [download_model] creates first (lines 18-25). *)
Definition base_directory (script_file : path) (local_dir : option path) : path :=
  match local_dir with
  | None => path_div (path_parent (path_parent script_file)) "models"
  | Some d => d
  end.

Definition downloading_line (script_file : path) (model_name : string)
    (subfolder : option string) (local_dir : option path) : string :=
  newline +:+ "Downloading " +:+ model_name +:+ " "
  +:+ match given subfolder with Some s => "/" +:+ s | None => "" end
  +:+ " to " +:+ path_str (target_directory script_file model_name subfolder local_dir).

(** The requests [main] can make, in the order of lines 80-109. *)
Definition main_requests (script_file home : path) : list request :=
  [ download_request script_file
      "Tencent-Hunyuan/HunyuanDiT-v1.1-Diffusers-Distilled" None
      (Some (path_div (path_div (path_div home "GitHub") "Hunyuan3D-2") "models"));
    download_request script_file "tencent/Hunyuan3D-2"
      (Some "hunyuan3d-dit-v2-0") None;
    download_request script_file "tencent/Hunyuan3D-2"
      (Some "hunyuan3d-dit-v2-0-turbo") None;
    download_request script_file "tencent/Hunyuan3D-2"
      (Some "hunyuan3d-paint-v2-0") None ].

(** Which of them the command line selects: no model flag at all selects
    every model. *)
Definition selection (args : arguments) : list bool :=
  let all :=
    negb (a_t2i args || a_main args || a_turbo args || a_paint args) || a_all args in
  [ a_t2i args || all; a_main args || all; a_turbo args || all; a_paint args || all ].

Definition selected_requests (script_file home : path) (args : arguments)
    : list request :=
  fst <$> filter (fun rb => snd rb = true)
            (zip (main_requests script_file home) (selection args)).

(** A computation that leaves the environment alone, exits with status 1
    if it exits, makes requests among [cands] in their order, and, when it
    returns in the forced mode, has made exactly the requests [made]. *)
Definition requests_among {F} (m : @H F unit) (cands made : list request)
    (forced : bool) : Prop :=
  forall h,
    h_environ (snd (m h)) = h_environ h /\
    (forall code, fst (m h) = inl (SystemExit code) -> code = 1) /\
    (exists l, h_requests (snd (m h)) = h_requests h ++ l /\ sublist l cands) /\
    (forced = true -> fst (m h) = inr tt ->
       h_requests (snd (m h)) = h_requests h ++ made).

(** The request of a model that is selected. *)
Definition chosen (b : bool) (rq : request) : list request := if b then [rq] else [].

(** ** An example host *)

(** The script in [/repo/src], the home directory [/home/user]. *)
Definition script_path : path := parse_path "/repo/src/download_models.py".
Definition home_path : path := parse_path "/home/user".

(** A file system given by the directories that have an entry: creating a
    directory always succeeds, a listed directory holds [config.yaml], and a
    download reports the directory it was given. *)
Definition example_mkdir (p : path) (fs : list string) : (exc + unit) * list string :=
  (inr tt, fs).

Definition example_iterdir (p : path) (fs : list string) : exc + list string :=
  inr (if existsb (String.eqb (path_str p)) fs then ["config.yaml"] else []).

Definition example_download (rq : request) (fs : list string)
    : (exc + string) * list string :=
  (inr (path_str (rq_local_dir rq)), fs).

Definition populated_host : @host (list string) :=
  Host ["/repo/models/tencent/Hunyuan3D-2/hunyuan3d-dit-v2-0"] [] [] ∅.

Definition fresh_host : @host (list string) := Host [] [] [] ∅.

End DownloadModels.

(** * Properties *)

(** ** Indexing and clamping *)

Lemma clip_bounds x hi : 0 <= hi -> 0 <= clip x 0 hi <= hi.
Proof. unfold clip. lia. Qed.

Lemma clip_empty_axis x : clip x 0 (0 - 1) = -1.
Proof. unfold clip. lia. Qed.

Lemma axis_index_inside n i :
  0 <= i < Z.of_nat n -> axis_index n i = ok (Z.to_nat i).
Proof.
  intros Hi. unfold axis_index.
  destruct (Z.leb_spec 0 i), (Z.ltb_spec i (Z.of_nat n)); simpl; try lia.
  reflexivity.
Qed.

Lemma axis_index_empty i : axis_index 0 i = raise IndexError.
Proof.
  unfold axis_index.
  destruct (_ && _) eqn:E1.
  { rewrite andb_true_iff, Z.leb_le, Z.ltb_lt in E1. lia. }
  destruct (_ && _) eqn:E2; [|reflexivity].
  rewrite andb_true_iff, Z.leb_le, Z.ltb_lt in E2. lia.
Qed.

Lemma pixel_wf a r c :
  wf_ndarray3 a -> (r < shape0 a)%nat -> (c < shape1 a)%nat ->
  exists row, data a !! r = Some row /\ row !! c = Some (pixel a r c) /\
              length (pixel a r c) = shape2 a.
Proof.
  intros [Hlen Hrows] Hr Hc.
  destruct (lookup_lt_is_Some_2 (data a) r) as [row Hrow]; [lia|].
  pose proof (proj1 (Forall_lookup _ _) Hrows _ _ Hrow) as [Hw Hpx].
  destruct (lookup_lt_is_Some_2 row c) as [px Hp]; [lia|].
  exists row. unfold pixel. rewrite Hrow. simpl. rewrite Hp. simpl.
  split; [done|]. split; [done|].
  exact (proj1 (Forall_lookup _ _) Hpx _ _ Hp).
Qed.


Lemma to_uint8_range c : 0 <= to_uint8 c <= 255.
Proof. unfold to_uint8. pose proof (Z.mod_pos_bound c 256). lia. Qed.


Lemma getitem_yx_inside a y x :
  0 <= y < Z.of_nat (shape0 a) -> 0 <= x < Z.of_nat (shape1 a) ->
  getitem_yx a y x = ok (pixel a (Z.to_nat y) (Z.to_nat x)).
Proof.
  intros Hy Hx. unfold getitem_yx.
  rewrite !axis_index_inside by assumption. reflexivity.
Qed.

Lemma getitem_yx_empty_rows a y x :
  shape0 a = 0%nat -> getitem_yx a y x = raise IndexError.
Proof. intros H. unfold getitem_yx. rewrite H, axis_index_empty. reflexivity. Qed.

Lemma getitem_yx_empty_columns a y x :
  0 <= y < Z.of_nat (shape0 a) -> shape1 a = 0%nat ->
  getitem_yx a y x = raise IndexError.
Proof.
  intros Hy H. unfold getitem_yx.
  rewrite axis_index_inside by assumption. simpl.
  rewrite H, axis_index_empty. reflexivity.
Qed.

(** ** The sampling loop *)

Lemma color_of_pixel_length channels px :
  channels = 3%nat \/ channels = 4%nat -> length px = channels ->
  length (color_of_pixel channels px) = 4%nat.
Proof.
  intros [->| ->] Hlen; unfold color_of_pixel; simpl.
  - rewrite length_app, length_fmap, Hlen. reflexivity.
  - rewrite length_fmap. exact Hlen.
Qed.

Lemma color_of_pixel_range channels px :
  Forall (fun v => 0 <= v <= 255) (color_of_pixel channels px).
Proof.
  assert (H : Forall (fun v => 0 <= v <= 255) (to_uint8 <$> px)).
  { apply Forall_fmap, Forall_forall. intros v _. apply to_uint8_range. }
  unfold color_of_pixel. destruct (decide _); [exact H|].
  apply Forall_app. split; [exact H|]. repeat constructor; lia.
Qed.

Lemma sample_step_inside a ys xs i y x cs :
  wf_ndarray3 a -> shape2 a = 3%nat \/ shape2 a = 4%nat ->
  ys !! i = Some y -> xs !! i = Some x ->
  0 <= y < Z.of_nat (shape0 a) -> 0 <= x < Z.of_nat (shape1 a) ->
  cs !! i = Some [255; 255; 255; 255] ->
  sample_step a ys xs i cs =
    ok (<[i := color_of_pixel (shape2 a) (pixel a (Z.to_nat y) (Z.to_nat x))]> cs).
Proof.
  intros Hwf Hc Hy Hx By Bx Hrow. unfold sample_step, item.
  rewrite Hy, Hx. simpl. rewrite getitem_yx_inside by assumption. simpl.
  rewrite Hrow. simpl.
  destruct (pixel_wf a (Z.to_nat y) (Z.to_nat x) Hwf) as (row & _ & _ & Hlen);
    [lia..|].
  unfold color_of_pixel, setitem_prefix.
  destruct Hc as [Hc|Hc]; rewrite Hc in *; simpl.
  - rewrite decide_True by exact Hlen. reflexivity.
  - rewrite decide_True by exact Hlen. simpl. rewrite app_nil_r. reflexivity.
Qed.

(** The loop over [range(k, k + len)] fills the rows it visits and leaves
    the rows already written as they are. *)
Lemma sample_loop_seq a ys xs (g : nat -> list Z) n :
  (forall i cs, (i < n)%nat -> cs !! i = Some [255; 255; 255; 255] ->
     sample_step a ys xs i cs = ok (<[i := g i]> cs)) ->
  forall len k done, length done = k -> (k + len <= n)%nat ->
  sample_loop a ys xs (seq k len) (done ++ ones_255 len) =
    ok (done ++ (g <$> seq k len)).
Proof.
  intros Hstep. induction len as [|len IH]; intros k done Hk Hn; simpl.
  - reflexivity.
  - rewrite (Hstep k)
      by (try lia; rewrite lookup_app_r by lia;
          replace (k - length done)%nat with 0%nat by lia; reflexivity).
    simpl.
    replace (<[k := g k]>
               (done ++ [255; 255; 255; 255] :: replicate len [255; 255; 255; 255]))
      with ((done ++ [g k]) ++ ones_255 len).
    + rewrite IH by (try rewrite length_app; simpl; lia).
      rewrite <- app_assoc. reflexivity.
    + rewrite <- app_assoc. simpl. rewrite insert_app_r_alt by lia.
      replace (k - length done)%nat with 0%nat by lia. reflexivity.
Qed.

Lemma fmap_seq_lookup {A B} (f : A -> B) (d : B) (l : list A) :
  (fun i => default d (f <$> l !! i)) <$> seq 0 (length l) = f <$> l.
Proof.
  apply list_eq. intros i. rewrite !list_lookup_fmap.
  destruct (decide (i < length l)%nat) as [Hi|Hi].
  - rewrite lookup_seq_lt by assumption. simpl.
    destruct (lookup_lt_is_Some_2 l i Hi) as [x Hx]. rewrite Hx. reflexivity.
  - rewrite lookup_seq_ge by lia. rewrite lookup_ge_None_2 by lia. reflexivity.
Qed.

(** ** The colour computation *)

Section ColorFacts.

Variable invalid_cast : Z.

Lemma img_index_bounds extent c :
  1 <= extent -> 0 <= img_index invalid_cast extent c <= extent - 1.
Proof. intros H. unfold img_index. apply clip_bounds. lia. Qed.

Lemma bounding_box_nonempty vertices :
  vertices <> [] -> exists mn mx, bounding_box vertices = ok (mn, mx).
Proof. destruct vertices; [congruence|]. intros _. eexists _, _. reflexivity. Qed.

Lemma bounding_box_empty : bounding_box [] = raise ValueError.
Proof. reflexivity. Qed.

Lemma project_lookup extent (f : vec3 -> float64) mn sz vertices i v :
  vertices !! i = Some v ->
  project invalid_cast extent (f <$> normalize mn sz vertices) !! i =
    Some (img_index invalid_cast extent (f (normalized mn sz v))).
Proof.
  intros Hv. unfold project, normalize.
  rewrite !list_lookup_fmap, Hv. reflexivity.
Qed.

(** With at least one pixel the loop runs to its end and every vertex
    receives the colour of its pixel. *)
Lemma compute_vertex_colors_inside vertices a mn mx :
  bounding_box vertices = ok (mn, mx) ->
  wf_ndarray3 a -> shape2 a = 3%nat \/ shape2 a = 4%nat ->
  (1 <= shape0 a)%nat -> (1 <= shape1 a)%nat ->
  compute_vertex_colors invalid_cast vertices a =
    ok (vertex_color invalid_cast a mn (vzip sub mx mn) <$> vertices).
Proof.
  intros Hbb Hwf Hc Hh Hw. unfold compute_vertex_colors.
  unfold bounding_box in Hbb.
  destruct (reduce_axis0 np_minimum vertices) as [e|mn'] eqn:Emin; [discriminate|].
  destruct (reduce_axis0 np_maximum vertices) as [e|mx'] eqn:Emax; [discriminate|].
  injection Hbb as -> ->.
  change (mbind ?k (inr ?x)) with (k x). cbv beta.
  set (sz := vzip sub mx mn).
  rewrite <- (fmap_seq_lookup (vertex_color invalid_cast a mn sz) []).
  apply (sample_loop_seq a _ _ _ (length vertices)) with (done := @nil (list Z));
    [|reflexivity|lia].
  intros i cs Hi Hrow.
  destruct (lookup_lt_is_Some_2 vertices i Hi) as [v Hv].
  rewrite Hv. simpl default.
  unfold vertex_color, vertex_pixel.
  pose proof (img_index_bounds (Z.of_nat (shape0 a)) (vy (normalized mn sz v))).
  pose proof (img_index_bounds (Z.of_nat (shape1 a)) (vx (normalized mn sz v))).
  apply sample_step_inside; try assumption; try lia.
  - apply project_lookup. exact Hv.
  - apply project_lookup. exact Hv.
Qed.

(** Without vertices the reduction raises. *)
Lemma compute_vertex_colors_empty a :
  compute_vertex_colors invalid_cast [] a = raise ValueError.
Proof. reflexivity. Qed.

(** With vertices but an image axis of extent 0, the first pixel read
    raises: the clamped index is -1, which no empty axis admits. *)
Lemma compute_vertex_colors_no_pixels v vertices a :
  shape0 a = 0%nat \/ shape1 a = 0%nat ->
  compute_vertex_colors invalid_cast (v :: vertices) a = raise IndexError.
Proof.
  intros Hdim. unfold compute_vertex_colors.
  cbn [reduce_axis0 length seq sample_loop mbind result_bind rbind ok].
  set (mn := fold_left (vzip np_minimum) vertices v).
  set (mx := fold_left (vzip np_maximum) vertices v).
  set (sz := vzip sub mx mn).
  unfold sample_step, item.
  rewrite !(project_lookup _ _ mn sz (v :: vertices) 0%nat v) by reflexivity.
  cbn [mbind result_bind rbind ok].
  destruct (decide (shape0 a = 0%nat)) as [H0|H0].
  - rewrite getitem_yx_empty_rows by exact H0. reflexivity.
  - destruct Hdim as [?|H1]; [contradiction|].
    pose proof (img_index_bounds (Z.of_nat (shape0 a)) (vy (normalized mn sz v))).
    rewrite getitem_yx_empty_columns by (try assumption; lia). reflexivity.
Qed.

End ColorFacts.

(** ** The store *)

Lemma fresh_lookup (σ : heap) : σ !! fresh (dom σ) = None.
Proof. apply not_elem_of_dom. apply is_fresh. Qed.

Lemma view_mesh_inv σ l m :
  view_mesh σ l = Some m ->
  exists v f c md,
    σ !! l = Some (OTrimesh v f c md) /\
    σ !! v = Some (OVertices (mv_vertices m)) /\
    σ !! f = Some (OFaces (mv_faces m)) /\
    view_optional view_colors σ c = Some (mv_vertex_colors m) /\
    view_optional view_dict σ md = Some (mv_metadata m).
Proof.
  unfold view_mesh. intros H.
  destruct (σ !! l) as [[| | | | | |v f c md]|] eqn:El; try discriminate.
  exists v, f, c, md. split; [reflexivity|].
  destruct (view_vertices σ v) as [vs|] eqn:Ev; [|discriminate].
  destruct (view_faces σ f) as [fs|] eqn:Ef; [|discriminate].
  destruct (view_optional view_colors σ c) as [cs|] eqn:Ec; [|discriminate].
  destruct (view_optional view_dict σ md) as [d|] eqn:Ed; [|discriminate].
  simpl in H. injection H as <-. simpl.
  unfold view_vertices in Ev. unfold view_faces in Ef.
  destruct (σ !! v) as [[]|]; try discriminate.
  destruct (σ !! f) as [[]|]; try discriminate.
  injection Ev as ->. injection Ef as ->. auto.
Qed.

Lemma view_image_inv σ l a :
  view_image σ l = Some a ->
  σ !! l = Some (OPilImage a) \/ σ !! l = Some (ONdarray a).
Proof.
  unfold view_image.
  destruct (σ !! l) as [[]|]; try discriminate; intros [= ->]; auto.
Qed.

Lemma view_dict_inv σ l d : view_dict σ l = Some d -> σ !! l = Some (ODict d).
Proof.
  unfold view_dict. destruct (σ !! l) as [[]|]; try discriminate.
  by intros [= ->].
Qed.

(** Reading through a larger store gives the same mesh and the same image. *)
Lemma view_optional_weaken {A} (view : heap -> loc -> option A) σ σ' l x :
  (forall l y, view σ l = Some y -> view σ' l = Some y) ->
  view_optional view σ l = Some x -> view_optional view σ' l = Some x.
Proof.
  intros Hview. destruct l as [l|]; simpl; [|done].
  destruct (view σ l) as [y|] eqn:E; [|discriminate].
  rewrite (Hview _ _ E). done.
Qed.

Lemma view_colors_weaken σ σ' l cs :
  σ ⊆ σ' -> view_colors σ l = Some cs -> view_colors σ' l = Some cs.
Proof.
  intros Hsub. unfold view_colors.
  destruct (σ !! l) as [o|] eqn:E; [|discriminate].
  rewrite (lookup_weaken _ _ _ _ E Hsub). done.
Qed.

Lemma view_dict_weaken σ σ' l d :
  σ ⊆ σ' -> view_dict σ l = Some d -> view_dict σ' l = Some d.
Proof.
  intros Hsub. unfold view_dict.
  destruct (σ !! l) as [o|] eqn:E; [|discriminate].
  rewrite (lookup_weaken _ _ _ _ E Hsub). done.
Qed.

Lemma view_mesh_weaken σ σ' l m :
  σ ⊆ σ' -> view_mesh σ l = Some m -> view_mesh σ' l = Some m.
Proof.
  intros Hsub Hm.
  destruct (view_mesh_inv _ _ _ Hm) as (v & f & c & md & Hl & Hv & Hf & Hc & Hd).
  unfold view_mesh, view_vertices, view_faces.
  rewrite (lookup_weaken _ _ _ _ Hl Hsub), (lookup_weaken _ _ _ _ Hv Hsub),
    (lookup_weaken _ _ _ _ Hf Hsub). simpl.
  rewrite (view_optional_weaken view_colors σ σ' c _
             (fun l y => view_colors_weaken σ σ' l y Hsub) Hc). simpl.
  rewrite (view_optional_weaken view_dict σ σ' md _
             (fun l y => view_dict_weaken σ σ' l y Hsub) Hd). simpl.
  destruct m; reflexivity.
Qed.

Lemma view_image_weaken σ σ' l a :
  σ ⊆ σ' -> view_image σ l = Some a -> view_image σ' l = Some a.
Proof.
  intros Hsub. unfold view_image.
  destruct (σ !! l) as [o|] eqn:E; [|discriminate].
  rewrite (lookup_weaken _ _ _ _ E Hsub). done.
Qed.

(** The mesh read at the result of a successful call. *)
Lemma view_mesh_colored σ σ' mesh out cs m :
  view_mesh σ mesh = Some m -> colored σ σ' mesh out cs ->
  view_mesh σ' out =
    Some (MeshView (mv_vertices m) (mv_faces m) (Some cs) (mv_metadata m)).
Proof.
  intros Hm [_ Hsub (v & f & c & md & c' & md' & Hl & Hout & _ & Hc' & Hmd')].
  destruct (view_mesh_inv _ _ _ Hm) as (v0 & f0 & c0 & md0 & Hl0 & Hv & Hf & _ & Hd).
  rewrite Hl in Hl0. injection Hl0 as <- <- <- <-.
  unfold view_mesh. rewrite Hout.
  unfold view_vertices, view_faces.
  rewrite (lookup_weaken _ _ _ _ Hv Hsub), (lookup_weaken _ _ _ _ Hf Hsub). simpl.
  unfold view_colors. rewrite Hc'. simpl.
  destruct md as [l|].
  - destruct Hmd' as (l' & d & -> & _ & Hld & Hl'). simpl in *.
    unfold view_dict in *. rewrite Hld in Hd. rewrite Hl'. simpl.
    injection Hd as <-. reflexivity.
  - subst md'. simpl in *. injection Hd as <-. reflexivity.
Qed.

Section RoutineFacts.

Variable invalid_cast : Z.

(** An exception of the colour computation ends the call, with the
    store as it was. *)
Lemma apply_vertex_colors_raises σ mesh image m a e :
  view_mesh σ mesh = Some m -> view_image σ image = Some a ->
  compute_vertex_colors invalid_cast (mv_vertices m) a = inl e ->
  apply_vertex_colors invalid_cast mesh image σ = (inl e, σ).
Proof.
  intros Hm Ha Hc.
  destruct (view_mesh_inv _ _ _ Hm) as (v & f & c & md & Hl & Hv & Hf & _ & _).
  unfold apply_vertex_colors, as_image_array, load_mesh, copy_vertices, load,
    lift, mbind, M_bind, mret, M_ret.
  destruct (view_image_inv _ _ _ Ha) as [Hi|Hi]; rewrite Hi; simpl;
    rewrite Hl; simpl; rewrite Hv; simpl; rewrite Hc; reflexivity.
Qed.

(** When the colour computation succeeds, so does the call. *)
Lemma apply_vertex_colors_returns σ mesh image m a cs :
  view_mesh σ mesh = Some m -> view_image σ image = Some a ->
  compute_vertex_colors invalid_cast (mv_vertices m) a = ok cs ->
  exists out σ',
    apply_vertex_colors invalid_cast mesh image σ = (ok out, σ') /\
    colored σ σ' mesh out cs.
Proof.
  intros Hm Ha Hc.
  destruct (view_mesh_inv _ _ _ Hm) as (v & f & c & md & Hl & Hv & Hf & _ & Hmd).
  set (lc := fresh (dom σ)).
  set (σ1 := <[lc := OColors cs]> σ).
  set (ln := fresh (dom σ1)).
  set (σ2 := <[ln := OTrimesh v f (Some lc) None]> σ1).
  assert (Flc : σ !! lc = None) by apply fresh_lookup.
  assert (Fln1 : σ1 !! ln = None) by apply fresh_lookup.
  assert (Hne : ln <> lc).
  { intros E. rewrite E in Fln1. unfold σ1 in Fln1.
    rewrite lookup_insert_eq in Fln1. discriminate. }
  assert (Fln : σ !! ln = None).
  { unfold σ1 in Fln1. rewrite lookup_insert_ne in Fln1 by congruence.
    exact Fln1. }
  assert (Hpre : apply_vertex_colors invalid_cast mesh image σ =
     match md with
     | Some l => (md' ← dict_copy l;
                  _ ← store ln (OTrimesh v f (Some lc) (Some md'));
                  mret ln) σ2
     | None => (ok ln, σ2)
     end).
  { unfold apply_vertex_colors, as_image_array, load_mesh, copy_vertices,
      load, lift, alloc, mbind, M_bind, mret, M_ret.
    destruct (view_image_inv _ _ _ Ha) as [Hi|Hi]; rewrite Hi; simpl;
      rewrite Hl; simpl; rewrite Hv; simpl; rewrite Hc; simpl;
      destruct md; reflexivity. }
  rewrite Hpre. clear Hpre.
  destruct md as [l|]; simpl in Hmd.
  - destruct (view_dict σ l) as [d|] eqn:Ed; [|discriminate].
    apply view_dict_inv in Ed.
    set (ld := fresh (dom σ2)).
    assert (Fld2 : σ2 !! ld = None) by apply fresh_lookup.
    assert (Hld : ld <> ln /\ ld <> lc /\ σ !! ld = None).
    { unfold σ2, σ1 in Fld2.
      destruct (decide (ld = ln)) as [E|];
        [rewrite E, lookup_insert_eq in Fld2; discriminate|].
      rewrite lookup_insert_ne in Fld2 by congruence.
      destruct (decide (ld = lc)) as [E|];
        [rewrite E, lookup_insert_eq in Fld2; discriminate|].
      rewrite lookup_insert_ne in Fld2 by congruence. auto. }
    destruct Hld as (Hd1 & Hd2 & Fld).
    assert (Hl2 : σ2 !! l = Some (ODict d)).
    { unfold σ2, σ1. rewrite !lookup_insert_ne by congruence. exact Ed. }
    exists ln, (<[ln := OTrimesh v f (Some lc) (Some ld)]> (<[ld := ODict d]> σ2)).
    split.
    { unfold dict_copy, store, load, alloc, mbind, M_bind, mret, M_ret.
      rewrite Hl2. reflexivity. }
    split; [exact Fln| |].
    + apply map_subseteq_spec. intros i x Hi. unfold σ2, σ1.
      rewrite !lookup_insert_ne by congruence. exact Hi.
    + exists v, f, c, (Some l), lc, (Some ld).
      split; [exact Hl|]. split; [apply lookup_insert_eq|].
      split; [exact Flc|]. split.
      { unfold σ2, σ1. rewrite !lookup_insert_ne by congruence.
        apply lookup_insert_eq. }
      exists ld, d. split; [reflexivity|]. split; [exact Fld|].
      split; [exact Ed|].
      rewrite lookup_insert_ne by congruence. apply lookup_insert_eq.
  - exists ln, σ2. split; [reflexivity|].
    split; [exact Fln| |].
    + apply map_subseteq_spec. intros i x Hi. unfold σ2, σ1.
      rewrite !lookup_insert_ne by congruence. exact Hi.
    + exists v, f, c, None, lc, None.
      split; [exact Hl|]. split; [apply lookup_insert_eq|].
      split; [exact Flc|]. split; [|reflexivity].
      unfold σ2, σ1. rewrite lookup_insert_ne by congruence.
      apply lookup_insert_eq.
Qed.

(** On valid inputs the call returns, and the colours are those of the
    pixels the vertices project to. *)
Lemma apply_vertex_colors_valid σ mesh image m a :
  valid_mesh σ mesh m -> valid_image σ image a ->
  exists mn mx out σ',
    bounding_box (mv_vertices m) = ok (mn, mx) /\
    apply_vertex_colors invalid_cast mesh image σ = (ok out, σ') /\
    colored σ σ' mesh out
      (vertex_color invalid_cast a mn (vzip sub mx mn) <$> mv_vertices m).
Proof.
  intros [Hm Hne] [[Ha Hwf _ Hc] Hh Hw].
  destruct (bounding_box_nonempty _ Hne) as (mn & mx & Hbb).
  destruct (apply_vertex_colors_returns σ mesh image m a _ Hm Ha
              (compute_vertex_colors_inside invalid_cast _ a mn mx
                 Hbb Hwf Hc Hh Hw))
    as (out & σ' & Hrun & Hcol).
  exists mn, mx, out, σ'. auto.
Qed.

End RoutineFacts.

(** ** The routine writes to new objects only *)

Lemma extends_ret σ0 {A} (a : A) (Φ : A -> Prop) :
  Φ a -> extends σ0 (mret a) Φ.
Proof. intros H σ Hσ. split; [exact Hσ|]. by intros ? [= <-]. Qed.

Lemma extends_bind σ0 {A B} (m : M A) (k : A -> M B) Φ Ψ :
  extends σ0 m Φ -> (forall a, Φ a -> extends σ0 (k a) Ψ) ->
  extends σ0 (m ≫= k) Ψ.
Proof.
  intros Hm Hk σ Hσ. destruct (Hm σ Hσ) as [Hsub Hres].
  unfold mbind, M_bind. destruct (m σ) as [[e|a] σ1]; simpl in *.
  - split; [exact Hsub|]. discriminate.
  - exact (Hk a (Hres a eq_refl) σ1 Hsub).
Qed.

Lemma extends_lift σ0 {A} (r : result A) : extends σ0 (lift r) (fun _ => True).
Proof. intros σ Hσ. split; [exact Hσ|done]. Qed.

Lemma extends_load σ0 l : extends σ0 (load l) (fun _ => True).
Proof.
  intros σ Hσ. unfold load. destruct (σ !! l); (split; [exact Hσ|done]).
Qed.

Lemma extends_alloc σ0 o : extends σ0 (alloc o) (fun l => σ0 !! l = None).
Proof.
  intros σ Hσ. unfold alloc. simpl.
  assert (H : σ0 !! fresh (dom σ) = None).
  { destruct (σ0 !! fresh (dom σ)) as [o'|] eqn:E; [|reflexivity].
    pose proof (lookup_weaken _ _ _ _ E Hσ) as E'.
    rewrite fresh_lookup in E'. discriminate. }
  split; [|by intros ? [= <-]].
  etrans; [exact Hσ|]. apply insert_subseteq, fresh_lookup.
Qed.

Lemma extends_store σ0 l o :
  σ0 !! l = None -> extends σ0 (store l o) (fun _ => True).
Proof.
  intros Hl σ Hσ. split; [|done]. simpl.
  apply map_subseteq_spec. intros i x Hi.
  rewrite lookup_insert_ne by congruence. exact (lookup_weaken _ _ _ _ Hi Hσ).
Qed.

Lemma extends_apply_vertex_colors invalid_cast σ0 mesh image :
  extends σ0 (apply_vertex_colors invalid_cast mesh image)
    (fun out => σ0 !! out = None).
Proof.
  unfold apply_vertex_colors.
  eapply extends_bind.
  { unfold as_image_array. eapply extends_bind; [apply extends_load|].
    intros o _. instantiate (1 := fun _ => True).
    destruct o; first [by apply extends_ret | apply extends_lift]. }
  intros image_array _. eapply extends_bind.
  { unfold load_mesh. eapply extends_bind; [apply extends_load|].
    intros o _. instantiate (1 := fun _ => True).
    destruct o; first [by apply extends_ret | apply extends_lift]. }
  intros [[[v f] c] md] _. eapply extends_bind.
  { unfold copy_vertices. eapply extends_bind; [apply extends_load|].
    intros o _. instantiate (1 := fun _ => True).
    destruct o; first [by apply extends_ret | apply extends_lift]. }
  intros vertices _. eapply extends_bind; [apply extends_lift|].
  intros cs _. eapply extends_bind; [apply extends_alloc|].
  intros colors _. eapply extends_bind; [apply extends_alloc|].
  intros new_mesh Hnew. destruct md as [l|]; [|by apply extends_ret].
  eapply extends_bind.
  { unfold dict_copy. eapply extends_bind; [apply extends_load|].
    intros o _. instantiate (1 := fun _ => True).
    destruct o; try apply extends_lift.
    intros σ Hσ. destruct (extends_alloc σ0 (ODict d) σ Hσ). split; [done|done]. }
  intros md' _. eapply extends_bind; [by apply extends_store|].
  intros _ _. by apply extends_ret.
Qed.

(** ** binary64 facts *)













Section IndexFacts.
Variable invalid_cast : Z.



End IndexFacts.

Lemma normalized_origin :
  normalized (V3 zero zero zero) (vzip sub (V3 one one one) (V3 zero zero zero))
    (V3 zero zero zero) = V3 zero zero zero.
Proof. vm_compute. reflexivity. Qed.

Lemma normalized_far_corner :
  normalized (V3 zero zero zero) (vzip sub (V3 one one one) (V3 zero zero zero))
    (V3 one one zero) = V3 one one zero.
Proof. vm_compute. reflexivity. Qed.

(** ** The colours depend on the X and Y columns only *)

Section ColumnFacts.
Variable invalid_cast : Z.



End ColumnFacts.

(** ** A column of equal values *)
















(** ** The order of binary64 values *)




(** ** The bounding box holds the least and the greatest coordinates *)










(** ** Shape of the colours *)

Lemma vertex_color_shape invalid_cast a mn sz v :
  wf_ndarray3 a -> shape2 a = 3%nat \/ shape2 a = 4%nat ->
  (1 <= shape0 a)%nat -> (1 <= shape1 a)%nat ->
  length (vertex_color invalid_cast a mn sz v) = 4%nat /\
  Forall (fun c => 0 <= c <= 255) (vertex_color invalid_cast a mn sz v).
Proof.
  intros Hwf Hc Hh Hw. unfold vertex_color, vertex_pixel.
  split; [|apply color_of_pixel_range].
  apply color_of_pixel_length; [exact Hc|].
  pose proof (img_index_bounds invalid_cast (Z.of_nat (shape0 a)) (vy (normalized mn sz v))).
  pose proof (img_index_bounds invalid_cast (Z.of_nat (shape1 a)) (vx (normalized mn sz v))).
  destruct (pixel_wf a (Z.to_nat (img_index invalid_cast (Z.of_nat (shape0 a)) (vy (normalized mn sz v))))
              (Z.to_nat (img_index invalid_cast (Z.of_nat (shape1 a)) (vx (normalized mn sz v)))) Hwf)
    as (_ & _ & _ & Hlen); [lia..|exact Hlen].
Qed.


(** ** Running a computation to its result *)


Lemma returns_ret {A} (a : A) σ Q : Q a σ -> returns (mret a) σ Q.
Proof. intros H. exists a, σ. split; [reflexivity|exact H]. Qed.

Lemma returns_bind {A B} (m : M A) (k : A -> M B) σ Q :
  returns m σ (fun a σ1 => returns (k a) σ1 Q) -> returns (m ≫= k) σ Q.
Proof.
  intros (a & σ1 & Hm & b & σ2 & Hk & HQ). exists b, σ2. split; [|exact HQ].
  unfold mbind, M_bind. rewrite Hm. exact Hk.
Qed.

Lemma returns_lift {A} (r : result A) a σ Q :
  r = ok a -> Q a σ -> returns (lift r) σ Q.
Proof. intros -> H. exists a, σ. split; [reflexivity|exact H]. Qed.

Lemma returns_load l o σ Q : σ !! l = Some o -> Q o σ -> returns (load l) σ Q.
Proof.
  intros Hl H. exists o, σ. split; [|exact H]. unfold load. rewrite Hl. reflexivity.
Qed.

Lemma returns_alloc o σ (Q : loc -> heap -> Prop) :
  (forall l, σ !! l = None -> Q l (<[l := o]> σ)) -> returns (alloc o) σ Q.
Proof.
  intros H. exists (fresh (dom σ)), (<[fresh (dom σ) := o]> σ).
  split; [reflexivity|]. apply H, fresh_lookup.
Qed.

Lemma returns_store l o σ (Q : unit -> heap -> Prop) :
  Q tt (<[l := o]> σ) -> returns (store l o) σ Q.
Proof. intros H. exists tt, (<[l := o]> σ). split; [reflexivity|exact H]. Qed.

Lemma returns_copy_vertices l vs σ Q :
  σ !! l = Some (OVertices vs) -> Q vs σ -> returns (copy_vertices l) σ Q.
Proof.
  intros Hl H. apply returns_bind. apply (returns_load _ _ _ _ Hl).
  by apply returns_ret.
Qed.

Lemma returns_load_faces l fs σ Q :
  σ !! l = Some (OFaces fs) -> Q fs σ -> returns (load_faces l) σ Q.
Proof.
  intros Hl H. apply returns_bind. apply (returns_load _ _ _ _ Hl).
  by apply returns_ret.
Qed.

Lemma returns_load_colors l cs σ Q :
  σ !! l = Some (OColors cs) -> Q cs σ -> returns (load_colors l) σ Q.
Proof.
  intros Hl H. apply returns_bind. apply (returns_load _ _ _ _ Hl).
  by apply returns_ret.
Qed.

Lemma returns_dict_copy l d σ (Q : loc -> heap -> Prop) :
  σ !! l = Some (ODict d) ->
  (forall l', σ !! l' = None -> Q l' (<[l' := ODict d]> σ)) ->
  returns (dict_copy l) σ Q.
Proof.
  intros Hl H. apply returns_bind. apply (returns_load _ _ _ _ Hl).
  by apply returns_alloc.
Qed.

Lemma returns_set_metadata l v f c md md' σ (Q : unit -> heap -> Prop) :
  σ !! l = Some (OTrimesh v f c md) ->
  Q tt (<[l := OTrimesh v f c (Some md')]> σ) ->
  returns (set_metadata l md') σ Q.
Proof.
  intros Hl H. apply returns_bind. apply (returns_load _ _ _ _ Hl).
  by apply returns_store.
Qed.

(** New objects leave the objects of the store as they are. *)
Lemma lookup_insert_new (σ : heap) l l' o x :
  σ !! l = Some x -> σ !! l' = None -> <[l' := o]> σ !! l = Some x.
Proof. intros Hl Hl'. rewrite lookup_insert_ne by congruence. exact Hl. Qed.

Lemma insert_new_subseteq (σ0 σ : heap) l o :
  σ0 ⊆ σ -> σ !! l = None -> σ0 ⊆ <[l := o]> σ.
Proof. intros Hsub Hl. etrans; [exact Hsub|]. by apply insert_subseteq. Qed.

Lemma lookup_new_below (σ0 σ : heap) l : σ0 ⊆ σ -> σ !! l = None -> σ0 !! l = None.
Proof.
  intros Hsub Hl. destruct (σ0 !! l) as [x|] eqn:E; [|reflexivity].
  rewrite (lookup_weaken _ _ _ _ E Hsub) in Hl. discriminate.
Qed.

Section ConstructorFacts.

Variable invalid_cast : Z.
Variable irregular :
  list vec3 -> list face -> list (list Z) ->
  result (list vec3 * list face * list (list Z)).

(** The constructor on a mesh with vertices that the processing accepts. *)
Lemma Trimesh_returns σ v f c vs fs cs vs' fs' cs' :
  σ !! v = Some (OVertices vs) -> σ !! f = Some (OFaces fs) ->
  σ !! c = Some (OColors cs) -> vs <> [] ->
  process invalid_cast irregular vs fs cs = ok (vs', fs', cs') ->
  returns (Trimesh invalid_cast irregular v f c) σ (fun out σ' =>
    σ ⊆ σ' /\ σ !! out = None /\
    exists v' f' c' md,
      σ' !! out = Some (OTrimesh v' f' (Some c') (Some md)) /\
      σ' !! v' = Some (OVertices vs') /\ σ' !! f' = Some (OFaces fs') /\
      σ' !! c' = Some (OColors cs') /\ σ' !! md = Some (ODict processed_metadata) /\
      σ !! md = None).
Proof.
  intros Hv Hf Hc Hne Hp. unfold Trimesh.
  apply returns_bind, (returns_copy_vertices _ _ _ _ Hv).
  apply returns_bind, (returns_load_faces _ _ _ _ Hf).
  apply returns_bind, (returns_load_colors _ _ _ _ Hc).
  rewrite bool_decide_eq_false_2 by exact Hne.
  apply returns_bind, (returns_lift _ _ _ _ Hp).
  apply returns_bind, returns_alloc. intros l1 F1.
  apply returns_bind, returns_alloc. intros l2 F2.
  apply returns_bind, returns_alloc. intros l3 F3.
  apply returns_bind, returns_alloc. intros l4 F4.
  apply returns_alloc. intros l5 F5.
  pose proof F2 as G2. pose proof F3 as G3. pose proof F4 as G4. pose proof F5 as G5.
  apply lookup_insert_None in G2 as [G2 N21].
  apply lookup_insert_None in G3 as [G3 N32]. apply lookup_insert_None in G3 as [G3 N31].
  apply lookup_insert_None in G4 as [G4 N43]. apply lookup_insert_None in G4 as [G4 N42].
  apply lookup_insert_None in G4 as [G4 N41].
  apply lookup_insert_None in G5 as [G5 N54]. apply lookup_insert_None in G5 as [G5 N53].
  apply lookup_insert_None in G5 as [G5 N52]. apply lookup_insert_None in G5 as [G5 N51].
  split.
  { apply map_subseteq_spec. intros i x Hi.
    rewrite !lookup_insert_ne by congruence. exact Hi. }
  split; [exact G5|].
  exists l1, l2, l3, l4.
  split; [apply lookup_insert_eq|].
  split; [rewrite !lookup_insert_ne by congruence; apply lookup_insert_eq|].
  split; [rewrite !lookup_insert_ne by congruence; apply lookup_insert_eq|].
  split; [rewrite !lookup_insert_ne by congruence; apply lookup_insert_eq|].
  split; [rewrite !lookup_insert_ne by congruence; apply lookup_insert_eq|].
  exact G4.
Qed.

End ConstructorFacts.

(** ** The vertices the constructor keeps *)

Lemma select_fmap {A B} (f : A -> B) mask (l : list A) :
  select mask (f <$> l) = f <$> select mask l.
Proof.
  revert l. induction mask as [|[] mask IH]; intros [|x l]; simpl; try reflexivity.
  - by rewrite IH.
  - apply IH.
Qed.


Lemma select_all {A} (l : list A) : select (replicate (length l) true) l = l.
Proof. induction l as [|x l IH]; simpl; [reflexivity|]. by rewrite IH. Qed.

Lemma length_referenced faces n : length (referenced faces n) = n.
Proof.
  unfold referenced. destruct faces.
  - apply length_replicate.
  - rewrite length_fmap. apply length_seq.
Qed.

Lemma first_occurrences_all seen refs (keys : list merge_key) :
  length refs = length keys -> forallb id refs = true -> NoDup keys ->
  (forall k, k ∈ keys -> k ∉ seen) ->
  first_occurrences seen (zip refs keys) = replicate (length keys) true.
Proof.
  revert seen refs. induction keys as [|k keys IH]; intros seen [|r refs] Hlen Hall Hnd Hseen;
    simpl in *; try discriminate; [reflexivity|].
  apply andb_true_iff in Hall as [Hr Hall]. unfold id in Hr. subst r.
  apply NoDup_cons in Hnd as [Hk Hnd].
  rewrite bool_decide_eq_false_2 by (apply Hseen; left).
  simpl. f_equal. apply IH; [lia|exact Hall|exact Hnd|].
  intros k' Hk' Hin. apply elem_of_cons in Hin as [->|Hin]; [done|].
  exact (Hseen k' (list_elem_of_further _ _ _ Hk') Hin).
Qed.

Lemma position_nodup (keys : list merge_key) i k :
  NoDup keys -> keys !! i = Some k -> position keys k = i.
Proof.
  intros Hnd Hi. unfold position.
  assert (H : list_find (fun k' => k' = k) keys = Some (i, k)).
  { apply list_find_Some. split; [exact Hi|]. split; [reflexivity|].
    intros j y Hj Hlt ->. pose proof (NoDup_lookup _ _ _ _ Hnd Hi Hj). lia. }
  rewrite H. reflexivity.
Qed.

(** A clean mesh comes out of the processing as it went in. *)
Lemma merge_vertices_clean invalid_cast vertices faces colors :
  clean invalid_cast vertices faces -> length colors = length vertices ->
  merge_vertices invalid_cast vertices faces colors = (vertices, faces, colors).
Proof.
  intros (Hreg & Href & Hnd) Hlen. unfold merge_vertices, kept. cbv zeta.
  set (keys := key_of invalid_cast <$> vertices) in *.
  assert (Hk : length keys = length vertices) by apply length_fmap.
  rewrite first_occurrences_all;
    [| by rewrite length_referenced | exact Href | exact Hnd
     | intros k _ Hin; by apply elem_of_nil in Hin ].
  assert (E1 : select (replicate (length keys) true) vertices = vertices)
    by (rewrite Hk; apply select_all).
  assert (E2 : select (replicate (length keys) true) keys = keys)
    by apply select_all.
  assert (E3 : select (replicate (length keys) true) colors = colors)
    by (rewrite Hk, <- Hlen; apply select_all).
  rewrite E1, E2, E3. f_equal. f_equal.
  apply andb_true_iff in Hreg as [_ Hfaces].
  rewrite forallb_forall in Hfaces.
  rewrite <- (list_fmap_id faces) at 2. apply list_fmap_ext.
  intros j [[a b] c] Hj. simpl.
  assert (Hin : In (a, b, c) faces).
  { apply list_elem_of_In. exact (list_elem_of_lookup_2 _ _ _ Hj). }
  specialize (Hfaces _ Hin). simpl in Hfaces.
  apply andb_true_iff in Hfaces as [Hab Hc]. apply andb_true_iff in Hab as [Ha Hb].
  apply Nat.ltb_lt in Ha, Hb, Hc.
  assert (Hpos : forall i, (i < length vertices)%nat ->
            position keys (default (0, 0, 0) (keys !! i)) = i).
  { intros i Hi.
    assert (Hsome : is_Some (keys !! i)) by (apply lookup_lt_is_Some_2; lia).
    destruct Hsome as [k Hki]. unfold merge_key in Hki |- *. rewrite Hki. simpl.
    exact (position_nodup _ _ _ Hnd Hki). }
  rewrite !Hpos by assumption. reflexivity.
Qed.

Lemma process_regular invalid_cast irregular vertices faces colors :
  regular vertices faces = true ->
  process invalid_cast irregular vertices faces colors =
    ok (merge_vertices invalid_cast vertices faces colors).
Proof. intros H. unfold process. rewrite H. reflexivity. Qed.

(** ** The routine with the constructor of the library *)

Lemma returns_mono {A} (m : M A) σ (Q Q' : A -> heap -> Prop) :
  returns m σ Q -> (forall a σ', Q a σ' -> Q' a σ') -> returns m σ Q'.
Proof. intros (a & σ' & Hm & HQ) H. exists a, σ'. auto. Qed.

Lemma returns_as_image_array σ image a (Q : ndarray3 -> heap -> Prop) :
  view_image σ image = Some a -> Q a σ -> returns (as_image_array image) σ Q.
Proof.
  intros Ha H. apply returns_bind.
  destruct (view_image_inv _ _ _ Ha) as [Hi|Hi];
    apply (returns_load _ _ _ _ Hi); by apply returns_ret.
Qed.

Lemma returns_load_mesh σ mesh v f c md
    (Q : loc * loc * option loc * option loc -> heap -> Prop) :
  σ !! mesh = Some (OTrimesh v f c md) -> Q (v, f, c, md) σ ->
  returns (load_mesh mesh) σ Q.
Proof.
  intros Hl H. apply returns_bind. apply (returns_load _ _ _ _ Hl).
  by apply returns_ret.
Qed.

Lemma insert_above_subseteq (σ0 σ : heap) l o :
  σ0 ⊆ σ -> σ0 !! l = None -> σ0 ⊆ <[l := o]> σ.
Proof.
  intros Hsub Hl. apply map_subseteq_spec. intros i x Hi.
  rewrite lookup_insert_ne by congruence. exact (lookup_weaken _ _ _ _ Hi Hsub).
Qed.

Section ProcessedFacts.

Variable invalid_cast : Z.
Variable irregular :
  list vec3 -> list face -> list (list Z) ->
  result (list vec3 * list face * list (list Z)).

(** When the colour computation and the processing succeed, so does the
    call; the result has the processed arrays, and the metadata of the
    input, or else the metadata the constructor made. *)
Lemma apply_vertex_colors_processed_returns σ mesh image m a cs vs' fs' cs' :
  view_mesh σ mesh = Some m -> view_image σ image = Some a ->
  mv_vertices m <> [] ->
  compute_vertex_colors invalid_cast (mv_vertices m) a = ok cs ->
  process invalid_cast irregular (mv_vertices m) (mv_faces m) cs = ok (vs', fs', cs') ->
  returns (apply_vertex_colors_processed invalid_cast irregular mesh image) σ
    (fun out σ' =>
       processed σ σ' out
         (MeshView vs' fs' (Some cs')
            (Some (default processed_metadata (mv_metadata m))))).
Proof.
  intros Hm Ha Hne Hc Hp.
  destruct (view_mesh_inv _ _ _ Hm) as (v & f & c & md & Hl & Hv & Hf & _ & Hmd).
  unfold apply_vertex_colors_processed.
  apply returns_bind, (returns_as_image_array _ _ _ _ Ha).
  apply returns_bind, (returns_load_mesh _ _ _ _ _ _ _ Hl).
  apply returns_bind, (returns_copy_vertices _ _ _ _ Hv).
  apply returns_bind, (returns_lift _ _ _ _ Hc).
  apply returns_bind, returns_alloc. intros lc Flc.
  assert (Hsub1 : σ ⊆ <[lc := OColors cs]> σ) by (by apply insert_subseteq).
  apply returns_bind.
  eapply returns_mono.
  { eapply (Trimesh_returns invalid_cast irregular _ v f lc);
      [ exact (lookup_weaken _ _ _ _ Hv Hsub1)
      | exact (lookup_weaken _ _ _ _ Hf Hsub1)
      | apply lookup_insert_eq | exact Hne | exact Hp ]. }
  intros out σ2 (Hsub2 & Fout & v' & f' & c' & md0 & Hout & Hv' & Hf' & Hc' & Hmd0 & Fmd0).
  assert (Hsub : σ ⊆ σ2) by (etrans; [exact Hsub1|exact Hsub2]).
  assert (Fout0 : σ !! out = None) by exact (lookup_new_below _ _ _ Hsub1 Fout).
  destruct md as [l|]; simpl in Hmd.
  - destruct (view_dict σ l) as [d|] eqn:Ed; [|discriminate].
    injection Hmd as Hmd. apply view_dict_inv in Ed.
    apply returns_bind.
    apply (returns_dict_copy _ _ _ _ (lookup_weaken _ _ _ _ Ed Hsub)).
    intros l' Fl'.
    apply returns_bind.
    apply (returns_set_metadata _ _ _ _ _ _ _ _ (lookup_insert_new _ _ _ _ _ Hout Fl')).
    apply returns_ret.
    assert (Nv : v' <> out) by congruence.
    assert (Nf : f' <> out) by congruence.
    assert (Nc : c' <> out) by congruence.
    assert (Nl : l' <> out) by congruence.
    split.
    + exact Fout0.
    + apply insert_above_subseteq; [|exact Fout0].
      by apply insert_new_subseteq.
    + unfold view_mesh, view_vertices, view_faces. rewrite lookup_insert_eq.
      rewrite !(lookup_insert_ne _ out) by congruence.
      rewrite (lookup_insert_new _ _ _ _ _ Hv' Fl'),
        (lookup_insert_new _ _ _ _ _ Hf' Fl'). simpl.
      unfold view_colors. rewrite !(lookup_insert_ne _ out) by congruence.
      rewrite (lookup_insert_new _ _ _ _ _ Hc' Fl'). simpl.
      unfold view_dict. rewrite !(lookup_insert_ne _ out) by congruence.
      rewrite lookup_insert_eq. simpl. rewrite <- Hmd. reflexivity.
    + exists l', d. unfold metadata_loc, view_dict.
      rewrite lookup_insert_eq. rewrite !(lookup_insert_ne _ out) by congruence.
      rewrite lookup_insert_eq. rewrite <- Hmd.
      split; [reflexivity|]. split; [exact (lookup_new_below _ _ _ Hsub Fl')|].
      split; reflexivity.
  - injection Hmd as Hmd. apply returns_ret. split.
    + exact Fout0.
    + exact Hsub.
    + unfold view_mesh, view_vertices, view_faces. rewrite Hout, Hv', Hf'. simpl.
      unfold view_colors. rewrite Hc'. simpl.
      unfold view_dict. rewrite Hmd0. simpl. rewrite <- Hmd. reflexivity.
    + exists md0, processed_metadata. unfold metadata_loc, view_dict.
      rewrite Hout, Hmd0, <- Hmd.
      split; [reflexivity|]. split; [exact (lookup_new_below _ _ _ Hsub1 Fmd0)|].
      split; reflexivity.
Qed.

(** On valid inputs with a regular mesh the call returns the merged
    arrays of the input mesh and of the colours of its vertices. *)
Lemma apply_vertex_colors_processed_valid σ mesh image m a :
  valid_mesh σ mesh m -> valid_image σ image a ->
  regular (mv_vertices m) (mv_faces m) = true ->
  exists mn mx out σ',
    bounding_box (mv_vertices m) = ok (mn, mx) /\
    apply_vertex_colors_processed invalid_cast irregular mesh image σ = (ok out, σ') /\
    let colors := vertex_color invalid_cast a mn (vzip sub mx mn) <$> mv_vertices m in
    let '(vs', fs', cs') :=
      merge_vertices invalid_cast (mv_vertices m) (mv_faces m) colors in
    processed σ σ' out
      (MeshView vs' fs' (Some cs')
         (Some (default processed_metadata (mv_metadata m)))).
Proof.
  intros [Hm Hne] [[Ha Hwf _ Hc] Hh Hw] Hreg.
  destruct (bounding_box_nonempty _ Hne) as (mn & mx & Hbb).
  pose proof (compute_vertex_colors_inside invalid_cast _ a mn mx Hbb Hwf Hc Hh Hw)
    as Hcs.
  cbv zeta.
  destruct (merge_vertices invalid_cast (mv_vertices m) (mv_faces m)
              (vertex_color invalid_cast a mn (vzip sub mx mn) <$> mv_vertices m))
    as [[vs' fs'] cs'] eqn:Em.
  assert (Hp : process invalid_cast irregular (mv_vertices m) (mv_faces m)
                 (vertex_color invalid_cast a mn (vzip sub mx mn) <$> mv_vertices m)
               = ok (vs', fs', cs')).
  { rewrite process_regular by exact Hreg. rewrite Em. reflexivity. }
  destruct (apply_vertex_colors_processed_returns σ mesh image m a _ vs' fs' cs'
              Hm Ha Hne Hcs Hp) as (out & σ' & Hrun & Hres).
  exists mn, mx, out, σ'. rewrite Em. auto.
Qed.

End ProcessedFacts.

Section CleanFacts.

Variable invalid_cast : Z.
Variable irregular :
  list vec3 -> list face -> list (list Z) ->
  result (list vec3 * list face * list (list Z)).

(** On a clean mesh the constructor keeps the arrays it is given. *)
Lemma apply_vertex_colors_processed_clean σ mesh image m a :
  valid_mesh σ mesh m -> valid_image σ image a ->
  clean invalid_cast (mv_vertices m) (mv_faces m) ->
  exists mn mx out σ',
    bounding_box (mv_vertices m) = ok (mn, mx) /\
    apply_vertex_colors_processed invalid_cast irregular mesh image σ = (ok out, σ') /\
    processed σ σ' out
      (MeshView (mv_vertices m) (mv_faces m)
         (Some (vertex_color invalid_cast a mn (vzip sub mx mn) <$> mv_vertices m))
         (Some (default processed_metadata (mv_metadata m)))).
Proof.
  intros Hm Ha Hclean.
  destruct (apply_vertex_colors_processed_valid invalid_cast irregular
              σ mesh image m a Hm Ha (proj1 Hclean))
    as (mn & mx & out & σ' & Hbb & Hrun & Hres).
  cbv zeta in Hres.
  rewrite (merge_vertices_clean _ _ _ _ Hclean) in Hres by apply length_fmap.
  exists mn, mx, out, σ'. auto.
Qed.

(** On a clean mesh, the routine with the constructor of the library and
    the routine whose constructor stores what it is given return the same
    vertices, faces and colours. *)
Lemma constructors_agree_on_clean_meshes σ mesh image m a :
  valid_mesh σ mesh m -> valid_image σ image a ->
  clean invalid_cast (mv_vertices m) (mv_faces m) ->
  exists out σ' out0 σ0 cs,
    apply_vertex_colors_processed invalid_cast irregular mesh image σ = (ok out, σ') /\
    apply_vertex_colors invalid_cast mesh image σ = (ok out0, σ0) /\
    view_mesh σ' out =
      Some (MeshView (mv_vertices m) (mv_faces m) (Some cs)
              (Some (default processed_metadata (mv_metadata m)))) /\
    view_mesh σ0 out0 =
      Some (MeshView (mv_vertices m) (mv_faces m) (Some cs) (mv_metadata m)).
Proof.
  intros Hm Ha Hclean.
  destruct (apply_vertex_colors_processed_clean σ mesh image m a Hm Ha Hclean)
    as (mn & mx & out & σ' & Hbb & Hrun & Hres).
  destruct (apply_vertex_colors_valid invalid_cast σ mesh image m a Hm Ha)
    as (mn0 & mx0 & out0 & σ0 & Hbb0 & Hrun0 & Hcol).
  rewrite Hbb in Hbb0. injection Hbb0 as <- <-.
  exists out, σ', out0, σ0,
    (vertex_color invalid_cast a mn (vzip sub mx mn) <$> mv_vertices m).
  split; [exact Hrun|]. split; [exact Hrun0|].
  split; [exact (processed_view _ _ _ _ Hres)|].
  exact (view_mesh_colored _ _ _ _ _ _ (vm_view _ _ _ Hm) Hcol).
Qed.

End CleanFacts.

Lemma lookup_select_fmap {A B} (f : A -> B) mask (l : list A) i :
  select mask (f <$> l) !! i = f <$> select mask l !! i.
Proof. rewrite select_fmap. apply list_lookup_fmap. Qed.

Lemma length_select_fmap {A B} (f : A -> B) mask (l : list A) :
  length (select mask (f <$> l)) = length (select mask l).
Proof. rewrite select_fmap. apply length_fmap. Qed.

(** * The claims of the specification *)


(** C2: the call fails exactly when the mesh has no vertex or the image has
    height 0 or width 0, and the failure is then the one the specification
    calls InvalidInput (NumPy's exception for an empty reduction or for an
    index outside an axis); on every other mesh and reference image it
    returns. *)
Theorem apply_vertex_colors_invalid_input invalid_cast σ mesh image m a :
  view_mesh σ mesh = Some m -> reference_image σ image a ->
  (raises (fst (apply_vertex_colors invalid_cast mesh image σ)) <->
     mv_vertices m = [] \/ shape0 a = 0%nat \/ shape1 a = 0%nat) /\
  (forall e, fst (apply_vertex_colors invalid_cast mesh image σ) = inl e ->
     invalid_input e).
Proof.
  intros Hm [Ha Hwf _ Hc].
  destruct (mv_vertices m) as [|v vs] eqn:Evs.
  - pose proof (apply_vertex_colors_raises invalid_cast σ mesh image m a ValueError Hm Ha) as H.
    rewrite Evs in H. rewrite (H (compute_vertex_colors_empty _ a)). simpl.
    split; [split; [auto|intros _; by exists ValueError]|].
    intros e [= <-]. by left.
  - destruct (decide (shape0 a = 0%nat \/ shape1 a = 0%nat)) as [Hdim|Hdim].
    + pose proof (apply_vertex_colors_raises invalid_cast σ mesh image m a IndexError Hm Ha) as H.
      rewrite Evs in H.
      rewrite (H (compute_vertex_colors_no_pixels _ v vs a Hdim)). simpl.
      split; [split; [tauto|intros _; by exists IndexError]|].
      intros e [= <-]. by right.
    + destruct (bounding_box_nonempty (v :: vs)) as (mn & mx & Hbb); [discriminate|].
      destruct (apply_vertex_colors_returns invalid_cast σ mesh image m a
                  (vertex_color invalid_cast a mn (vzip sub mx mn) <$> mv_vertices m) Hm Ha)
        as (out & σ' & Hrun & _).
      { rewrite Evs. apply compute_vertex_colors_inside; [done..|lia|lia]. }
      rewrite Hrun. simpl. split; [|discriminate].
      split; [intros [e He]; discriminate|].
      intros [?|?]; [discriminate|tauto].
Qed.


(** C4: on valid inputs with a regular mesh, the array computed at lines
    41-60 has one RGBA row per vertex of the input mesh, the row at index
    [i] being the colour of the vertex at index [i]; the colour array of the
    returned mesh holds the rows of the vertices the constructor keeps: one
    row per vertex of the returned mesh, the row at index [i] being the
    colour computed for its vertex at index [i], every row with 4 components
    within 0..255; when the mesh is clean this is one row per vertex of the
    input mesh. *)
Theorem one_color_per_kept_vertex invalid_cast irregular σ mesh image m a :
  valid_mesh σ mesh m -> valid_image σ image a ->
  regular (mv_vertices m) (mv_faces m) = true ->
  exists out σ' r cs full mn mx,
    apply_vertex_colors_processed invalid_cast irregular mesh image σ = (ok out, σ') /\
    view_mesh σ' out = Some r /\
    mv_vertex_colors r = Some cs /\
    bounding_box (mv_vertices m) = ok (mn, mx) /\
    compute_vertex_colors invalid_cast (mv_vertices m) a = ok full /\
    length full = length (mv_vertices m) /\
    (forall i, full !! i =
       vertex_color invalid_cast a mn (vzip sub mx mn) <$> mv_vertices m !! i) /\
    cs = select (kept invalid_cast (mv_vertices m) (mv_faces m)) full /\
    length cs = length (mv_vertices r) /\
    (forall i, cs !! i =
       vertex_color invalid_cast a mn (vzip sub mx mn) <$> mv_vertices r !! i) /\
    Forall (fun color => length color = 4%nat /\
                         Forall (fun c => 0 <= c <= 255) color) cs /\
    (clean invalid_cast (mv_vertices m) (mv_faces m) ->
     cs = full /\ length cs = length (mv_vertices m)).
Proof.
  intros Hm Ha Hreg.
  destruct (apply_vertex_colors_processed_valid invalid_cast irregular
              σ mesh image m a Hm Ha Hreg)
    as (mn & mx & out & σ' & Hbb & Hrun & Hres).
  cbv zeta in Hres.
  destruct (merge_vertices invalid_cast (mv_vertices m) (mv_faces m)
              (vertex_color invalid_cast a mn (vzip sub mx mn) <$> mv_vertices m))
    as [[vs' fs'] cs'] eqn:Em.
  destruct Hm as [Hview Hne]. destruct Ha as [[Hav Hwf Hu Hc] Hh Hw].
  eexists out, σ', _, cs',
    (vertex_color invalid_cast a mn (vzip sub mx mn) <$> mv_vertices m), mn, mx.
  split; [exact Hrun|].
  split; [exact (processed_view _ _ _ _ Hres)|].
  split; [reflexivity|]. split; [exact Hbb|].
  split; [by apply compute_vertex_colors_inside|].
  split; [apply length_fmap|].
  split; [intros i; apply list_lookup_fmap|].
  pose proof Em as Em'. unfold merge_vertices in Em'. cbv zeta in Em'.
  injection Em' as Evs Efs Ecs. cbn [mv_vertices].
  split; [symmetry; exact Ecs|].
  split; [rewrite <- Ecs, <- Evs; apply length_select_fmap|].
  split; [intros i; rewrite <- Ecs, <- Evs; apply lookup_select_fmap|].
  split.
  { rewrite <- Ecs, select_fmap. apply Forall_fmap, Forall_forall. intros v _.
    by apply vertex_color_shape. }
  intros Hclean.
  rewrite (merge_vertices_clean _ _ _ _ Hclean) in Em by apply length_fmap.
  injection Em as _ _ <-. split; [reflexivity|apply length_fmap].
Qed.



(** C7: on valid inputs with a regular mesh, when the input mesh has a
    metadata mapping the result's metadata is another mapping object, new to
    the store, with the same keys and values, and the input's mapping is
    still what it was; when the input mesh has no metadata, the result has
    the metadata the constructor made: a new mapping with the single entry
    [processed: True]. *)
Theorem metadata_is_copied_or_made invalid_cast irregular σ mesh image m a :
  valid_mesh σ mesh m -> valid_image σ image a ->
  regular (mv_vertices m) (mv_faces m) = true ->
  exists out σ',
    apply_vertex_colors_processed invalid_cast irregular mesh image σ = (ok out, σ') /\
    match metadata_loc σ mesh with
    | Some l =>
        exists l' d,
          metadata_loc σ' out = Some l' /\ l' <> l /\ σ !! l' = None /\
          view_dict σ l = Some d /\ view_dict σ' l' = Some d /\
          view_dict σ' l = Some d
    | None =>
        exists l',
          metadata_loc σ' out = Some l' /\ σ !! l' = None /\
          view_dict σ' l' = Some processed_metadata
    end.
Proof.
  intros Hm Ha Hreg.
  destruct (apply_vertex_colors_processed_valid invalid_cast irregular
              σ mesh image m a Hm Ha Hreg)
    as (mn & mx & out & σ' & Hbb & Hrun & Hres).
  cbv zeta in Hres.
  destruct (merge_vertices invalid_cast (mv_vertices m) (mv_faces m)
              (vertex_color invalid_cast a mn (vzip sub mx mn) <$> mv_vertices m))
    as [[vs' fs'] cs'] eqn:Em.
  exists out, σ'. split; [exact Hrun|].
  destruct Hres as [_ Hsub _ (l' & d' & Hloc & Fl' & Hd' & Hmd)].
  cbn [mv_metadata] in Hmd. injection Hmd as Hmd.
  destruct (view_mesh_inv _ _ _ (vm_view _ _ _ Hm))
    as (v & f & c & md & Hl & _ & _ & _ & Hd).
  unfold metadata_loc at 1. rewrite Hl.
  destruct md as [l|]; simpl in Hd.
  - destruct (view_dict σ l) as [d|] eqn:Ed; [|discriminate].
    injection Hd as Hd. rewrite <- Hd in Hmd. simpl in Hmd. subst d'.
    exists l', d. split; [exact Hloc|].
    split.
    { intros ->. apply view_dict_inv in Ed. congruence. }
    split; [exact Fl'|]. split; [reflexivity|]. split; [exact Hd'|].
    exact (view_dict_weaken _ _ _ _ Hsub Ed).
  - injection Hd as Hd. rewrite <- Hd in Hmd. simpl in Hmd. subst d'.
    exists l'. auto.
Qed.

(** C8: whatever the inputs, and whether the call returns or raises, every
    object that was in the store is still there unchanged, in particular the
    input mesh with its vertices, faces and metadata and the input image
    with its pixels; a returned mesh is an object the store did not hold. *)
Theorem apply_vertex_colors_does_not_mutate invalid_cast σ mesh image :
  let r := apply_vertex_colors invalid_cast mesh image σ in
  (forall l o, σ !! l = Some o -> snd r !! l = Some o) /\
  (forall m, view_mesh σ mesh = Some m -> view_mesh (snd r) mesh = Some m) /\
  (forall a, view_image σ image = Some a -> view_image (snd r) image = Some a) /\
  (forall out, fst r = ok out -> σ !! out = None).
Proof.
  intros r.
  destruct (extends_apply_vertex_colors invalid_cast σ mesh image σ) as [Hsub Hout];
    [reflexivity|].
  fold r in Hsub, Hout.
  split; [intros l o Hl; exact (lookup_weaken _ _ _ _ Hl Hsub)|].
  split; [intros m; by apply view_mesh_weaken|].
  split; [intros a; by apply view_image_weaken|].
  exact Hout.
Qed.


(** C10: for a mesh with at least one vertex and an image with at least one
    row, one column and 3 or 4 channels, every clamped index lies within
    0..width-1, respectively 0..height-1, every pixel read of the loop is
    within the image, and the loop and the call run to their end.  This holds
    whether or not the bounding box has a zero size on some axis. *)
Theorem sampling_stays_in_bounds invalid_cast σ mesh image m a :
  valid_mesh σ mesh m -> valid_image σ image a ->
  exists mn mx,
    bounding_box (mv_vertices m) = ok (mn, mx) /\
    let normalized_verts := normalize mn (vzip sub mx mn) (mv_vertices m) in
    let img_x := project invalid_cast (Z.of_nat (shape1 a)) (vx <$> normalized_verts) in
    let img_y := project invalid_cast (Z.of_nat (shape0 a)) (vy <$> normalized_verts) in
    length img_x = length (mv_vertices m) /\
    length img_y = length (mv_vertices m) /\
    Forall (fun x => 0 <= x <= Z.of_nat (shape1 a) - 1) img_x /\
    Forall (fun y => 0 <= y <= Z.of_nat (shape0 a) - 1) img_y /\
    (forall i y x, img_y !! i = Some y -> img_x !! i = Some x ->
       getitem_yx a y x = ok (pixel a (Z.to_nat y) (Z.to_nat x))) /\
    (exists cs, sample_loop a img_y img_x (seq 0 (length (mv_vertices m)))
                  (ones_255 (length (mv_vertices m))) = ok cs) /\
    exists out σ', apply_vertex_colors invalid_cast mesh image σ = (ok out, σ').
Proof.
  intros Hm Ha.
  destruct (apply_vertex_colors_valid invalid_cast σ mesh image m a Hm Ha)
    as (mn & mx & out & σ' & Hbb & Hrun & _).
  destruct Ha as [[_ Hwf _ Hc] Hh Hw].
  exists mn, mx. split; [exact Hbb|]. intros nv img_x img_y.
  assert (Bx : Forall (fun x => 0 <= x <= Z.of_nat (shape1 a) - 1) img_x).
  { unfold img_x, project. apply Forall_fmap, Forall_forall. intros c _.
    apply clip_bounds. lia. }
  assert (By : Forall (fun y => 0 <= y <= Z.of_nat (shape0 a) - 1) img_y).
  { unfold img_y, project. apply Forall_fmap, Forall_forall. intros c _.
    apply clip_bounds. lia. }
  split; [unfold img_x, project, nv, normalize; by rewrite !length_fmap|].
  split; [unfold img_y, project, nv, normalize; by rewrite !length_fmap|].
  split; [exact Bx|]. split; [exact By|].
  split.
  { intros i y x Hy Hx.
    pose proof (proj1 (Forall_lookup _ _) Bx _ _ Hx) as Hx'.
    pose proof (proj1 (Forall_lookup _ _) By _ _ Hy) as Hy'.
    cbv beta in Hx', Hy'. apply getitem_yx_inside; lia. }
  split; [|by exists out, σ'].
  pose proof (compute_vertex_colors_inside invalid_cast _ a mn mx Hbb Hwf Hc Hh Hw) as E.
  unfold compute_vertex_colors in E. unfold bounding_box in Hbb.
  destruct (reduce_axis0 np_minimum (mv_vertices m)) as [e|mn'] eqn:Emin; [discriminate|].
  destruct (reduce_axis0 np_maximum (mv_vertices m)) as [e|mx'] eqn:Emax; [discriminate|].
  injection Hbb as -> ->.
  eexists. exact E.
Qed.

(** * The claims on the scenario of section 8.6 *)

Ltac example_view := vm_compute; reflexivity.

Ltac example_mesh := split; [example_view | discriminate].

Ltac example_pixels := repeat first [ lia | reflexivity | constructor ].

Ltac example_reference_image :=
  split;
    [ example_view
    | split; [reflexivity | example_pixels]
    | unfold uint8_ndarray3; simpl; example_pixels
    | simpl; auto ].

Ltac example_image := split; [example_reference_image | simpl; lia | simpl; lia].


Lemma invalid_input_witness :
  view_mesh example_store 3%nat = Some cube_view /\
  reference_image example_store 4%nat quadrants_rgb /\
  (raises (fst (apply_vertex_colors x86_64_invalid 3%nat 4%nat example_store)) <->
     unit_cube = [] \/ 2%nat = 0%nat \/ 2%nat = 0%nat).
Proof.
  assert (Hm : view_mesh example_store 3%nat = Some cube_view) by example_view.
  assert (Ha : reference_image example_store 4%nat quadrants_rgb)
    by example_reference_image.
  split; [exact Hm|]. split; [exact Ha|].
  exact (proj1 (apply_vertex_colors_invalid_input x86_64_invalid example_store
                  3%nat 4%nat cube_view quadrants_rgb Hm Ha)).
Defined.

(** The cube is clean: every corner is used by a face and no two corners
    have the same row. *)
Lemma unit_cube_clean : clean x86_64_invalid unit_cube box_faces.
Proof.
  split; [vm_compute; reflexivity|]. split; [vm_compute; reflexivity|].
  apply (bool_decide_unpack _). vm_compute. exact I.
Qed.



(** A square of two triangles with six vertices, two of them duplicates,
    comes back with four colours. *)
Lemma duplicate_vertices_share_a_color :
  valid_mesh processing_store 5%nat split_quad_view /\
  valid_image processing_store 6%nat quadrants_rgb /\
  exists out σ' r cs,
    apply_vertex_colors_processed x86_64_invalid no_irregular 5%nat 6%nat
      processing_store = (ok out, σ') /\
    view_mesh σ' out = Some r /\
    mv_vertex_colors r = Some cs /\
    length cs = 4%nat /\ length (mv_vertices split_quad_view) = 6%nat.
Proof.
  assert (Hm : valid_mesh processing_store 5%nat split_quad_view) by example_mesh.
  assert (Ha : valid_image processing_store 6%nat quadrants_rgb) by example_image.
  split; [exact Hm|]. split; [exact Ha|].
  destruct (apply_vertex_colors_processed_valid x86_64_invalid no_irregular
              processing_store 5%nat 6%nat split_quad_view quadrants_rgb Hm Ha eq_refl)
    as (mn & mx & out & σ' & Hbb & Hrun & Hres).
  vm_compute in Hbb. injection Hbb as <- <-.
  cbv zeta in Hres.
  destruct (merge_vertices _ _ _ _) as [[vs' fs'] cs'] eqn:Em in Hres.
  apply (f_equal (fun r => length (snd r))) in Em. vm_compute in Em.
  eexists out, σ', _, cs'. split; [exact Hrun|].
  split; [exact (processed_view _ _ _ _ Hres)|].
  split; [reflexivity|]. split; [symmetry; exact Em|reflexivity].
Qed.

Lemma one_color_per_kept_vertex_witness :
  valid_mesh processing_store 5%nat split_quad_view /\
  valid_image processing_store 6%nat quadrants_rgb /\
  regular split_quad two_triangles = true /\
  exists out σ' r cs,
    apply_vertex_colors_processed x86_64_invalid no_irregular 5%nat 6%nat
      processing_store = (ok out, σ') /\
    view_mesh σ' out = Some r /\
    mv_vertex_colors r = Some cs /\
    cs = [ [10; 11; 12; 255]; [20; 21; 22; 255]; [30; 31; 32; 255];
           [40; 41; 42; 255] ] /\
    length cs = length (mv_vertices r).
Proof.
  assert (Hm : valid_mesh processing_store 5%nat split_quad_view) by example_mesh.
  assert (Ha : valid_image processing_store 6%nat quadrants_rgb) by example_image.
  assert (Hreg : regular split_quad two_triangles = true) by (vm_compute; reflexivity).
  split; [exact Hm|]. split; [exact Ha|]. split; [exact Hreg|].
  destruct (one_color_per_kept_vertex x86_64_invalid no_irregular processing_store
              5%nat 6%nat split_quad_view quadrants_rgb Hm Ha Hreg)
    as (out & σ' & r & cs & full & mn & mx & Hrun & Hview & Hcs & Hbb & Hfull & _ & _
        & Hsel & Hlen & _).
  exists out, σ', r, cs. split; [exact Hrun|]. split; [exact Hview|].
  split; [exact Hcs|]. split; [|exact Hlen].
  vm_compute in Hfull. injection Hfull as <-. rewrite Hsel. vm_compute. reflexivity.
Defined.



(** The box has no metadata; the returned mesh has the mapping the
    constructor made. *)
Lemma constructor_attaches_metadata :
  valid_mesh example_store 7%nat tall_box_view /\
  valid_image example_store 4%nat quadrants_rgb /\
  metadata_loc example_store 7%nat = None /\
  exists out σ' l,
    apply_vertex_colors_processed x86_64_invalid no_irregular 7%nat 4%nat
      example_store = (ok out, σ') /\
    metadata_loc σ' out = Some l /\
    view_dict σ' l = Some processed_metadata.
Proof.
  assert (Hm : valid_mesh example_store 7%nat tall_box_view) by example_mesh.
  assert (Ha : valid_image example_store 4%nat quadrants_rgb) by example_image.
  split; [exact Hm|]. split; [exact Ha|]. split; [example_view|].
  destruct (apply_vertex_colors_processed_valid x86_64_invalid no_irregular
              example_store 7%nat 4%nat tall_box_view quadrants_rgb Hm Ha eq_refl)
    as (mn & mx & out & σ' & _ & Hrun & Hres).
  cbv zeta in Hres.
  destruct (merge_vertices _ _ _ _) as [[vs' fs'] cs'] in Hres.
  destruct Hres as [_ _ _ (l & d & Hloc & _ & Hd & Hmd)].
  injection Hmd as <-.
  exists out, σ', l. split; [exact Hrun|]. split; [exact Hloc|exact Hd].
Qed.

Lemma metadata_is_copied_witness :
  valid_mesh example_store 3%nat cube_view /\
  valid_image example_store 4%nat quadrants_rgb /\
  regular unit_cube box_faces = true /\
  exists out σ' l',
    apply_vertex_colors_processed x86_64_invalid no_irregular 3%nat 4%nat
      example_store = (ok out, σ') /\
    metadata_loc σ' out = Some l' /\ l' <> 2%nat /\
    view_dict σ' l' = Some example_metadata /\
    view_dict σ' 2%nat = Some example_metadata.
Proof.
  assert (Hm : valid_mesh example_store 3%nat cube_view) by example_mesh.
  assert (Ha : valid_image example_store 4%nat quadrants_rgb) by example_image.
  assert (Hreg : regular unit_cube box_faces = true) by (vm_compute; reflexivity).
  split; [exact Hm|]. split; [exact Ha|]. split; [exact Hreg|].
  destruct (metadata_is_copied_or_made x86_64_invalid no_irregular example_store
              3%nat 4%nat cube_view quadrants_rgb Hm Ha Hreg)
    as (out & σ' & Hrun & Hmd).
  change (metadata_loc example_store 3%nat) with (Some 2%nat) in Hmd.
  destruct Hmd as (l' & d & Hl' & Hne & _ & Hd & Hd' & Hd'').
  assert (Ed : d = example_metadata).
  { change (view_dict example_store 2%nat) with (Some example_metadata) in Hd.
    by injection Hd. }
  subst d. exists out, σ', l'. auto.
Defined.


Lemma stays_in_bounds_witness :
  valid_mesh example_store 7%nat tall_box_view /\
  valid_image example_store 4%nat quadrants_rgb /\
  exists out σ',
    apply_vertex_colors x86_64_invalid 7%nat 4%nat example_store = (ok out, σ').
Proof.
  assert (Hm : valid_mesh example_store 7%nat tall_box_view) by example_mesh.
  assert (Ha : valid_image example_store 4%nat quadrants_rgb) by example_image.
  split; [exact Hm|]. split; [exact Ha|].
  destruct (sampling_stays_in_bounds x86_64_invalid example_store
              7%nat 4%nat tall_box_view quadrants_rgb Hm Ha)
    as (mn & mx & _ & Hrest).
  exact (proj2 (proj2 (proj2 (proj2 (proj2 (proj2 Hrest)))))).
Defined.

(** * Further properties of the vertex colouring *)

(** ** Images with another number of channels *)

(** The step of the loop for any number of channels, on a row that still
    holds its initial value. *)
Lemma sample_step_any a ys xs i y x cs :
  ys !! i = Some y -> xs !! i = Some x ->
  0 <= y < Z.of_nat (shape0 a) -> 0 <= x < Z.of_nat (shape1 a) ->
  cs !! i = Some [255; 255; 255; 255] ->
  sample_step a ys xs i cs =
    (row' ← (if decide (shape2 a = 4%nat)
             then setitem_prefix 4 (pixel a (Z.to_nat y) (Z.to_nat x)) [255; 255; 255; 255]
             else setitem_prefix 3 (pixel a (Z.to_nat y) (Z.to_nat x)) [255; 255; 255; 255]);
     ok (<[i := row']> cs)).
Proof.
  intros Hy Hx By Bx Hrow. unfold sample_step, item.
  rewrite Hy, Hx. cbn [mbind result_bind rbind ok].
  rewrite getitem_yx_inside by assumption. cbn [mbind result_bind rbind ok].
  rewrite Hrow. reflexivity.
Qed.

Lemma setitem_prefix_mismatch px row :
  length px <> 3%nat -> length px <> 1%nat ->
  setitem_prefix 3 px row = raise ValueError.
Proof.
  intros H3 H1. unfold setitem_prefix. rewrite decide_False by exact H3.
  destruct px as [|c [|c' px]]; simpl in *; try reflexivity; congruence.
Qed.

Section ChannelFacts.

Variable invalid_cast : Z.


Lemma compute_vertex_colors_bad_channels v vertices a :
  wf_ndarray3 a ->
  shape2 a <> 1%nat -> shape2 a <> 3%nat -> shape2 a <> 4%nat ->
  (1 <= shape0 a)%nat -> (1 <= shape1 a)%nat ->
  compute_vertex_colors invalid_cast (v :: vertices) a = raise ValueError.
Proof.
  intros Hwf H1 H3 H4 Hh Hw. unfold compute_vertex_colors.
  cbn [reduce_axis0 length seq sample_loop mbind result_bind rbind ok].
  set (mn := fold_left (vzip np_minimum) vertices v).
  set (mx := fold_left (vzip np_maximum) vertices v).
  set (sz := vzip sub mx mn).
  pose proof (img_index_bounds invalid_cast (Z.of_nat (shape0 a)) (vy (normalized mn sz v))) as By.
  pose proof (img_index_bounds invalid_cast (Z.of_nat (shape1 a)) (vx (normalized mn sz v))) as Bx.
  rewrite (sample_step_any a _ _ 0%nat _ _ _
             (project_lookup invalid_cast _ vy mn sz (v :: vertices) 0%nat v eq_refl)
             (project_lookup invalid_cast _ vx mn sz (v :: vertices) 0%nat v eq_refl))
    by (try reflexivity; lia).
  rewrite decide_False by exact H4.
  destruct (pixel_wf a (Z.to_nat (img_index invalid_cast (Z.of_nat (shape0 a)) (vy (normalized mn sz v))))
              (Z.to_nat (img_index invalid_cast (Z.of_nat (shape1 a)) (vx (normalized mn sz v)))) Hwf)
    as (_ & _ & _ & Hlen); [lia..|].
  rewrite setitem_prefix_mismatch by congruence. reflexivity.
Qed.

End ChannelFacts.


(** X2: an image array with at least one pixel whose number of channels is
    neither 1, 3 nor 4 makes the call raise [ValueError] (the pixel does not
    broadcast into [vertex_colors[i, :3]]), and the store is left as it
    was. *)
Theorem unsupported_channel_count_raises invalid_cast σ mesh image m a :
  valid_mesh σ mesh m -> view_image σ image = Some a ->
  wf_ndarray3 a ->
  shape2 a <> 1%nat -> shape2 a <> 3%nat -> shape2 a <> 4%nat ->
  (1 <= shape0 a)%nat -> (1 <= shape1 a)%nat ->
  apply_vertex_colors invalid_cast mesh image σ = (raise ValueError, σ).
Proof.
  intros [Hm Hne] Ha Hwf H1 H3 H4 Hh Hw.
  apply (apply_vertex_colors_raises invalid_cast σ mesh image m a ValueError Hm Ha).
  destruct (mv_vertices m) as [|v vs]; [congruence|].
  by apply compute_vertex_colors_bad_channels.
Qed.

(** ** Degenerate images and meshes *)




(** ** Colouring a mesh that has colours already *)

(** X6: the colours a mesh already has play no part: for a clean mesh,
    colouring the result of a first call with a second image gives the
    geometry, the metadata and the colours that colouring the original mesh
    with the second image gives. *)
Theorem recoloring_ignores_previous_colors invalid_cast irregular
    σ mesh image1 image2 m a1 a2 :
  valid_mesh σ mesh m -> valid_image σ image1 a1 -> valid_image σ image2 a2 ->
  clean invalid_cast (mv_vertices m) (mv_faces m) ->
  exists out1 σ1 out2 σ2 direct σd cs,
    apply_vertex_colors_processed invalid_cast irregular mesh image1 σ = (ok out1, σ1) /\
    apply_vertex_colors_processed invalid_cast irregular out1 image2 σ1 = (ok out2, σ2) /\
    apply_vertex_colors_processed invalid_cast irregular mesh image2 σ = (ok direct, σd) /\
    let metadata := default processed_metadata (mv_metadata m) in
    view_mesh σ2 out2 =
      Some (MeshView (mv_vertices m) (mv_faces m) (Some cs) (Some metadata)) /\
    view_mesh σd direct =
      Some (MeshView (mv_vertices m) (mv_faces m) (Some cs) (Some metadata)).
Proof.
  intros Hm Ha1 Ha2 Hclean.
  destruct (apply_vertex_colors_processed_clean invalid_cast irregular
              σ mesh image1 m a1 Hm Ha1 Hclean)
    as (mn & mx & out1 & σ1 & Hbb & Hrun1 & Hres1).
  pose proof (processed_view _ _ _ _ Hres1) as Hview1.
  set (m1 := MeshView (mv_vertices m) (mv_faces m)
               (Some (vertex_color invalid_cast a1 mn (vzip sub mx mn) <$> mv_vertices m))
               (Some (default processed_metadata (mv_metadata m)))) in *.
  assert (Hm1 : valid_mesh σ1 out1 m1).
  { split; [exact Hview1|]. exact (vm_nonempty _ _ _ Hm). }
  assert (Ha2' : valid_image σ1 image2 a2).
  { destruct Ha2 as [[Hv Hwf Hu Hc] Hh Hw]. split; [split|..]; try assumption.
    exact (view_image_weaken _ _ _ _ (processed_extends _ _ _ _ Hres1) Hv). }
  destruct (apply_vertex_colors_processed_clean invalid_cast irregular
              σ1 out1 image2 m1 a2 Hm1 Ha2' Hclean)
    as (mn2 & mx2 & out2 & σ2 & Hbb2 & Hrun2 & Hres2).
  destruct (apply_vertex_colors_processed_clean invalid_cast irregular
              σ mesh image2 m a2 Hm Ha2 Hclean)
    as (mnd & mxd & direct & σd & Hbbd & Hrund & Hresd).
  cbn [mv_vertices m1] in Hbb2. rewrite Hbbd in Hbb2. injection Hbb2 as <- <-.
  exists out1, σ1, out2, σ2, direct, σd,
    (vertex_color invalid_cast a2 mnd (vzip sub mxd mnd) <$> mv_vertices m).
  split; [exact Hrun1|]. split; [exact Hrun2|]. split; [exact Hrund|].
  split.
  - exact (processed_view _ _ _ _ Hres2).
  - exact (processed_view _ _ _ _ Hresd).
Qed.

(** ** The further properties on examples *)


Lemma unsupported_channel_count_witness :
  valid_mesh variation_store 2%nat plain_cube_view /\
  view_image variation_store 4%nat = Some quadrants_la /\
  wf_ndarray3 quadrants_la /\
  apply_vertex_colors x86_64_invalid 2%nat 4%nat variation_store =
    (raise ValueError, variation_store).
Proof.
  assert (Hm : valid_mesh variation_store 2%nat plain_cube_view) by example_mesh.
  assert (Ha : view_image variation_store 4%nat = Some quadrants_la) by example_view.
  assert (Hwf : wf_ndarray3 quadrants_la) by (split; [reflexivity | example_pixels]).
  split; [exact Hm|]. split; [exact Ha|]. split; [exact Hwf|].
  apply (unsupported_channel_count_raises x86_64_invalid variation_store
           2%nat 4%nat plain_cube_view quadrants_la Hm Ha Hwf);
    simpl; lia.
Defined.




Lemma recoloring_witness :
  valid_mesh example_store 3%nat cube_view /\
  valid_image example_store 4%nat quadrants_rgb /\
  valid_image example_store 5%nat quadrants_rgba /\
  clean x86_64_invalid unit_cube box_faces /\
  exists out1 σ1 out2 σ2 direct σd cs,
    apply_vertex_colors_processed x86_64_invalid no_irregular 3%nat 4%nat
      example_store = (ok out1, σ1) /\
    apply_vertex_colors_processed x86_64_invalid no_irregular out1 5%nat σ1 =
      (ok out2, σ2) /\
    apply_vertex_colors_processed x86_64_invalid no_irregular 3%nat 5%nat
      example_store = (ok direct, σd) /\
    view_mesh σ2 out2 =
      Some (MeshView unit_cube box_faces (Some cs) (Some example_metadata)) /\
    view_mesh σd direct =
      Some (MeshView unit_cube box_faces (Some cs) (Some example_metadata)).
Proof.
  assert (Hm : valid_mesh example_store 3%nat cube_view) by example_mesh.
  assert (Ha1 : valid_image example_store 4%nat quadrants_rgb) by example_image.
  assert (Ha2 : valid_image example_store 5%nat quadrants_rgba) by example_image.
  split; [exact Hm|]. split; [exact Ha1|]. split; [exact Ha2|].
  split; [exact unit_cube_clean|].
  exact (recoloring_ignores_previous_colors x86_64_invalid no_irregular example_store
           3%nat 4%nat 5%nat cube_view quadrants_rgb quadrants_rgba Hm Ha1 Ha2
           unit_cube_clean).
Defined.

(** * Properties of model loading, logging and timing *)

Import Utils.

(** ** The three places a model is looked for *)

Ltac run_world :=
  unfold mbind, W_bind, mret, W_ret, logger_info, logger_warning, path_exists,
    environ_get, throw;
  cbn [files environ records downloads loggers andb negb].

Section LoadFacts.
Variable expanduser : string -> string.
Variable import_huggingface_hub : option exc.
Variable snapshot_download :
  string -> list string -> (string -> bool) -> (exc + string) * (string -> bool).

Lemma try_hardcoded_usable mp sub us var w :
  hardcoded_usable (files w) mp sub us var = true ->
  try_hardcoded mp sub us var w =
    (inr (Some (path_join (hardcoded_dir mp sub) "config.yaml",
                path_join (hardcoded_dir mp sub) (ckpt_name us var))),
     World (files w) (environ w)
       (records w ++ [(INFO, "Checking for models at: " +:+ hardcoded_dir mp sub);
                      (INFO, "Using local model from " +:+ hardcoded_dir mp sub)])
       (downloads w) (loggers w)).
Proof.
  unfold hardcoded_usable, complete. rewrite !andb_true_iff.
  intros (Hp & Hd & Hc & Hk). unfold try_hardcoded. rewrite Hp.
  fold (hardcoded_dir mp sub). run_world. rewrite Hd. run_world.
  rewrite Hc, Hk. run_world. rewrite <- app_assoc. reflexivity.
Qed.

Lemma try_hardcoded_unusable mp sub us var w :
  hardcoded_usable (files w) mp sub us var = false ->
  exists logged,
    try_hardcoded mp sub us var w =
      (inr None, World (files w) (environ w) (records w ++ logged)
                   (downloads w) (loggers w)).
Proof.
  unfold hardcoded_usable, complete. intros H. unfold try_hardcoded.
  destruct (String.prefix "tencent/" mp).
  - fold (hardcoded_dir mp sub). run_world.
    destruct (files w (hardcoded_dir mp sub)); run_world; [|eexists; reflexivity].
    destruct (files w (path_join (hardcoded_dir mp sub) "config.yaml")),
             (files w (path_join (hardcoded_dir mp sub) (ckpt_name us var)));
      try discriminate; run_world; rewrite <- app_assoc; eexists; reflexivity.
  - exists []. rewrite app_nil_r. by destruct w.
Qed.

Lemma try_environment_complete mp sub us var w :
  complete (files w) (environment_dir expanduser (environ w) mp sub) us var = true ->
  try_environment expanduser mp sub us var w =
    (inr (Some (path_join (environment_dir expanduser (environ w) mp sub) "config.yaml",
                path_join (environment_dir expanduser (environ w) mp sub)
                  (ckpt_name us var))),
     World (files w) (environ w)
       (records w
          ++ [(INFO, "Checking environment path: "
                     +:+ environment_dir expanduser (environ w) mp sub);
              (INFO, "Using model from environment path: "
                     +:+ environment_dir expanduser (environ w) mp sub)])
       (downloads w) (loggers w)).
Proof.
  unfold complete. rewrite !andb_true_iff. intros (Hd & Hc & Hk).
  unfold try_environment. run_world.
  fold (environment_dir expanduser (environ w) mp sub).
  rewrite Hd. run_world. rewrite Hc, Hk. run_world. rewrite <- app_assoc. reflexivity.
Qed.

Lemma try_environment_incomplete mp sub us var w :
  complete (files w) (environment_dir expanduser (environ w) mp sub) us var = false ->
  try_environment expanduser mp sub us var w =
    (inr None,
     World (files w) (environ w)
       (records w ++ [(INFO, "Checking environment path: "
                             +:+ environment_dir expanduser (environ w) mp sub)])
       (downloads w) (loggers w)).
Proof.
  unfold complete. intros H. unfold try_environment. run_world.
  fold (environment_dir expanduser (environ w) mp sub).
  destruct (files w (environment_dir expanduser (environ w) mp sub));
    run_world; [|reflexivity].
  destruct (files w (path_join _ "config.yaml")), (files w (path_join _ (ckpt_name us var)));
    try discriminate; reflexivity.
Qed.

Lemma download_failed_run {A} e w :
  exists logged,
    @download_failed A e w =
      (inl (reraised e),
       World (files w) (environ w) (records w ++ logged) (downloads w) (loggers w)).
Proof.
  unfold download_failed, reraised.
  destruct (exc_cls e); run_world; eexists; reflexivity.
Qed.

Lemma download_and_check_spec mp sub us var w :
  match import_huggingface_hub with
  | Some e =>
      exists logged,
        download_and_check import_huggingface_hub snapshot_download mp sub us var w =
          (inl (reraised e),
           World (files w) (environ w) (records w ++ logged) (downloads w) (loggers w))
  | None =>
      let '(r, files') := snapshot_download mp [sub +:+ "/*"] (files w) in
      exists logged,
        download_and_check import_huggingface_hub snapshot_download mp sub us var w =
          (download_outcome r files' mp sub us var,
           World files' (environ w) (records w ++ logged)
             (downloads w ++ [(mp, [sub +:+ "/*"])]) (loggers w))
  end.
Proof.
  unfold download_and_check. destruct import_huggingface_hub as [e|].
  - run_world.
    destruct (download_failed_run (A := string) e
                (World (files w) (environ w)
                   (records w ++ [(INFO, "No local models found - downloading from HuggingFace")])
                   (downloads w) (loggers w))) as (logged & ->).
    cbn [files environ records downloads loggers]. rewrite <- app_assoc.
    eexists. reflexivity.
  - destruct (snapshot_download mp [sub +:+ "/*"] (files w)) as [r files'] eqn:Edl.
    unfold call_snapshot_download. run_world. rewrite Edl.
    destruct r as [e|path]; cbn [download_outcome].
    + destruct (download_failed_run (A := string) e
                  (World files' (environ w)
                     (records w ++ [(INFO, "No local models found - downloading from HuggingFace")])
                     (downloads w ++ [(mp, [sub +:+ "/*"])]) (loggers w)))
        as (logged & ->).
      cbn [files environ records downloads loggers]. rewrite <- app_assoc.
      eexists. reflexivity.
    + run_world.
      destruct (files' (path_join path sub)); run_world;
        [|rewrite <- ?app_assoc; eexists; reflexivity].
      destruct (files' (path_join (path_join path sub) "config.yaml")); run_world;
        [|rewrite <- ?app_assoc; eexists; reflexivity].
      destruct (files' (path_join (path_join path sub) (ckpt_name us var))); run_world;
        rewrite <- ?app_assoc; eexists; reflexivity.
Qed.
End LoadFacts.

(** The three branches of [smart_load_model], by what exists when it is
    called. *)
Lemma smart_load_model_cases
    expanduser import_huggingface_hub snapshot_download model_path subfolder
    use_safetensors variant w :
  exists logged,
    smart_load_model expanduser import_huggingface_hub snapshot_download
      model_path subfolder use_safetensors variant w =
    if hardcoded_usable (files w) model_path subfolder use_safetensors variant then
      (inr (path_join (hardcoded_dir model_path subfolder) "config.yaml",
            path_join (hardcoded_dir model_path subfolder)
              (ckpt_name use_safetensors variant)),
       World (files w) (environ w) (records w ++ logged) (downloads w) (loggers w))
    else if complete (files w)
              (environment_dir expanduser (environ w) model_path subfolder)
              use_safetensors variant then
      (inr (path_join (environment_dir expanduser (environ w) model_path subfolder)
              "config.yaml",
            path_join (environment_dir expanduser (environ w) model_path subfolder)
              (ckpt_name use_safetensors variant)),
       World (files w) (environ w) (records w ++ logged) (downloads w) (loggers w))
    else
      hub_run import_huggingface_hub snapshot_download model_path subfolder
        use_safetensors variant w logged.
Proof.
  unfold smart_load_model.
  destruct (hardcoded_usable (files w) model_path subfolder use_safetensors variant)
    eqn:Hh.
  { unfold mbind at 1. unfold W_bind.
    rewrite (try_hardcoded_usable _ _ _ _ _ Hh). eexists. reflexivity. }
  destruct (try_hardcoded_unusable _ _ _ _ _ Hh) as (logged1 & Hrun).
  unfold mbind at 1. unfold W_bind. rewrite Hrun.
  unfold mbind at 1. unfold W_bind.
  destruct (complete (files w)
              (environment_dir expanduser (environ w) model_path subfolder)
              use_safetensors variant) eqn:He.
  { rewrite try_environment_complete by exact He.
    cbn [files environ records downloads loggers]. rewrite <- app_assoc.
    eexists. reflexivity. }
  rewrite try_environment_incomplete by exact He.
  cbn [files environ records downloads loggers].
  pose proof (download_and_check_spec import_huggingface_hub snapshot_download
                model_path subfolder use_safetensors variant
                (World (files w) (environ w)
                   ((records w ++ logged1)
                      ++ [(INFO, "Checking environment path: "
                                 +:+ environment_dir expanduser (environ w)
                                       model_path subfolder)])
                   (downloads w) (loggers w))) as Hdl.
  cbn [files environ records downloads loggers] in Hdl.
  unfold hub_run. destruct import_huggingface_hub as [e|].
  - destruct Hdl as (logged2 & Hdl). rewrite Hdl.
    rewrite <- !app_assoc. eexists. reflexivity.
  - destruct (snapshot_download model_path [subfolder +:+ "/*"] (files w)) as [r files'].
    destruct Hdl as (logged2 & Hdl). rewrite Hdl.
    rewrite <- !app_assoc. eexists. reflexivity.
Qed.

(** X7: for a model path under [tencent/], when the hard-coded directory
    exists and holds [config.yaml] and the checkpoint, [smart_load_model]
    returns these two paths, logs two records, does not read the environment
    directory and makes no download. *)
Theorem smart_load_model_prefers_hardcoded_directory
    expanduser import_huggingface_hub snapshot_download model_path subfolder
    use_safetensors variant w :
  hardcoded_usable (files w) model_path subfolder use_safetensors variant = true ->
  smart_load_model expanduser import_huggingface_hub snapshot_download
    model_path subfolder use_safetensors variant w =
    (inr (path_join (hardcoded_dir model_path subfolder) "config.yaml",
          path_join (hardcoded_dir model_path subfolder)
            (ckpt_name use_safetensors variant)),
     World (files w) (environ w)
       (records w
          ++ [(INFO, "Checking for models at: " +:+ hardcoded_dir model_path subfolder);
              (INFO, "Using local model from " +:+ hardcoded_dir model_path subfolder)])
       (downloads w) (loggers w)).
Proof.
  intros H. unfold smart_load_model.
  unfold mbind at 1. unfold W_bind.
  rewrite (try_hardcoded_usable _ _ _ _ _ H). reflexivity.
Qed.

(** X8: when the hard-coded directory is not usable and the directory under
    [HY3DGEN_MODELS] (by default [~/.cache/hy3dgen], with the home directory
    expanded) is complete, [smart_load_model] returns the two paths in that
    directory and makes no download. *)
Theorem smart_load_model_falls_back_to_environment
    expanduser import_huggingface_hub snapshot_download model_path subfolder
    use_safetensors variant w :
  hardcoded_usable (files w) model_path subfolder use_safetensors variant = false ->
  complete (files w) (environment_dir expanduser (environ w) model_path subfolder)
    use_safetensors variant = true ->
  exists logged,
    smart_load_model expanduser import_huggingface_hub snapshot_download
      model_path subfolder use_safetensors variant w =
      (inr (path_join (environment_dir expanduser (environ w) model_path subfolder)
              "config.yaml",
            path_join (environment_dir expanduser (environ w) model_path subfolder)
              (ckpt_name use_safetensors variant)),
       World (files w) (environ w) (records w ++ logged) (downloads w) (loggers w)).
Proof.
  intros Hh He. unfold smart_load_model.
  destruct (try_hardcoded_unusable _ _ _ _ _ Hh) as (logged & Hrun).
  unfold mbind at 1. unfold W_bind. rewrite Hrun.
  unfold mbind at 1. unfold W_bind.
  rewrite try_environment_complete by exact He.
  cbn [files environ records downloads loggers]. rewrite <- app_assoc.
  eexists. reflexivity.
Qed.

(** X9: when neither directory is usable, [smart_load_model] turns to the
    hub.  If the import of the hub package raises, no request is made and
    the exception of the [except] clauses is raised ([RuntimeError] for an
    [ImportError]).  Otherwise exactly one request is made, for the model
    path with the pattern [subfolder/*], and the outcome is decided by what
    the call returned and by what exists afterwards: the paths in the
    snapshot, [FileNotFoundError] for a missing directory, configuration or
    checkpoint, and for a call that raised the exception of the [except]
    clauses. *)
Theorem smart_load_model_downloads_as_last_resort
    expanduser import_huggingface_hub snapshot_download model_path subfolder
    use_safetensors variant w :
  hardcoded_usable (files w) model_path subfolder use_safetensors variant = false ->
  complete (files w) (environment_dir expanduser (environ w) model_path subfolder)
    use_safetensors variant = false ->
  match import_huggingface_hub with
  | Some e =>
      exists logged,
        smart_load_model expanduser import_huggingface_hub snapshot_download
          model_path subfolder use_safetensors variant w =
          (inl (reraised e),
           World (files w) (environ w) (records w ++ logged) (downloads w) (loggers w))
  | None =>
      let '(r, files') := snapshot_download model_path [subfolder +:+ "/*"] (files w) in
      exists logged,
        smart_load_model expanduser import_huggingface_hub snapshot_download
          model_path subfolder use_safetensors variant w =
          (download_outcome r files' model_path subfolder use_safetensors variant,
           World files' (environ w) (records w ++ logged)
             (downloads w ++ [(model_path, [subfolder +:+ "/*"])]) (loggers w))
  end.
Proof.
  intros Hh He.
  destruct (smart_load_model_cases expanduser import_huggingface_hub snapshot_download
              model_path subfolder use_safetensors variant w) as (logged & Hrun).
  rewrite Hh, He in Hrun. unfold hub_run in Hrun.
  destruct import_huggingface_hub as [e|].
  - by exists logged.
  - destruct (snapshot_download model_path [subfolder +:+ "/*"] (files w)) as [r files'].
    by exists logged.
Qed.

Lemma download_outcome_found r exists_ mp sub us var config ckpt :
  download_outcome r exists_ mp sub us var = inr (config, ckpt) ->
  exists path,
    r = inr path /\
    exists_ (path_join path sub) = true /\
    exists_ config = true /\ exists_ ckpt = true /\
    config = path_join (path_join path sub) "config.yaml" /\
    ckpt = path_join (path_join path sub) (ckpt_name us var).
Proof.
  unfold download_outcome. destruct r as [e|path]; [discriminate|].
  destruct (exists_ (path_join path sub)) eqn:Ed; [|discriminate].
  destruct (exists_ (path_join (path_join path sub) "config.yaml")) eqn:Ec; [|discriminate].
  destruct (exists_ (path_join (path_join path sub) (ckpt_name us var))) eqn:Ek;
    [|discriminate].
  cbn [negb]. intros [= <- <-]. exists path. repeat split; assumption || reflexivity.
Qed.

(** X10: whenever [smart_load_model] returns, the two paths it returns
    exist, and they are [config.yaml] and the checkpoint of one directory
    that exists. *)
Theorem smart_load_model_returns_existing_files
    expanduser import_huggingface_hub snapshot_download model_path subfolder
    use_safetensors variant w config_path ckpt_path w' :
  smart_load_model expanduser import_huggingface_hub snapshot_download
    model_path subfolder use_safetensors variant w
    = (inr (config_path, ckpt_path), w') ->
  files w' config_path = true /\ files w' ckpt_path = true /\
  exists dir,
    files w' dir = true /\
    config_path = path_join dir "config.yaml" /\
    ckpt_path = path_join dir (ckpt_name use_safetensors variant).
Proof.
  intros Hrun.
  destruct (smart_load_model_cases expanduser import_huggingface_hub snapshot_download
              model_path subfolder use_safetensors variant w) as (logged & Hcases).
  rewrite Hrun in Hcases.
  destruct (hardcoded_usable (files w) model_path subfolder use_safetensors variant)
    eqn:Hh.
  - injection Hcases as -> -> ->. cbn [files].
    unfold hardcoded_usable, complete in Hh. rewrite !andb_true_iff in Hh.
    destruct Hh as (_ & Hd & Hc & Hk). eauto 10.
  - destruct (complete (files w)
                (environment_dir expanduser (environ w) model_path subfolder)
                use_safetensors variant) eqn:He.
    + injection Hcases as -> -> ->. cbn [files].
      unfold complete in He. rewrite !andb_true_iff in He.
      destruct He as (Hd & Hc & Hk). eauto 10.
    + unfold hub_run in Hcases. destruct import_huggingface_hub as [e|];
        [discriminate|].
      injection Hcases as Hout ->. cbn [files]. symmetry in Hout.
      destruct (download_outcome_found _ _ _ _ _ _ _ _ Hout)
        as (path & _ & Hd & Hc & Hk & -> & ->).
      eauto 10.
Qed.

(** X11: [smart_load_model] raises only after it found neither local
    directory usable.  If the import of the hub package raised, no request
    was made and the exception is the one of the [except] clauses
    ([RuntimeError] for an [ImportError]); otherwise one request was made
    and the exception is a [RuntimeError], a [FileNotFoundError] or the one
    the call raised. *)
Theorem smart_load_model_fails_only_at_the_hub
    expanduser import_huggingface_hub snapshot_download model_path subfolder
    use_safetensors variant w e w' :
  smart_load_model expanduser import_huggingface_hub snapshot_download
    model_path subfolder use_safetensors variant w = (inl e, w') ->
  hardcoded_usable (files w) model_path subfolder use_safetensors variant = false /\
  complete (files w) (environment_dir expanduser (environ w) model_path subfolder)
    use_safetensors variant = false /\
  match import_huggingface_hub with
  | Some e0 => downloads w' = downloads w /\ files w' = files w /\ e = reraised e0
  | None =>
      downloads w' = downloads w ++ [(model_path, [subfolder +:+ "/*"])] /\
      (exc_cls e = RuntimeError \/ exc_cls e = FileNotFoundError \/
       fst (snapshot_download model_path [subfolder +:+ "/*"] (files w)) = inl e)
  end.
Proof.
  intros Hrun.
  destruct (smart_load_model_cases expanduser import_huggingface_hub snapshot_download
              model_path subfolder use_safetensors variant w) as (logged & Hcases).
  rewrite Hrun in Hcases.
  destruct (hardcoded_usable (files w) model_path subfolder use_safetensors variant);
    [discriminate|].
  destruct (complete (files w)
              (environment_dir expanduser (environ w) model_path subfolder)
              use_safetensors variant); [discriminate|].
  split; [reflexivity|]. split; [reflexivity|].
  unfold hub_run in Hcases. destruct import_huggingface_hub as [e0|].
  - injection Hcases as -> ->. cbn [downloads files]. auto.
  - injection Hcases as Hout ->. cbn [downloads]. symmetry in Hout.
    split; [reflexivity|].
    destruct (snapshot_download model_path [subfolder +:+ "/*"] (files w)) as [r files'].
    cbn [fst snd] in *.
    unfold download_outcome in Hout. destruct r as [e1|path].
    + injection Hout as <-. unfold reraised.
      destruct (exc_cls e1) eqn:Ecls; cbn [exc_cls]; auto.
    + repeat match type of Hout with
             | (if negb ?b then _ else _) = _ => destruct b; cbn [negb] in Hout
             end; try discriminate; injection Hout as <-; cbn [exc_cls]; auto.
Qed.

(** ** The logger *)

Lemma get_logger_loggers name w :
  loggers (snd (get_logger name w)) =
    <[name := Logger (Some INFO)
                (lg_handlers (default (Logger None []) (loggers w !! name))
                   ++ [console_handler])]> (loggers w).
Proof. reflexivity. Qed.

(** X12: [get_logger] adds a new handler at every call: after n + 1 calls
    with one name the logger of that name has n + 1 more console handlers
    than before (so that each record is then written n + 1 times); its level
    is [INFO], and no other logger and nothing else changes. *)
Theorem get_logger_adds_a_handler_every_call n name w :
  let old := lg_handlers (default (Logger None []) (loggers w !! name)) in
  let w' := get_logger_times (S n) name w in
  loggers w' !! name =
    Some (Logger (Some INFO) (old ++ replicate (S n) console_handler)) /\
  (forall other, other <> name -> loggers w' !! other = loggers w !! other) /\
  files w' = files w /\ environ w' = environ w /\
  records w' = records w /\ downloads w' = downloads w.
Proof.
  intros old w'. subst w'. induction n as [|n IH].
  - change (get_logger_times 1 name w) with (snd (get_logger name w)).
    rewrite get_logger_loggers.
    split; [by rewrite lookup_insert_eq|].
    split; [intros other Hne; by rewrite lookup_insert_ne|]. auto.
  - destruct IH as (Hl & Ho & Hf & He & Hr & Hd).
    change (get_logger_times (S (S n)) name w)
      with (snd (get_logger name (get_logger_times (S n) name w))).
    set (w1 := get_logger_times (S n) name w) in *.
    rewrite get_logger_loggers, Hl. cbn [default lg_handlers].
    split.
    { rewrite lookup_insert_eq. cbn [id lg_handlers]. rewrite <- app_assoc.
      replace (replicate (S n) console_handler ++ [console_handler])
        with (replicate (S (S n)) console_handler); [reflexivity|].
      change [console_handler] with (replicate 1 console_handler).
      rewrite <- replicate_add. f_equal. lia. }
    split; [intros other Hne; rewrite lookup_insert_ne by done; by apply Ho|].
    cbn [files environ records downloads snd get_logger]. auto.
Qed.

(** ** The timer *)

Section TimerFacts.
Context {D T : Type}.
Variable cuda_event : D -> (exc + nat) * D.
Variable event_record : nat -> D -> (exc + unit) * D.
Variable cuda_synchronize : D -> (exc + unit) * D.
Variable elapsed_time : nat -> nat -> D -> (exc + T) * D.
Variable str_time : T -> string.

Lemma debug_enabled_run (s : @session D T) :
  debug_enabled s = (inr (debugging s), s).
Proof. destruct s as [[] ? ?]. reflexivity. Qed.

Lemma timer_enter_off self (s : @session D T) :
  debugging s = false ->
  timer_enter cuda_event event_record self s = (inr false, s).
Proof.
  intros H. unfold timer_enter. unfold mbind at 1. unfold S_bind.
  rewrite debug_enabled_run, H. reflexivity.
Qed.

Lemma timer_exit_off self (s : @session D T) :
  debugging s = false ->
  timer_exit event_record cuda_synchronize elapsed_time str_time self s = (inr tt, s).
Proof.
  intros H. unfold timer_exit. unfold mbind at 1. unfold S_bind.
  rewrite debug_enabled_run, H. reflexivity.
Qed.

Lemma timer_exit_without_end self (s : @session D T) t :
  debugging s = true -> s_timers s !! self = Some t -> tm_end t = None ->
  timer_exit event_record cuda_synchronize elapsed_time str_time self s =
    (inl (Exc AttributeError "'synchronize_timer' object has no attribute 'end'"), s).
Proof.
  intros H Ht He. unfold timer_exit. unfold mbind at 1. unfold S_bind.
  rewrite debug_enabled_run, H.
  unfold mbind at 1. unfold S_bind. unfold get_self. rewrite Ht.
  unfold mbind at 1. unfold S_bind. rewrite He. reflexivity.
Qed.
End TimerFacts.

(** X13: while [HY3DGEN_DEBUG] is not ['1'], neither when the decorated
    function is called nor when it has ended, the decorated function behaves
    as the function itself: same result or exception, same effects; the
    device is not touched and nothing is logged. *)
Theorem timer_call_is_transparent_without_debug {D T A B}
    cuda_event event_record cuda_synchronize elapsed_time str_time
    (self : nat) (func : A -> @SM D T B) (args : A) (s : @session D T) :
  debugging s = false ->
  debugging (snd (func args s)) = false ->
  timer_call cuda_event event_record cuda_synchronize elapsed_time str_time
    self func args s = func args s.
Proof.
  intros Hin Hout. unfold timer_call, with_timer.
  rewrite (timer_enter_off _ _ _ _ Hin).
  destruct (func args s) as [outcome s2]. cbn [snd] in Hout.
  rewrite (timer_exit_off _ _ _ _ _ _ Hout). reflexivity.
Qed.

(** X14: if debugging is off when the decorated function is entered and the
    function switches it on, leaving the timer raises [AttributeError]
    (the attribute [end] was never assigned) in place of the outcome of the
    function, whose effects remain. *)
Theorem timer_call_fails_when_debug_is_switched_on {D T A B}
    cuda_event event_record cuda_synchronize elapsed_time str_time
    (self : nat) (func : A -> @SM D T B) (args : A) (s : @session D T) t :
  debugging s = false ->
  debugging (snd (func args s)) = true ->
  s_timers (snd (func args s)) !! self = Some t -> tm_end t = None ->
  timer_call cuda_event event_record cuda_synchronize elapsed_time str_time
    self func args s =
    (inl (Exc AttributeError "'synchronize_timer' object has no attribute 'end'"),
     snd (func args s)).
Proof.
  intros Hin Hout Ht He. unfold timer_call, with_timer.
  rewrite (timer_enter_off _ _ _ _ Hin).
  destruct (func args s) as [outcome s2]. cbn [snd] in *.
  rewrite (timer_exit_without_end _ _ _ _ _ _ t Hout Ht He). reflexivity.
Qed.

Ltac run_session :=
  unfold mbind, S_bind, mret, S_ret, on_device, get_self, set_self, attribute,
    in_world, logger_info, s_throw;
  cbn [s_world s_device s_timers tm_name tm_start tm_end tm_time
       files environ records downloads loggers].

Section TimerOn.
Context {D T : Type}.
Variable cuda_event : D -> (exc + nat) * D.
Variable event_record : nat -> D -> (exc + unit) * D.
Variable cuda_synchronize : D -> (exc + unit) * D.
Variable elapsed_time : nat -> nat -> D -> (exc + T) * D.
Variable str_time : T -> string.

Lemma timer_enter_on self (s : @session D T) t start end_ d1 d2 d3 :
  debugging s = true -> s_timers s !! self = Some t ->
  cuda_event (s_device s) = (inr start, d1) ->
  cuda_event d1 = (inr end_, d2) ->
  event_record start d2 = (inr tt, d3) ->
  timer_enter cuda_event event_record self s =
    (inr true,
     Session (s_world s) d3
       (<[self := Timer (tm_name t) (Some start) (Some end_) (tm_time t)]> (s_timers s))).
Proof.
  intros H Ht H1 H2 H3. unfold timer_enter. unfold mbind at 1. unfold S_bind.
  rewrite debug_enabled_run, H. run_session.
  rewrite H1. run_session. rewrite Ht. run_session. rewrite H2. run_session.
  rewrite lookup_insert_eq. run_session. rewrite lookup_insert_eq. run_session.
  rewrite H3. rewrite !insert_insert_eq. reflexivity.
Qed.

Lemma timer_exit_on self (s : @session D T) t name start end_ time d4 d5 d6 :
  debugging s = true -> s_timers s !! self = Some t ->
  tm_name t = Some name -> tm_start t = Some start -> tm_end t = Some end_ ->
  event_record end_ (s_device s) = (inr tt, d4) ->
  cuda_synchronize d4 = (inr tt, d5) ->
  elapsed_time start end_ d5 = (inr time, d6) ->
  timer_exit event_record cuda_synchronize elapsed_time str_time self s =
    (inr tt,
     Session
       (World (files (s_world s)) (environ (s_world s))
          (records (s_world s) ++ [(INFO, name +:+ " takes " +:+ str_time time +:+ " ms")])
          (downloads (s_world s)) (loggers (s_world s)))
       d6
       (<[self := Timer (Some name) (Some start) (Some end_) (Some time)]> (s_timers s))).
Proof.
  intros H Ht Hn Hs He H4 H5 H6. unfold timer_exit. unfold mbind at 1. unfold S_bind.
  rewrite debug_enabled_run, H. run_session.
  rewrite Ht, He. run_session. rewrite H4. run_session. rewrite H5. run_session.
  rewrite Ht, Hs, He. run_session. rewrite H6. run_session. rewrite Ht. run_session.
  rewrite lookup_insert_eq. run_session. rewrite Hn, Hs, He. reflexivity.
Qed.
End TimerOn.

(** X15: with debugging on, a named timer and a device whose calls
    succeed, the decorated function creates two events, records the first,
    runs the function, records the second, synchronizes, stores the elapsed
    time in the attribute [time] and logs [name takes t ms]; the outcome of
    the function, a result or an exception, is passed on. *)
Theorem timer_call_logs_the_elapsed_time {D T A B}
    cuda_event event_record cuda_synchronize elapsed_time str_time
    (self : nat) (func : A -> @SM D T B) (args : A) (s : @session D T)
    t name start end_ d1 d2 d3 outcome s2 d4 d5 d6 time :
  debugging s = true ->
  s_timers s !! self = Some t -> tm_name t = Some name ->
  cuda_event (s_device s) = (inr start, d1) ->
  cuda_event d1 = (inr end_, d2) ->
  event_record start d2 = (inr tt, d3) ->
  let running := Timer (Some name) (Some start) (Some end_) (tm_time t) in
  func args (Session (s_world s) d3 (<[self := running]> (s_timers s))) = (outcome, s2) ->
  debugging s2 = true ->
  s_timers s2 !! self = Some running ->
  event_record end_ (s_device s2) = (inr tt, d4) ->
  cuda_synchronize d4 = (inr tt, d5) ->
  elapsed_time start end_ d5 = (inr time, d6) ->
  timer_call cuda_event event_record cuda_synchronize elapsed_time str_time
    self func args s =
    (outcome,
     Session
       (World (files (s_world s2)) (environ (s_world s2))
          (records (s_world s2)
             ++ [(INFO, name +:+ " takes " +:+ str_time time +:+ " ms")])
          (downloads (s_world s2)) (loggers (s_world s2)))
       d6
       (<[self := Timer (Some name) (Some start) (Some end_) (Some time)]>
          (s_timers s2))).
Proof.
  intros Hin Ht Hn H1 H2 H3 running Hbody Hout Ht2 H4 H5 H6.
  unfold timer_call, with_timer.
  rewrite (timer_enter_on _ _ _ _ t start end_ d1 d2 d3 Hin Ht H1 H2 H3).
  rewrite Hn. fold running. rewrite Hbody.
  rewrite (timer_exit_on _ _ _ _ _ _ running name start end_ time d4 d5 d6
             Hout Ht2 eq_refl eq_refl eq_refl H4 H5 H6).
  reflexivity.
Qed.

(** ** The properties on example worlds *)

Lemma prefers_hardcoded_directory_witness :
  hardcoded_usable (files local_world) "tencent/Hunyuan3D-2" "hunyuan3d-dit-v2-0"
    true (Some "fp16") = true /\
  smart_load_model example_expanduser missing_hub example_hub "tencent/Hunyuan3D-2"
    "hunyuan3d-dit-v2-0" true (Some "fp16") local_world =
    (inr ("/home/gero/GitHub/Hunyuan3D-2/models/tencent/Hunyuan3D-2/hunyuan3d-dit-v2-0/config.yaml",
          "/home/gero/GitHub/Hunyuan3D-2/models/tencent/Hunyuan3D-2/hunyuan3d-dit-v2-0/model.fp16.safetensors"),
     World (files local_world) ∅
       [ (INFO, "Checking for models at: /home/gero/GitHub/Hunyuan3D-2/models/tencent/Hunyuan3D-2/hunyuan3d-dit-v2-0");
         (INFO, "Using local model from /home/gero/GitHub/Hunyuan3D-2/models/tencent/Hunyuan3D-2/hunyuan3d-dit-v2-0") ]
       [] ∅).
Proof.
  assert (Hh : hardcoded_usable (files local_world) "tencent/Hunyuan3D-2"
                 "hunyuan3d-dit-v2-0" true (Some "fp16") = true) by reflexivity.
  split; [exact Hh|].
  exact (smart_load_model_prefers_hardcoded_directory example_expanduser missing_hub example_hub
           "tencent/Hunyuan3D-2" "hunyuan3d-dit-v2-0" true (Some "fp16") local_world Hh).
Defined.

Lemma falls_back_to_environment_witness :
  hardcoded_usable (files cached_world) "tencent/Hunyuan3D-2" "hunyuan3d-dit-v2-0"
    true (Some "fp16") = false /\
  complete (files cached_world)
    (environment_dir example_expanduser (environ cached_world)
       "tencent/Hunyuan3D-2" "hunyuan3d-dit-v2-0")
    true (Some "fp16") = true /\
  exists logged,
    smart_load_model example_expanduser missing_hub example_hub "tencent/Hunyuan3D-2"
      "hunyuan3d-dit-v2-0" true (Some "fp16") cached_world =
      (inr ("/home/user/.cache/hy3dgen/tencent/Hunyuan3D-2/hunyuan3d-dit-v2-0/config.yaml",
            "/home/user/.cache/hy3dgen/tencent/Hunyuan3D-2/hunyuan3d-dit-v2-0/model.fp16.safetensors"),
       World (files cached_world) ∅ logged [] ∅).
Proof.
  assert (Hh : hardcoded_usable (files cached_world) "tencent/Hunyuan3D-2"
                 "hunyuan3d-dit-v2-0" true (Some "fp16") = false) by reflexivity.
  assert (He : complete (files cached_world)
                 (environment_dir example_expanduser (environ cached_world)
                    "tencent/Hunyuan3D-2" "hunyuan3d-dit-v2-0")
                 true (Some "fp16") = true) by reflexivity.
  split; [exact Hh|]. split; [exact He|].
  exact (smart_load_model_falls_back_to_environment example_expanduser missing_hub example_hub
           "tencent/Hunyuan3D-2" "hunyuan3d-dit-v2-0" true (Some "fp16")
           cached_world Hh He).
Defined.

Lemma downloads_as_last_resort_witness :
  hardcoded_usable (files empty_world) "tencent/Hunyuan3D-2" "hunyuan3d-dit-v2-0"
    true (Some "fp16") = false /\
  complete (files empty_world)
    (environment_dir example_expanduser (environ empty_world)
       "tencent/Hunyuan3D-2" "hunyuan3d-dit-v2-0")
    true (Some "fp16") = false /\
  exists logged files',
    smart_load_model example_expanduser None example_hub "tencent/Hunyuan3D-2"
      "hunyuan3d-dit-v2-0" true (Some "fp16") empty_world =
      (inr ("/hub/snapshots/main/hunyuan3d-dit-v2-0/config.yaml",
            "/hub/snapshots/main/hunyuan3d-dit-v2-0/model.fp16.safetensors"),
       World files' ∅ logged
         [ ("tencent/Hunyuan3D-2", ["hunyuan3d-dit-v2-0/*"]) ] ∅).
Proof.
  assert (Hh : hardcoded_usable (files empty_world) "tencent/Hunyuan3D-2"
                 "hunyuan3d-dit-v2-0" true (Some "fp16") = false) by reflexivity.
  assert (He : complete (files empty_world)
                 (environment_dir example_expanduser (environ empty_world)
                    "tencent/Hunyuan3D-2" "hunyuan3d-dit-v2-0")
                 true (Some "fp16") = false) by reflexivity.
  split; [exact Hh|]. split; [exact He|].
  destruct (smart_load_model_downloads_as_last_resort example_expanduser None example_hub
              "tencent/Hunyuan3D-2" "hunyuan3d-dit-v2-0" true (Some "fp16")
              empty_world Hh He) as (logged & Hrun).
  exists logged. eexists. exact Hrun.
Defined.

Lemma returns_existing_files_witness :
  smart_load_model example_expanduser None example_hub "tencent/Hunyuan3D-2"
    "hunyuan3d-dit-v2-0" true (Some "fp16") empty_world =
    (inr ("/hub/snapshots/main/hunyuan3d-dit-v2-0/config.yaml",
          "/hub/snapshots/main/hunyuan3d-dit-v2-0/model.fp16.safetensors"),
     snd (smart_load_model example_expanduser None example_hub "tencent/Hunyuan3D-2"
            "hunyuan3d-dit-v2-0" true (Some "fp16") empty_world)) /\
  files (snd (smart_load_model example_expanduser None example_hub "tencent/Hunyuan3D-2"
                "hunyuan3d-dit-v2-0" true (Some "fp16") empty_world))
    "/hub/snapshots/main/hunyuan3d-dit-v2-0/config.yaml" = true /\
  files (snd (smart_load_model example_expanduser None example_hub "tencent/Hunyuan3D-2"
                "hunyuan3d-dit-v2-0" true (Some "fp16") empty_world))
    "/hub/snapshots/main/hunyuan3d-dit-v2-0/model.fp16.safetensors" = true.
Proof.
  assert (Hrun :
    smart_load_model example_expanduser None example_hub "tencent/Hunyuan3D-2"
      "hunyuan3d-dit-v2-0" true (Some "fp16") empty_world =
      (inr ("/hub/snapshots/main/hunyuan3d-dit-v2-0/config.yaml",
            "/hub/snapshots/main/hunyuan3d-dit-v2-0/model.fp16.safetensors"),
       snd (smart_load_model example_expanduser None example_hub "tencent/Hunyuan3D-2"
              "hunyuan3d-dit-v2-0" true (Some "fp16") empty_world)))
    by reflexivity.
  split; [exact Hrun|].
  destruct (smart_load_model_returns_existing_files example_expanduser None example_hub
              "tencent/Hunyuan3D-2" "hunyuan3d-dit-v2-0" true (Some "fp16")
              empty_world _ _ _ Hrun) as (Hc & Hk & _).
  split; [exact Hc | exact Hk].
Defined.

Lemma fails_only_at_the_hub_witness :
  smart_load_model example_expanduser missing_hub example_hub "tencent/Hunyuan3D-2"
    "hunyuan3d-dit-v2-0" true (Some "fp16") empty_world =
    (inl (Exc RuntimeError "Model not found locally and HuggingFace Hub not available"),
     snd (smart_load_model example_expanduser missing_hub example_hub
            "tencent/Hunyuan3D-2" "hunyuan3d-dit-v2-0" true (Some "fp16") empty_world)) /\
  downloads (snd (smart_load_model example_expanduser missing_hub example_hub
                    "tencent/Hunyuan3D-2" "hunyuan3d-dit-v2-0" true (Some "fp16")
                    empty_world)) = [].
Proof.
  assert (Hrun :
    smart_load_model example_expanduser missing_hub example_hub "tencent/Hunyuan3D-2"
      "hunyuan3d-dit-v2-0" true (Some "fp16") empty_world =
      (inl (Exc RuntimeError "Model not found locally and HuggingFace Hub not available"),
       snd (smart_load_model example_expanduser missing_hub example_hub
              "tencent/Hunyuan3D-2" "hunyuan3d-dit-v2-0" true (Some "fp16")
              empty_world)))
    by reflexivity.
  split; [exact Hrun|].
  destruct (smart_load_model_fails_only_at_the_hub example_expanduser missing_hub
              example_hub "tencent/Hunyuan3D-2" "hunyuan3d-dit-v2-0" true (Some "fp16")
              empty_world _ _ Hrun) as (_ & _ & Hd & _).
  exact Hd.
Defined.

Lemma transparent_without_debug_witness :
  debugging quiet_session = false /\
  debugging (snd (example_func 21 quiet_session)) = false /\
  timer_call example_cuda_event example_event_record example_synchronize
    example_elapsed_time (fun t => t) 0%nat example_func 21 quiet_session =
    (inr 42, quiet_session).
Proof.
  assert (Hin : debugging quiet_session = false) by reflexivity.
  assert (Hout : debugging (snd (example_func 21 quiet_session)) = false)
    by reflexivity.
  split; [exact Hin|]. split; [exact Hout|].
  exact (timer_call_is_transparent_without_debug example_cuda_event
           example_event_record example_synchronize example_elapsed_time
           (fun t => t) 0%nat example_func 21 quiet_session Hin Hout).
Defined.

Lemma fails_when_debug_is_switched_on_witness :
  debugging quiet_session = false /\
  debugging (snd (switch_debug_on tt quiet_session)) = true /\
  s_timers (snd (switch_debug_on tt quiet_session)) !! 0%nat =
    Some (Timer (Some "forward") None None None) /\
  timer_call example_cuda_event example_event_record example_synchronize
    example_elapsed_time (fun t => t) 0%nat switch_debug_on tt quiet_session =
    (inl (Exc AttributeError "'synchronize_timer' object has no attribute 'end'"),
     snd (switch_debug_on tt quiet_session)).
Proof.
  assert (Hin : debugging quiet_session = false) by reflexivity.
  assert (Hout : debugging (snd (switch_debug_on tt quiet_session)) = true)
    by reflexivity.
  assert (Ht : s_timers (snd (switch_debug_on tt quiet_session)) !! 0%nat =
                 Some (Timer (Some "forward") None None None)) by reflexivity.
  split; [exact Hin|]. split; [exact Hout|]. split; [exact Ht|].
  exact (timer_call_fails_when_debug_is_switched_on example_cuda_event
           example_event_record example_synchronize example_elapsed_time
           (fun t => t) 0%nat switch_debug_on tt quiet_session _ Hin Hout Ht eq_refl).
Defined.

Lemma logs_the_elapsed_time_witness :
  debugging debug_session = true /\
  s_timers debug_session !! 0%nat = Some (Timer (Some "forward") None None None) /\
  timer_call example_cuda_event example_event_record example_synchronize
    example_elapsed_time (fun t => t) 0%nat example_func 21 debug_session =
    (inr 42,
     Session
       (World (fun _ => false) {[ "HY3DGEN_DEBUG" := "1" ]}
          [ (INFO, "forward takes 12.5 ms") ] [] ∅)
       2%nat
       (<[ 0%nat := Timer (Some "forward") (Some 0%nat) (Some 1%nat) (Some "12.5") ]>
          (<[ 0%nat := Timer (Some "forward") (Some 0%nat) (Some 1%nat) None ]>
             (s_timers debug_session)))).
Proof.
  assert (Hin : debugging debug_session = true) by reflexivity.
  assert (Ht : s_timers debug_session !! 0%nat =
                 Some (Timer (Some "forward") None None None)) by reflexivity.
  split; [exact Hin|]. split; [exact Ht|].
  exact (timer_call_logs_the_elapsed_time example_cuda_event example_event_record
           example_synchronize example_elapsed_time (fun t => t) 0%nat
           example_func 21 debug_session
           (Timer (Some "forward") None None None) "forward" 0%nat 1%nat
           1%nat 2%nat 2%nat (inr 42) _ 2%nat 2%nat 2%nat "12.5"
           Hin Ht eq_refl eq_refl eq_refl eq_refl eq_refl eq_refl
           eq_refl eq_refl eq_refl eq_refl).
Defined.

(** * Properties of the download script *)

Import DownloadModels.

(** ** Paths *)

Lemma string_app_empty_r (s : string) : s +:+ "" = s.
Proof.
  induction s as [|c s IH]; [reflexivity|].
  change (String c (s +:+ "") = String c s). by rewrite IH.
Qed.

Lemma string_app_cons (a : string) c (s : string) :
  (a +:+ String c EmptyString) +:+ s = a +:+ String c s.
Proof.
  induction a as [|x a IH]; [reflexivity|].
  change (String x ((a +:+ String c EmptyString) +:+ s) = String x (a +:+ String c s)).
  by rewrite IH.
Qed.

Lemma split_sep_plain s cur :
  plain_name s = true -> split_sep cur s = [cur +:+ s].
Proof.
  revert cur. induction s as [|c s IH]; intros cur H.
  - simpl. by rewrite string_app_empty_r.
  - cbn [plain_name] in H. apply andb_true_iff in H as [Hc Hs].
    apply negb_true_iff in Hc. cbn [split_sep]. rewrite Hc.
    rewrite IH by exact Hs. by rewrite string_app_cons.
Qed.

Lemma split_root_plain s : plain_name s = true -> split_root s = "".
Proof.
  destruct s as [|c s]; [reflexivity|]. cbn [plain_name]. intros H.
  apply andb_true_iff in H as [Hc _]. apply negb_true_iff in Hc.
  unfold split_root. cbn [String.prefix].
  destruct (Ascii.ascii_dec _ c) as [<-|Hne]; [|reflexivity].
  rewrite String.eqb_refl in Hc. discriminate.
Qed.

(** A plain name other than the empty one and [.] parses to itself. *)
Lemma parse_path_plain s :
  plain_name s = true -> s <> "" -> s <> "." -> parse_path s = Path "" [s].
Proof.
  intros Hp H1 H2. unfold parse_path.
  rewrite split_root_plain, split_sep_plain by exact Hp.
  cbn [String.append filter list_filter].
  rewrite decide_True by done. reflexivity.
Qed.

Lemma path_div_plain p s :
  plain_name s = true -> s <> "" -> s <> "." ->
  path_div p s = Path (root p) (parts p ++ [s]).
Proof.
  intros Hp H1 H2. unfold path_div. rewrite parse_path_plain by assumption.
  reflexivity.
Qed.

Lemma path_parent_div_plain p s :
  plain_name s = true -> s <> "" -> s <> "." ->
  path_parent (path_div p s) = p.
Proof.
  intros Hp H1 H2. rewrite path_div_plain by assumption.
  unfold path_parent. cbn [root parts]. rewrite removelast_last. by destruct p.
Qed.

Lemma prefix_inv (p s : string) :
  String.prefix p s = true -> exists r, s = p +:+ r.
Proof.
  revert s. induction p as [|c p IH]; intros s H.
  - by exists s.
  - destruct s as [|c' s]; [discriminate|]. cbn [String.prefix] in H.
    destruct (Ascii.ascii_dec c c') as [<-|]; [|discriminate].
    destruct (IH s H) as [r ->]. by exists r.
Qed.

Lemma split_sep_component a cur r :
  plain_name a = true ->
  split_sep cur (a +:+ String "/"%char r) = (cur +:+ a) :: split_sep "" r.
Proof.
  revert cur. induction a as [|c a IH]; intros cur H.
  - change ("" +:+ String "/"%char r) with (String "/"%char r). cbn [split_sep].
    rewrite String.eqb_refl. by rewrite string_app_empty_r.
  - cbn [plain_name] in H. apply andb_true_iff in H as [Hc Hs].
    apply negb_true_iff in Hc.
    change (String c a +:+ String "/"%char r) with (String c (a +:+ String "/"%char r)).
    cbn [split_sep]. rewrite Hc, IH by exact Hs. by rewrite string_app_cons.
Qed.

(** A name under [tencent/] parses to a relative path that starts with the
    component [tencent]. *)
Lemma parse_path_tencent r :
  exists rest, parse_path ("tencent/" +:+ r) = Path "" ("tencent" :: rest).
Proof.
  unfold parse_path.
  change ("tencent/" +:+ r) with ("tencent" +:+ String "/"%char r).
  rewrite split_sep_component by reflexivity.
  change ("" +:+ "tencent") with "tencent".
  rewrite filter_cons_True by done.
  eexists. reflexivity.
Qed.

Lemma path_div_tencent p r :
  exists rest, path_div p ("tencent/" +:+ r) = Path (root p) (parts p ++ "tencent" :: rest).
Proof.
  destruct (parse_path_tencent r) as [rest Hr]. exists rest.
  unfold path_div. rewrite Hr. reflexivity.
Qed.

Lemma path_parent_neq p : parts p <> [] -> path_parent p <> p.
Proof.
  intros Hne Heq. destruct p as [r l]. unfold path_parent in Heq.
  cbn [root parts] in *. injection Heq as Heq.
  destruct (exists_last Hne) as (l' & x & ->).
  rewrite removelast_last in Heq.
  apply (f_equal length) in Heq. rewrite length_app in Heq. simpl in Heq. lia.
Qed.

(** ** One model *)

Ltac run_host :=
  unfold mbind, H_bind, mret, H_ret, print, sys_exit, do_mkdir, any_iterdir,
    request_download, setenv;
  cbn [h_fs h_stdout h_requests h_environ].

Section ScriptFacts.
Context {F : Type}.
Variable mkdir : path -> F -> (exc + unit) * F.
Variable iterdir : path -> F -> exc + list string.
Variable snapshot_download : request -> F -> (exc + string) * F.

Local Abbreviation download_model := (download_model mkdir iterdir snapshot_download).

Lemma download_model_unfold script_file model_name subfolder local_dir force :
  download_model script_file model_name subfolder local_dir force =
  (_ ← do_mkdir mkdir (base_directory script_file local_dir);
   _ ← do_mkdir mkdir (target_directory script_file model_name subfolder local_dir);
   _ ← print (downloading_line script_file model_name subfolder local_dir);
   skip ← (if negb force
           then any_iterdir iterdir
                  (target_directory script_file model_name subfolder local_dir)
           else mret false);
   if (skip : bool) then
     print ("Files already exist in "
            +:+ path_str (target_directory script_file model_name subfolder local_dir)
            +:+ ". Use --force to overwrite.")
   else
     fun h =>
       match request_download snapshot_download
               (download_request script_file model_name subfolder local_dir) h with
       | (inr result, h') =>
           print ("Successfully downloaded " +:+ model_name +:+ " to " +:+ result) h'
       | (inl e, h') =>
           (_ ← print ("Error downloading " +:+ model_name +:+ ": " +:+ exc_msg e);
            sys_exit 1) h'
       end).
Proof. reflexivity. Qed.

(** X16: without [--force], when both directories can be created and the
    target directory has an entry, [download_model] prints the two lines
    (what it downloads, and that files exist), makes no request and
    returns. *)
Theorem download_model_skips_populated_directory
    script_file model_name subfolder local_dir (h : @host F) fs1 fs2 entries :
  mkdir (base_directory script_file local_dir) (h_fs h) = (inr tt, fs1) ->
  mkdir (target_directory script_file model_name subfolder local_dir) fs1
    = (inr tt, fs2) ->
  iterdir (target_directory script_file model_name subfolder local_dir) fs2
    = inr entries ->
  entries <> [] ->
  download_model script_file model_name subfolder local_dir false h =
    (inr tt,
     Host fs2
       (h_stdout h
          ++ [downloading_line script_file model_name subfolder local_dir;
              "Files already exist in "
              +:+ path_str (target_directory script_file model_name subfolder local_dir)
              +:+ ". Use --force to overwrite."])
       (h_requests h) (h_environ h)).
Proof.
  intros H1 H2 H3 Hne. rewrite download_model_unfold. run_host.
  rewrite H1. run_host. rewrite H2. run_host. cbn [negb]. run_host. rewrite H3.
  run_host.
  rewrite bool_decide_eq_false_2 by exact Hne. cbn [negb]. run_host.
  rewrite <- app_assoc. reflexivity.
Qed.

(** X17: with [--force], or when the target directory is empty,
    [download_model] makes one request for the model, with the parent of the
    target directory as [local_dir]; it prints the success line and returns
    when the download returns, and prints the error line and exits with
    status 1 when the download raises. *)
Theorem download_model_requests_the_parent_directory
    script_file model_name subfolder local_dir force (h : @host F) fs1 fs2 r fs3 :
  mkdir (base_directory script_file local_dir) (h_fs h) = (inr tt, fs1) ->
  mkdir (target_directory script_file model_name subfolder local_dir) fs1
    = (inr tt, fs2) ->
  force = true \/
    iterdir (target_directory script_file model_name subfolder local_dir) fs2 = inr [] ->
  snapshot_download (download_request script_file model_name subfolder local_dir) fs2
    = (r, fs3) ->
  download_model script_file model_name subfolder local_dir force h =
    (match r with
     | inr _ => inr tt
     | inl _ => inl (SystemExit 1)
     end,
     Host fs3
       (h_stdout h
          ++ [downloading_line script_file model_name subfolder local_dir;
              match r with
              | inr result =>
                  "Successfully downloaded " +:+ model_name +:+ " to " +:+ result
              | inl e => "Error downloading " +:+ model_name +:+ ": " +:+ exc_msg e
              end])
       (h_requests h ++ [download_request script_file model_name subfolder local_dir])
       (h_environ h)).
Proof.
  intros H1 H2 Hgo H3. rewrite download_model_unfold. run_host.
  rewrite H1. run_host. rewrite H2. run_host.
  destruct force; cbn [negb]; run_host.
  - rewrite H3. destruct r as [e|result]; run_host; rewrite <- app_assoc; reflexivity.
  - destruct Hgo as [?|Hit]; [discriminate|]. rewrite Hit.
    rewrite bool_decide_eq_true_2 by reflexivity. cbn [negb]. run_host.
    rewrite H3. destruct r as [e|result]; run_host; rewrite <- app_assoc; reflexivity.
Qed.

Lemma download_model_request
    script_file model_name subfolder local_dir force (h : @host F) fs1 fs2 :
  mkdir (base_directory script_file local_dir) (h_fs h) = (inr tt, fs1) ->
  mkdir (target_directory script_file model_name subfolder local_dir) fs1
    = (inr tt, fs2) ->
  force = true \/
    iterdir (target_directory script_file model_name subfolder local_dir) fs2 = inr [] ->
  h_requests (snd (download_model script_file model_name subfolder local_dir force h)) =
    h_requests h ++ [download_request script_file model_name subfolder local_dir].
Proof.
  intros H1 H2 Hgo. rewrite download_model_unfold. run_host.
  rewrite H1. run_host. rewrite H2. run_host.
  destruct force; cbn [negb]; run_host.
  - destruct (snapshot_download _ fs2) as [[e|result] fs3]; reflexivity.
  - destruct Hgo as [?|Hit]; [discriminate|]. rewrite Hit.
    rewrite bool_decide_eq_true_2 by reflexivity. cbn [negb]. run_host.
    destruct (snapshot_download _ fs2) as [[e|result] fs3]; reflexivity.
Qed.
End ScriptFacts.

Lemma target_directory_parts script_file model_name local_dir :
  exists rest,
    target_directory script_file model_name None local_dir =
      Path (root (base_directory script_file local_dir))
           (parts (base_directory script_file local_dir) ++ "tencent" :: rest).
Proof.
  unfold target_directory. fold (base_directory script_file local_dir).
  cbn [given]. destruct (String.prefix "tencent/" model_name) eqn:Hp.
  - destruct (prefix_inv _ _ Hp) as [r ->]. apply path_div_tencent.
  - apply path_div_tencent.
Qed.

Lemma target_directory_subfolder script_file model_name subfolder local_dir s :
  given subfolder = Some s ->
  target_directory script_file model_name subfolder local_dir =
    path_div (target_directory script_file model_name None local_dir) s.
Proof. unfold target_directory. intros ->. reflexivity. Qed.

Lemma target_directory_no_subfolder script_file model_name subfolder local_dir :
  given subfolder = None ->
  target_directory script_file model_name subfolder local_dir =
    target_directory script_file model_name None local_dir.
Proof. unfold target_directory. intros ->. reflexivity. Qed.

Lemma download_request_without_subfolder script_file model_name subfolder local_dir :
  given subfolder = None ->
  let target := target_directory script_file model_name subfolder local_dir in
  let rq := download_request script_file model_name subfolder local_dir in
  rq_repo_id rq = model_name /\
  rq_allow_patterns rq = None /\
  rq_local_dir rq = path_parent target /\
  rq_local_dir rq <> target.
Proof.
  intros Hg target rq. subst target rq. unfold download_request. rewrite Hg.
  cbn [rq_repo_id rq_allow_patterns rq_local_dir].
  split; [reflexivity|]. split; [reflexivity|]. split; [reflexivity|].
  rewrite target_directory_no_subfolder by exact Hg.
  destruct (target_directory_parts script_file model_name local_dir) as [rest ->].
  apply path_parent_neq. cbn [parts]. by destruct (parts _).
Qed.

Lemma download_request_with_plain_subfolder
    script_file model_name subfolder local_dir s :
  given subfolder = Some s -> plain_name s = true -> s <> "." ->
  let target := target_directory script_file model_name subfolder local_dir in
  let rq := download_request script_file model_name subfolder local_dir in
  rq_repo_id rq = model_name /\
  rq_allow_patterns rq = Some [s +:+ "/*"] /\
  rq_local_dir rq = target_directory script_file model_name None local_dir /\
  path_div (rq_local_dir rq) s = target.
Proof.
  intros Hg Hp Hdot target rq. subst target rq. unfold download_request.
  rewrite Hg. cbn [rq_repo_id rq_allow_patterns rq_local_dir].
  assert (Hne : s <> "").
  { intros ->. unfold given in Hg. destruct subfolder as [x|]; [|discriminate].
    destruct (String.eqb x "") eqn:E; [discriminate|].
    injection Hg as ->. discriminate. }
  rewrite (target_directory_subfolder _ _ _ _ s Hg).
  rewrite path_parent_div_plain by assumption. auto.
Qed.


Section DownloadDirectory.
Context {F : Type}.
Variable mkdir : path -> F -> (exc + unit) * F.
Variable iterdir : path -> F -> exc + list string.
Variable snapshot_download : request -> F -> (exc + string) * F.

(** X18: without a subfolder, the request [download_model] makes names the
    parent of the target directory as [local_dir] and no pattern: the
    directory handed to the download is not the directory that was created
    and checked for existing files. *)
Theorem download_model_without_subfolder_downloads_beside_target
    script_file model_name subfolder local_dir force (h : @host F) fs1 fs2 :
  mkdir (base_directory script_file local_dir) (h_fs h) = (inr tt, fs1) ->
  mkdir (target_directory script_file model_name subfolder local_dir) fs1
    = (inr tt, fs2) ->
  force = true \/
    iterdir (target_directory script_file model_name subfolder local_dir) fs2 = inr [] ->
  given subfolder = None ->
  let target := target_directory script_file model_name subfolder local_dir in
  exists rq,
    h_requests (snd (download_model mkdir iterdir snapshot_download script_file
                       model_name subfolder local_dir force h)) =
      h_requests h ++ [rq] /\
    rq_repo_id rq = model_name /\
    rq_allow_patterns rq = None /\
    rq_local_dir rq = path_parent target /\
    rq_local_dir rq <> target.
Proof.
  intros H1 H2 Hgo Hg target.
  exists (download_request script_file model_name subfolder local_dir).
  split.
  - exact (download_model_request mkdir iterdir snapshot_download _ _ _ _ _ _ _ _
             H1 H2 Hgo).
  - exact (download_request_without_subfolder script_file model_name subfolder
             local_dir Hg).
Qed.

(** X19: with a subfolder that is one path component, the request names the
    model directory as [local_dir] and the pattern [subfolder/*], so that the
    subfolder of the download is the target directory that was created and
    checked. *)
Theorem download_model_with_subfolder_downloads_into_target
    script_file model_name subfolder local_dir force (h : @host F) fs1 fs2 s :
  mkdir (base_directory script_file local_dir) (h_fs h) = (inr tt, fs1) ->
  mkdir (target_directory script_file model_name subfolder local_dir) fs1
    = (inr tt, fs2) ->
  force = true \/
    iterdir (target_directory script_file model_name subfolder local_dir) fs2 = inr [] ->
  given subfolder = Some s -> plain_name s = true -> s <> "." ->
  let target := target_directory script_file model_name subfolder local_dir in
  exists rq,
    h_requests (snd (download_model mkdir iterdir snapshot_download script_file
                       model_name subfolder local_dir force h)) =
      h_requests h ++ [rq] /\
    rq_repo_id rq = model_name /\
    rq_allow_patterns rq = Some [s +:+ "/*"] /\
    rq_local_dir rq = target_directory script_file model_name None local_dir /\
    path_div (rq_local_dir rq) s = target.
Proof.
  intros H1 H2 Hgo Hg Hp Hdot target.
  exists (download_request script_file model_name subfolder local_dir).
  split.
  - exact (download_model_request mkdir iterdir snapshot_download _ _ _ _ _ _ _ _
             H1 H2 Hgo).
  - exact (download_request_with_plain_subfolder script_file model_name subfolder
             local_dir s Hg Hp Hdot).
Qed.
End DownloadDirectory.

Ltac finish_host :=
  cbn [fst snd h_environ h_requests];
  repeat split; auto; try discriminate; try (intros ? [= <-]; auto);
  try (intros; congruence).

Section ScriptInvariants.
Context {F : Type}.
Variable mkdir : path -> F -> (exc + unit) * F.
Variable iterdir : path -> F -> exc + list string.
Variable snapshot_download : request -> F -> (exc + string) * F.

Lemma download_model_effects
    script_file model_name subfolder local_dir force (h : @host F) :
  let run := download_model mkdir iterdir snapshot_download script_file model_name
               subfolder local_dir force h in
  let rq := download_request script_file model_name subfolder local_dir in
  h_environ (snd run) = h_environ h /\
  (h_requests (snd run) = h_requests h \/
   h_requests (snd run) = h_requests h ++ [rq]) /\
  (forall code, fst run = inl (SystemExit code) ->
     code = 1 /\ h_requests (snd run) = h_requests h ++ [rq]) /\
  (force = true -> fst run = inr tt ->
     h_requests (snd run) = h_requests h ++ [rq]).
Proof.
  intros run rq. subst run rq. rewrite download_model_unfold. run_host.
  destruct (mkdir (base_directory script_file local_dir) (h_fs h)) as [[e|[]] fs1];
    run_host; [finish_host|].
  destruct (mkdir (target_directory script_file model_name subfolder local_dir) fs1)
    as [[e|[]] fs2];
    run_host; [finish_host|].
  destruct force; cbn [negb]; run_host.
  - destruct (snapshot_download _ fs2) as [[e|result] fs3]; run_host; finish_host.
  - destruct (iterdir (target_directory script_file model_name subfolder local_dir) fs2)
      as [e|entries]; run_host; [finish_host|].
    destruct (bool_decide (entries = [])); cbn [negb]; run_host; [|finish_host].
    destruct (snapshot_download _ fs2) as [[e|result] fs3]; run_host; finish_host.
Qed.
(** X20: a call of [download_model] never changes the environment and makes
    at most one request, the one for its model; it exits only with status 1
    and only after that request; and with [--force] it returns only after
    that request. *)
Theorem download_model_makes_at_most_one_request
    script_file model_name subfolder local_dir force (h : @host F) :
  let run := download_model mkdir iterdir snapshot_download script_file model_name
               subfolder local_dir force h in
  let rq := download_request script_file model_name subfolder local_dir in
  h_environ (snd run) = h_environ h /\
  (h_requests (snd run) = h_requests h \/
   h_requests (snd run) = h_requests h ++ [rq]) /\
  (forall code, fst run = inl (SystemExit code) ->
     code = 1 /\ h_requests (snd run) = h_requests h ++ [rq]) /\
  (force = true -> fst run = inr tt ->
     h_requests (snd run) = h_requests h ++ [rq]).
Proof. exact (download_model_effects script_file model_name subfolder local_dir force h). Qed.
End ScriptInvariants.

(** ** The script as a whole *)

Section MainFacts.
Context {F : Type}.
Variable mkdir : path -> F -> (exc + unit) * F.
Variable iterdir : path -> F -> exc + list string.
Variable snapshot_download : request -> F -> (exc + string) * F.

Lemma requests_among_bind (m : @H F unit) (k : unit -> @H F unit) c1 c2 m1 m2 forced :
  requests_among m c1 m1 forced -> (forall a, requests_among (k a) c2 m2 forced) ->
  requests_among (m ≫= k) (c1 ++ c2) (m1 ++ m2) forced.
Proof.
  intros Hm Hk h. destruct (Hm h) as (He & Hx & (l & Hl & Hs) & Hf).
  unfold mbind, H_bind. destruct (m h) as [[r|[]] h1]; cbn [fst snd] in *.
  - split; [exact He|]. split; [exact Hx|].
    split; [|discriminate].
    exists l. split; [exact Hl|]. by apply sublist_inserts_r.
  - destruct (Hk tt h1) as (He' & Hx' & (l' & Hl' & Hs') & Hf').
    split; [congruence|]. split; [exact Hx'|]. split.
    + exists (l ++ l'). rewrite Hl', Hl, app_assoc. split; [reflexivity|].
      by apply sublist_app.
    + intros Hforced Hok. rewrite (Hf' Hforced Hok), (Hf Hforced eq_refl).
      by rewrite app_assoc.
Qed.

Lemma requests_among_print line forced :
  requests_among (F := F) (print line) [] [] forced.
Proof.
  intros h. cbn. split; [reflexivity|]. split; [discriminate|].
  split; [exists []; by rewrite app_nil_r|]. by rewrite app_nil_r.
Qed.

Lemma requests_among_download script_file model_name subfolder local_dir force :
  requests_among
    (download_model mkdir iterdir snapshot_download script_file model_name
       subfolder local_dir force)
    [download_request script_file model_name subfolder local_dir]
    [download_request script_file model_name subfolder local_dir] force.
Proof.
  intros h.
  destruct (download_model_effects mkdir iterdir snapshot_download
              script_file model_name subfolder local_dir force h)
    as (He & Hr & Hx & Hf).
  split; [exact He|]. split; [intros code Hc; by destruct (Hx code Hc)|].
  split; [|exact Hf].
  destruct Hr as [Hr|Hr].
  - exists []. rewrite app_nil_r. split; [exact Hr|]. apply sublist_nil_l.
  - eexists. split; [exact Hr|]. reflexivity.
Qed.

Lemma requests_among_when (b : bool) (m : @H F unit) rq forced :
  requests_among m [rq] [rq] forced ->
  requests_among (when b m) [rq] (if b then [rq] else []) forced.
Proof.
  intros Hm. destruct b; [exact Hm|].
  intros h. cbn. split; [reflexivity|]. split; [discriminate|].
  split; [exists []; rewrite app_nil_r; split; [reflexivity|apply sublist_nil_l]|].
  by rewrite app_nil_r.
Qed.
End MainFacts.

Lemma selected_requests_chosen script_file home args r1 r2 r3 r4 :
  main_requests script_file home = [r1; r2; r3; r4] ->
  selected_requests script_file home args =
    chosen (a_t2i args || (if negb (a_t2i args || a_main args || a_turbo args || a_paint args) && negb (a_all args) then true else a_all args)) r1
    ++ chosen (a_main args || (if negb (a_t2i args || a_main args || a_turbo args || a_paint args) && negb (a_all args) then true else a_all args)) r2
    ++ chosen (a_turbo args || (if negb (a_t2i args || a_main args || a_turbo args || a_paint args) && negb (a_all args) then true else a_all args)) r3
    ++ chosen (a_paint args || (if negb (a_t2i args || a_main args || a_turbo args || a_paint args) && negb (a_all args) then true else a_all args)) r4 ++ [].
Proof.
  intros E. unfold selected_requests, selection. rewrite E.
  destruct (a_t2i args), (a_main args), (a_turbo args), (a_paint args),
    (a_all args); reflexivity.
Qed.

Section MainRun.
Context {F : Type}.
Variable mkdir : path -> F -> (exc + unit) * F.
Variable iterdir : path -> F -> exc + list string.
Variable snapshot_download : request -> F -> (exc + string) * F.

Lemma requests_among_selection (b1 b2 b3 b4 : bool) (m1 m2 m3 m4 : @H F unit)
    r1 r2 r3 r4 line forced :
  requests_among m1 [r1] [r1] forced -> requests_among m2 [r2] [r2] forced ->
  requests_among m3 [r3] [r3] forced -> requests_among m4 [r4] [r4] forced ->
  requests_among
    (_ ← when b1 m1; _ ← when b2 m2; _ ← when b3 m3; _ ← when b4 m4; print line)
    [r1; r2; r3; r4]
    (chosen b1 r1 ++ chosen b2 r2 ++ chosen b3 r3 ++ chosen b4 r4 ++ []) forced.
Proof.
  intros H1 H2 H3 H4.
  apply (requests_among_bind _ _ [r1] [r2; r3; r4]); [by apply requests_among_when|].
  intros _.
  apply (requests_among_bind _ _ [r2] [r3; r4]); [by apply requests_among_when|].
  intros _.
  apply (requests_among_bind _ _ [r3] [r4]); [by apply requests_among_when|].
  intros _.
  apply (requests_among_bind _ _ [r4] []); [by apply requests_among_when|].
  intros _. apply requests_among_print.
Qed.

Lemma requests_among_after_setenv (rest : @H F unit) cands made forced key value h :
  requests_among rest cands made forced ->
  let run := (_ ← setenv key value; rest) h in
  h_environ (snd run) = <[key := value]> (h_environ h) /\
  (forall code, fst run = inl (SystemExit code) -> code = 1) /\
  (exists l, h_requests (snd run) = h_requests h ++ l /\ sublist l cands) /\
  (forced = true -> fst run = inr tt -> h_requests (snd run) = h_requests h ++ made).
Proof.
  intros Hrest run. subst run. unfold mbind, H_bind, setenv.
  destruct (Hrest (Host (h_fs h) (h_stdout h) (h_requests h)
                     (<[key := value]> (h_environ h)))) as (He & Hx & Hl & Hf).
  cbn [h_environ h_requests] in He, Hl, Hf.
  split; [exact He|]. split; [exact Hx|]. split; [exact Hl|exact Hf].
Qed.

Variable parse_args : list string * (Z + arguments).

Lemma main_run script_file home args (h : @host F) :
  snd parse_args = inr args ->
  let run := main mkdir iterdir snapshot_download parse_args script_file home h in
  h_environ (snd run) =
    <["HUGGINGFACE_HUB_CACHE" :=
        path_str (path_div (path_div home ".cache") "huggingface_temp")]> (h_environ h) /\
  (forall code, fst run = inl (SystemExit code) -> code = 1) /\
  (exists made, h_requests (snd run) = h_requests h ++ made /\
                sublist made (main_requests script_file home)) /\
  (a_force args = true -> fst run = inr tt ->
     h_requests (snd run) = h_requests h ++ selected_requests script_file home args).
Proof.
  intros Hparse. unfold main. unfold mbind at 1. unfold H_bind at 1.
  unfold do_parse_args. rewrite Hparse.
  match goal with
  | |- context [ h_environ (snd (_ ?h1)) ] =>
      change (h_environ h) with (h_environ h1);
      change (h_requests h) with (h_requests h1)
  end.
  apply requests_among_after_setenv. cbv zeta.
  rewrite (selected_requests_chosen script_file home args _ _ _ _ eq_refl).
  unfold main_requests.
  apply requests_among_selection; apply requests_among_download.
Qed.

(** X21: when argparse ends the process (status 0 after [--help], 2 on a
    command line it rejects), [main] exits with that status before it
    touches the environment or makes a request.  Once the command line is
    parsed, [main] sets [HUGGINGFACE_HUB_CACHE] to
    [.cache/huggingface_temp] under the home directory, exits only with
    status 1, and the requests it makes are some of the requests for the
    four known models, in the order text-to-image, shape, turbo, paint, each
    at most once. *)
Theorem main_requests_known_models_in_order script_file home (h : @host F) :
  let run := main mkdir iterdir snapshot_download parse_args script_file home h in
  match snd parse_args with
  | inl code =>
      fst run = inl (SystemExit code) /\
      h_environ (snd run) = h_environ h /\ h_requests (snd run) = h_requests h
  | inr args =>
      h_environ (snd run) =
        <["HUGGINGFACE_HUB_CACHE" :=
            path_str (path_div (path_div home ".cache") "huggingface_temp")]>
          (h_environ h) /\
      (forall code, fst run = inl (SystemExit code) -> code = 1) /\
      exists made, h_requests (snd run) = h_requests h ++ made /\
                   sublist made (main_requests script_file home)
  end.
Proof.
  intros run. destruct (snd parse_args) as [code|args] eqn:Hparse.
  - subst run. unfold main. unfold mbind at 1. unfold H_bind at 1.
    unfold do_parse_args. rewrite Hparse. cbn [fst snd h_environ h_requests]. auto.
  - destruct (main_run script_file home args h Hparse) as (He & Hx & Hl & _).
    split; [exact He|]. split; [exact Hx | exact Hl].
Qed.

(** X22: with [--force], when [main] returns it has made exactly the requests
    of the selected models, in order; a model is selected by its flag or by
    [--all], and all are selected when no model flag is given. *)
Theorem main_with_force_requests_the_selection script_file home args (h : @host F) :
  snd parse_args = inr args ->
  a_force args = true ->
  fst (main mkdir iterdir snapshot_download parse_args script_file home h) = inr tt ->
  h_requests (snd (main mkdir iterdir snapshot_download parse_args script_file home h)) =
    h_requests h ++ selected_requests script_file home args.
Proof.
  intros Hparse Hforce Hok.
  destruct (main_run script_file home args h Hparse) as (_ & _ & _ & Hf).
  exact (Hf Hforce Hok).
Qed.
End MainRun.

(** ** The properties on an example host *)

Lemma skips_populated_directory_witness :
  example_iterdir
    (target_directory script_path "tencent/Hunyuan3D-2" (Some "hunyuan3d-dit-v2-0") None)
    (h_fs populated_host) = inr ["config.yaml"] /\
  download_model example_mkdir example_iterdir example_download script_path
    "tencent/Hunyuan3D-2" (Some "hunyuan3d-dit-v2-0") None false populated_host =
    (inr tt,
     Host (h_fs populated_host)
       [ downloading_line script_path "tencent/Hunyuan3D-2"
           (Some "hunyuan3d-dit-v2-0") None;
         "Files already exist in /repo/models/tencent/Hunyuan3D-2/hunyuan3d-dit-v2-0. Use --force to overwrite." ]
       [] ∅).
Proof.
  assert (Hit : example_iterdir
                  (target_directory script_path "tencent/Hunyuan3D-2"
                     (Some "hunyuan3d-dit-v2-0") None)
                  (h_fs populated_host) = inr ["config.yaml"])
    by (vm_compute; reflexivity).
  split; [exact Hit|].
  refine (eq_trans
            (download_model_skips_populated_directory example_mkdir example_iterdir
               example_download script_path "tencent/Hunyuan3D-2"
               (Some "hunyuan3d-dit-v2-0") None populated_host _ _ ["config.yaml"]
               eq_refl eq_refl Hit _) _).
  - discriminate.
  - vm_compute. reflexivity.
Defined.

Lemma requests_the_parent_directory_witness :
  example_iterdir
    (target_directory script_path "tencent/Hunyuan3D-2" (Some "hunyuan3d-dit-v2-0") None)
    (h_fs fresh_host) = inr [] /\
  download_model example_mkdir example_iterdir example_download script_path
    "tencent/Hunyuan3D-2" (Some "hunyuan3d-dit-v2-0") None false fresh_host =
    (inr tt,
     Host []
       [ downloading_line script_path "tencent/Hunyuan3D-2"
           (Some "hunyuan3d-dit-v2-0") None;
         "Successfully downloaded tencent/Hunyuan3D-2 to /repo/models/tencent/Hunyuan3D-2" ]
       [ Request "tencent/Hunyuan3D-2" (parse_path "/repo/models/tencent/Hunyuan3D-2")
           (Some ["hunyuan3d-dit-v2-0/*"]) ]
       ∅).
Proof.
  assert (Hit : example_iterdir
                  (target_directory script_path "tencent/Hunyuan3D-2"
                     (Some "hunyuan3d-dit-v2-0") None)
                  (h_fs fresh_host) = inr [])
    by (vm_compute; reflexivity).
  split; [exact Hit|].
  refine (eq_trans
            (download_model_requests_the_parent_directory example_mkdir example_iterdir
               example_download script_path "tencent/Hunyuan3D-2"
               (Some "hunyuan3d-dit-v2-0") None false fresh_host _ _ _ _
               eq_refl eq_refl (or_intror Hit) eq_refl) _).
  vm_compute. reflexivity.
Defined.

Lemma without_subfolder_witness :
  exists rq,
    h_requests
      (snd (download_model example_mkdir example_iterdir example_download script_path
              "Tencent-Hunyuan/HunyuanDiT-v1.1-Diffusers-Distilled" None
              (Some (parse_path "/home/user/GitHub/Hunyuan3D-2/models")) true fresh_host)) =
      [rq] /\
    rq_allow_patterns rq = None /\
    rq_local_dir rq =
      parse_path "/home/user/GitHub/Hunyuan3D-2/models/tencent/Tencent-Hunyuan" /\
    rq_local_dir rq <>
      target_directory script_path
        "Tencent-Hunyuan/HunyuanDiT-v1.1-Diffusers-Distilled" None
        (Some (parse_path "/home/user/GitHub/Hunyuan3D-2/models")).
Proof.
  destruct (download_model_without_subfolder_downloads_beside_target example_mkdir
              example_iterdir example_download script_path
              "Tencent-Hunyuan/HunyuanDiT-v1.1-Diffusers-Distilled" None
              (Some (parse_path "/home/user/GitHub/Hunyuan3D-2/models")) true fresh_host
              _ _ eq_refl eq_refl (or_introl eq_refl) eq_refl)
    as (rq & Hr & _ & Hp & Hd & Hne).
  exists rq. split; [exact Hr|]. split; [exact Hp|]. split; [|exact Hne].
  rewrite Hd. vm_compute. reflexivity.
Defined.

Lemma with_subfolder_witness :
  example_iterdir
    (target_directory script_path "tencent/Hunyuan3D-2" (Some "hunyuan3d-dit-v2-0") None)
    (h_fs fresh_host) = inr [] /\
  plain_name "hunyuan3d-dit-v2-0" = true /\
  exists rq,
    h_requests
      (snd (download_model example_mkdir example_iterdir example_download script_path
              "tencent/Hunyuan3D-2" (Some "hunyuan3d-dit-v2-0") None false fresh_host)) =
      [rq] /\
    rq_allow_patterns rq = Some ["hunyuan3d-dit-v2-0/*"] /\
    path_div (rq_local_dir rq) "hunyuan3d-dit-v2-0" =
      target_directory script_path "tencent/Hunyuan3D-2" (Some "hunyuan3d-dit-v2-0") None.
Proof.
  assert (Hit : example_iterdir
                  (target_directory script_path "tencent/Hunyuan3D-2"
                     (Some "hunyuan3d-dit-v2-0") None)
                  (h_fs fresh_host) = inr [])
    by (vm_compute; reflexivity).
  assert (Hp : plain_name "hunyuan3d-dit-v2-0" = true) by reflexivity.
  split; [exact Hit|]. split; [exact Hp|].
  assert (Hdot : "hunyuan3d-dit-v2-0" <> ".") by discriminate.
  destruct (download_model_with_subfolder_downloads_into_target example_mkdir
              example_iterdir example_download script_path "tencent/Hunyuan3D-2"
              (Some "hunyuan3d-dit-v2-0") None false fresh_host _ _ "hunyuan3d-dit-v2-0"
              eq_refl eq_refl (or_intror Hit) eq_refl Hp Hdot)
    as (rq & Hr & _ & Hpat & _ & Hdir).
  exists rq. split; [exact Hr|]. split; [exact Hpat | exact Hdir].
Defined.

Lemma main_with_force_witness :
  fst (main example_mkdir example_iterdir example_download
         ([], inr (Arguments false false false false false true))
         script_path home_path fresh_host) = inr tt /\
  selected_requests script_path home_path (Arguments false false false false false true) =
    main_requests script_path home_path /\
  h_requests
    (snd (main example_mkdir example_iterdir example_download
            ([], inr (Arguments false false false false false true))
            script_path home_path fresh_host)) =
    main_requests script_path home_path.
Proof.
  assert (Hok : fst (main example_mkdir example_iterdir example_download
                       ([], inr (Arguments false false false false false true))
                       script_path home_path fresh_host) = inr tt)
    by (vm_compute; reflexivity).
  assert (Hsel : selected_requests script_path home_path
                   (Arguments false false false false false true) =
                 main_requests script_path home_path)
    by (vm_compute; reflexivity).
  split; [exact Hok|]. split; [exact Hsel|].
  rewrite <- Hsel.
  exact (main_with_force_requests_the_selection example_mkdir example_iterdir
           example_download ([], inr (Arguments false false false false false true))
           script_path home_path
           (Arguments false false false false false true) fresh_host
           eq_refl eq_refl Hok).
Defined.
